(** * Credit-card statement extractor: shallow embedding and verified properties

    The development follows the Python sources [utils.py], [config.py],
    [extractors/base.py] and [extractors/patagonia.py].

    - Python [str] values are modelled as [string]; a character is a code
      point below 256, and the character classes ([\s], [\d], [\w]), case maps
      and whitespace stripping are those of Python 3 on that range.
    - Python [float] values are IEEE binary64 numbers, modelled by the
      primitive type [float]; [float(s)] rounds the decimal numeral to the
      nearest binary64 number.  The builtin [sum] is modelled for both of its
      algorithms (plain up to CPython 3.11, compensated from 3.12 on).
    - [datetime.strptime] is modelled for formats made of the directives
      [%d %m %Y %b %B], each at most once, in the C locale.
    - Regular expressions are run by a backtracking matcher with capture
      groups, in the priority order of Python's [re] module.
    - Records ([dict]s with a fixed set of keys) are Rocq records; a key that
      may be missing is an [option] field. *)

From Stdlib Require Import Bool List Arith ZArith Lia String Ascii.
From Stdlib Require Import Floats.
Import ListNotations.

Set Warnings "-inexact-float,-abstract-large-number".

Open Scope string_scope.
Open Scope bool_scope.
Open Scope nat_scope.

(* ================================================================== *)
(** * Python strings *)
(* ================================================================== *)

Module PyStr.

Definition code (c : ascii) : nat := nat_of_ascii c.

Definition in_range (lo hi : nat) (c : ascii) : bool :=
  (lo <=? code c) && (code c <=? hi).

(** [str.isspace] / regex [\s]: TAB..CR, FS..US, SPACE, NEL (0x85),
    NBSP (0xA0). *)
Definition is_space (c : ascii) : bool :=
  in_range 9 13 c || in_range 28 32 c
  || (code c =? 133) || (code c =? 160).

(** regex [\d]: the decimal digits; below 256 these are [0-9]. *)
Definition is_digit (c : ascii) : bool := in_range 48 57 c.

Definition is_upper_ascii (c : ascii) : bool := in_range 65 90 c.
Definition is_lower_ascii (c : ascii) : bool := in_range 97 122 c.

(** [str.isalnum] below 256: ASCII letters and digits, the Latin-1
    letters, the superscript digits and the vulgar fractions. *)
Definition is_alnum (c : ascii) : bool :=
  is_digit c || is_upper_ascii c || is_lower_ascii c
  || (code c =? 170) || (code c =? 178) || (code c =? 179)
  || (code c =? 181) || (code c =? 185) || (code c =? 186)
  || in_range 188 190 c || in_range 192 214 c
  || in_range 216 246 c || in_range 248 255 c.

(** regex [\w]: alphanumeric or underscore. *)
Definition is_word (c : ascii) : bool := is_alnum c || (code c =? 95).

(** [str.lower] on one character: A-Z and the Latin-1 capitals
    (0xC0-0xDE but the multiplication sign 0xD7) move up by 32. *)
Definition lower_char (c : ascii) : ascii :=
  if is_upper_ascii c || in_range 192 214 c || in_range 216 222 c
  then ascii_of_nat (code c + 32) else c.

(** [str.upper] on one character.  The sharp s (0xDF) becomes "SS".  The
    upper-case forms of the micro sign (0xB5) and of y-diaeresis (0xFF) lie
    above 255; the two characters are left as they are, which no pattern of
    the configuration can tell apart (they match only literal capitals,
    digits, [\s], [.] and [$]). *)
Definition upper_char (c : ascii) : string :=
  if is_lower_ascii c || in_range 224 246 c || in_range 248 254 c
  then String (ascii_of_nat (code c - 32)) ""
  else if code c =? 223 then "SS"
  else String c "".

Fixpoint lower (s : string) : string :=
  match s with
  | "" => ""
  | String c s' => String (lower_char c) (lower s')
  end.

Fixpoint upper (s : string) : string :=
  match s with
  | "" => ""
  | String c s' => upper_char c ++ upper s'
  end.

Definition is_empty (s : string) : bool :=
  match s with "" => true | _ => false end.

(** Truth value of a string: non-empty. *)
Definition truthy (s : string) : bool := negb (is_empty s).

Fixpoint lstrip (s : string) : string :=
  match s with
  | "" => ""
  | String c s' => if is_space c then lstrip s' else s
  end.

Fixpoint rstrip (s : string) : string :=
  match s with
  | "" => ""
  | String c s' =>
      let r := rstrip s' in
      if is_empty r && is_space c then "" else String c r
  end.

(** [str.strip()] *)
Definition strip (s : string) : string := rstrip (lstrip s).

(** [s[n:]] and [s[:n]] for [n >= 0]; both are total, as in Python. *)
Fixpoint slice_from (n : nat) (s : string) : string :=
  match n, s with
  | O, _ => s
  | S _, "" => ""
  | S n', String _ s' => slice_from n' s'
  end.

Fixpoint slice_to (n : nat) (s : string) : string :=
  match n, s with
  | O, _ => ""
  | S _, "" => ""
  | S n', String c s' => String c (slice_to n' s')
  end.

(** [s[a:b]] for [0 <= a <= b]. *)
Definition slice (a b : nat) (s : string) : string :=
  slice_to (b - a) (slice_from a s).

(** [s.startswith(p)] *)
Fixpoint startswith (p s : string) : bool :=
  match p, s with
  | "", _ => true
  | String _ _, "" => false
  | String a p', String b s' => Ascii.eqb a b && startswith p' s'
  end.

(** [sub in s] *)
Fixpoint contains (sub s : string) : bool :=
  startswith sub s ||
  match s with
  | "" => false
  | String _ s' => contains sub s'
  end.

(** [s.endswith(c)] for a one-character suffix. *)
Fixpoint endswith_char (c : ascii) (s : string) : bool :=
  match s with
  | "" => false
  | String a "" => Ascii.eqb a c
  | String _ s' => endswith_char c s'
  end.

(** [s[:-1]] *)
Fixpoint drop_last (s : string) : string :=
  match s with
  | "" => ""
  | String _ "" => ""
  | String c s' => String c (drop_last s')
  end.

(** [c in s] for one character. *)
Fixpoint has_char (c : ascii) (s : string) : bool :=
  match s with
  | "" => false
  | String a s' => Ascii.eqb a c || has_char c s'
  end.

Fixpoint filter (p : ascii -> bool) (s : string) : string :=
  match s with
  | "" => ""
  | String c s' => if p c then String c (filter p s') else filter p s'
  end.

Fixpoint map (f : ascii -> ascii) (s : string) : string :=
  match s with
  | "" => ""
  | String c s' => String (f c) (map f s')
  end.

Fixpoint forallb (p : ascii -> bool) (s : string) : bool :=
  match s with
  | "" => true
  | String c s' => p c && forallb p s'
  end.

(** [s.split(c)] for a one-character separator: one more piece than there
    are separators. *)
Fixpoint split (sep : ascii) (s : string) : list string :=
  match s with
  | "" => [""]
  | String c s' =>
      if Ascii.eqb c sep then "" :: split sep s'
      else match split sep s' with
           | [] => [String c ""]
           | p :: ps => String c p :: ps
           end
  end.

(** [s.replace(old, new)]: every occurrence of [old], left to right, without
    overlap.  [skip] counts the characters of an occurrence still to drop. *)
Fixpoint replace_from (old new : string) (skip : nat) (s : string) : string :=
  match s with
  | "" => ""
  | String c s' =>
      match skip with
      | S k => replace_from old new k s'
      | O => if startswith old s
             then new ++ replace_from old new (String.length old - 1) s'
             else String c (replace_from old new 0 s')
      end
  end.

Fixpoint interleave (new s : string) : string :=
  match s with
  | "" => ""
  | String c s' => String c (new ++ interleave new s')
  end.

Definition replace (old new s : string) : string :=
  if is_empty old then new ++ interleave new s
  else replace_from old new 0 s.

End PyStr.

(* ================================================================== *)
(** * Regular expressions (Python's [re], backtracking with groups) *)
(* ================================================================== *)

Module Re.

Inductive re : Type :=
| Eps                       (** empty pattern *)
| Chr (p : ascii -> bool)   (** one character of a class *)
| Seq (a b : re)            (** [ab] *)
| Alt (a b : re)            (** [a|b], [a] first *)
| Star (a : re)             (** [a*], greedy *)
| LazyStar (a : re)         (** [a*?] *)
| Grp (n : nat) (a : re)    (** capturing group number [n] *)
| Bol                       (** [^] *)
| Eol.                      (** [$]: at the end or before a final newline *)

(** Position in the subject, what is left of it, and the groups closed so
    far (latest first). *)
Record mstate : Type := MState {
  pos : nat;
  rest : string;
  groups : list (nat * (nat * nat))
}.

(** The loop of a greedy star: one more turn of [body] first, then the
    rest of the pattern [k].  A turn that consumes nothing ends the loop.
    [fuel] bounds the number of turns; one more than the length of the
    subject left is always enough. *)
Fixpoint star_loop {A : Type}
         (body : mstate -> (mstate -> option A) -> option A)
         (k : mstate -> option A) (fuel : nat) (st : mstate) : option A :=
  match fuel with
  | O => k st
  | S fuel' =>
      match body st (fun st' =>
               if pos st <? pos st' then star_loop body k fuel' st' else None) with
      | Some x => Some x
      | None => k st
      end
  end.

(** The loop of a lazy star: the rest of the pattern first. *)
Fixpoint lazy_loop {A : Type}
         (body : mstate -> (mstate -> option A) -> option A)
         (k : mstate -> option A) (fuel : nat) (st : mstate) : option A :=
  match fuel with
  | O => k st
  | S fuel' =>
      match k st with
      | Some x => Some x
      | None =>
          body st (fun st' =>
            if pos st <? pos st' then lazy_loop body k fuel' st' else None)
      end
  end.

(** [run r st k]: the first way, in priority order, of matching [r] at
    [st] that the continuation [k] accepts. *)
Fixpoint run {A : Type} (r : re) (st : mstate)
         (k : mstate -> option A) {struct r} : option A :=
  match r with
  | Eps => k st
  | Chr p =>
      match rest st with
      | String c s =>
          if p c then k (MState (S (pos st)) s (groups st)) else None
      | "" => None
      end
  | Seq a b => run a st (fun st' => run b st' k)
  | Alt a b =>
      match run a st k with
      | Some x => Some x
      | None => run b st k
      end
  | Star a =>
      star_loop (fun st' k' => run a st' k') k (S (String.length (rest st))) st
  | LazyStar a =>
      lazy_loop (fun st' k' => run a st' k') k (S (String.length (rest st))) st
  | Grp n a =>
      run a st (fun st' =>
        k (MState (pos st') (rest st') ((n, (pos st, pos st')) :: groups st')))
  | Bol => if pos st =? 0 then k st else None
  | Eol =>
      match rest st with
      | "" => k st
      | String c "" => if Ascii.eqb c "010" then k st else None
      | _ => None
      end
  end.

(** A match object: [start()], [end()] and the groups. *)
Record rmatch : Type := RMatch {
  m_start : nat;
  m_end : nat;
  m_groups : list (nat * (nat * nat))
}.

Definition match_at (r : re) (p : nat) (s : string) : option rmatch :=
  run r (MState p s []) (fun st => Some (RMatch p (pos st) (groups st))).

(** [re.match(r, s)] *)
Definition rmatch_of (r : re) (s : string) : option rmatch := match_at r 0 s.

(** Leftmost match starting at position [p] or later, [s] being the
    subject from [p] on. *)
Fixpoint search_from (r : re) (p : nat) (s : string) : option rmatch :=
  match match_at r p s with
  | Some m => Some m
  | None =>
      match s with
      | "" => None
      | String _ s' => search_from r (S p) s'
      end
  end.

(** [re.search(r, s)] *)
Definition search (r : re) (s : string) : option rmatch := search_from r 0 s.

Fixpoint lookup (n : nat) (gs : list (nat * (nat * nat))) : option (nat * nat) :=
  match gs with
  | [] => None
  | (i, se) :: gs' => if i =? n then Some se else lookup n gs'
  end.

(** [m.group(n)] on subject [s]; [None] when the group took no part. *)
Definition group (n : nat) (m : rmatch) (s : string) : option string :=
  match lookup n (m_groups m) with
  | Some (a, b) => Some (PyStr.slice a b s)
  | None => None
  end.

(** Derived forms. *)
Definition Plus (a : re) : re := Seq a (Star a).          (* a+ *)
Definition LazyPlus (a : re) : re := Seq a (LazyStar a).  (* a+? *)
Definition Opt (a : re) : re := Alt a Eps.                (* a? *)

Fixpoint Rep (n : nat) (a : re) : re :=                   (* a{n} *)
  match n with
  | O => Eps
  | S n' => Seq a (Rep n' a)
  end.

Fixpoint UpTo (n : nat) (a : re) : re :=                  (* a{0,n} *)
  match n with
  | O => Eps
  | S n' => Opt (Seq a (UpTo n' a))
  end.

Definition Range (lo hi : nat) (a : re) : re :=           (* a{lo,hi} *)
  Seq (Rep lo a) (UpTo (hi - lo) a).

Definition C (c : ascii) : re := Chr (Ascii.eqb c).

(** A literal string. *)
Fixpoint Lit (s : string) : re :=
  match s with
  | "" => Eps
  | String c s' => Seq (C c) (Lit s')
  end.

(** A literal string under [re.IGNORECASE]. *)
Fixpoint LitI (s : string) : re :=
  match s with
  | "" => Eps
  | String c s' =>
      Seq (Chr (fun x => Ascii.eqb (PyStr.lower_char x) (PyStr.lower_char c)))
          (LitI s')
  end.

Definition ws : re := Chr PyStr.is_space.      (* \s *)
Definition digit : re := Chr PyStr.is_digit.   (* \d *)
Definition word : re := Chr PyStr.is_word.     (* \w *)
Definition dot : re := Chr (fun c => negb (Ascii.eqb c "010")).  (* . *)

(** [re.sub(r, repl, s)] for a pattern that matches no empty string:
    every match, left to right, is replaced by [repl].  [s] is the subject
    from position [p] on. *)
Fixpoint sub_from (r : re) (repl : string) (fuel p : nat) (s : string) : string :=
  match fuel with
  | O => s
  | S fuel' =>
      match search_from r p s with
      | None => s
      | Some m =>
          PyStr.slice_to (m_start m - p) s ++ repl ++
          sub_from r repl fuel' (m_end m) (PyStr.slice_from (m_end m - p) s)
      end
  end.

Definition sub (r : re) (repl s : string) : string :=
  sub_from r repl (S (String.length s)) 0 s.

End Re.

Import Re.


(* ================================================================== *)
(** * Python floats *)
(* ================================================================== *)

Module PyFloat.

(** The quotient [n / d] of two positive integers, rounded to the nearest
    binary64 number, ties to even. *)
Definition of_ratio (n d : Z) : float :=
  match n with
  | Z0 => PrimFloat.zero
  | _ =>
      let '(q, e, l) := SFdiv_core_binary prec emax n 0 d 0 in
      SF2Prim (binary_round_aux prec emax false q e l)
  end.

Definition digit_val (c : ascii) : Z := Z.of_nat (PyStr.code c - 48).

(** The integer written by the digits of [s]; other characters are skipped. *)
Fixpoint digits_value (acc : Z) (s : string) : Z :=
  match s with
  | "" => acc
  | String c s' =>
      digits_value (if PyStr.is_digit c then acc * 10 + digit_val c else acc) s'
  end.

Fixpoint count_char (c : ascii) (s : string) : nat :=
  match s with
  | "" => 0
  | String a s' => (if Ascii.eqb a c then 1 else 0) + count_char c s'
  end.

Fixpoint has_digit (s : string) : bool :=
  match s with
  | "" => false
  | String c s' => PyStr.is_digit c || has_digit s'
  end.

(** Number of characters after the first ["."], 0 when there is none. *)
Fixpoint frac_len (s : string) : nat :=
  match s with
  | "" => 0
  | String c s' => if Ascii.eqb c "." then String.length s' else frac_len s'
  end.

(** [float(s)] for a string of digits and points, the only strings
    [extract_amount] hands to it: the value of a numeral with at least one
    digit and at most one point; [None] is [ValueError]. *)
Definition float_of_str (s : string) : option float :=
  if PyStr.forallb (fun c => PyStr.is_digit c || Ascii.eqb c ".") s
     && (count_char "." s <=? 1) && has_digit s
  then Some (of_ratio (digits_value 0 s) (10 ^ Z.of_nat (frac_len s)))
  else None.

End PyFloat.

(* ================================================================== *)
(** * config.py *)
(* ================================================================== *)

Module Config.

(** [DATE_FORMATS] *)
Definition DATE_FORMATS : list string :=
  ["%d/%m/%Y"; "%d-%m-%Y"; "%d %b %Y"; "%d %B %Y"; "%Y-%m-%d"].

(** [MESES_ES], in insertion order. *)
Definition MESES_ES : list (string * string) :=
  [("ene", "jan"); ("enero", "january");
   ("feb", "feb"); ("febrero", "february");
   ("mar", "mar"); ("marzo", "march");
   ("abr", "apr"); ("abril", "april");
   ("may", "may"); ("mayo", "may");
   ("jun", "jun"); ("junio", "june");
   ("jul", "jul"); ("julio", "july");
   ("ago", "aug"); ("agosto", "august");
   ("sep", "sep"); ("septiembre", "september");
   ("oct", "oct"); ("octubre", "october");
   ("nov", "nov"); ("noviembre", "november");
   ("dic", "dec"); ("diciembre", "december")].

(** [BANK_CONFIGS["Patagonia"]["date_format"]] *)
Definition patagonia_date_format : string := "%d %b. %Y".

(** [BANK_CONFIGS["Patagonia"]["saldo_patterns"]]:
    [SALDO\s+ANTERIOR], [SU\s+PAGO\s+EN\s+PESOS]. *)
Definition saldo_patterns : list re :=
  [Seq (Lit "SALDO") (Seq (Plus ws) (Lit "ANTERIOR"));
   Seq (Lit "SU") (Seq (Plus ws) (Seq (Lit "PAGO") (Seq (Plus ws)
     (Seq (Lit "EN") (Seq (Plus ws) (Lit "PESOS"))))))].

(** [BANK_CONFIGS["Patagonia"]["cargos_patterns"]]:
    [COMIS\.\s+PROD\.\s+PAT], [IVA\s+\$\s+21], [INTERESES\s+FINANCIACION],
    [IMP\s+DE\s+SELLOS]. *)
Definition cargos_patterns : list re :=
  [Seq (Lit "COMIS.") (Seq (Plus ws) (Seq (Lit "PROD.") (Seq (Plus ws) (Lit "PAT"))));
   Seq (Lit "IVA") (Seq (Plus ws) (Seq (Lit "$") (Seq (Plus ws) (Lit "21"))));
   Seq (Lit "INTERESES") (Seq (Plus ws) (Lit "FINANCIACION"));
   Seq (Lit "IMP") (Seq (Plus ws) (Seq (Lit "DE") (Seq (Plus ws) (Lit "SELLOS"))))].

(** [BANK_CONFIGS["Patagonia"]["processor"]] *)
Definition processor : string := "patagonia".

End Config.

(* ================================================================== *)
(** * datetime.strptime *)
(* ================================================================== *)

Module PyDate.

(** A [datetime] at midnight: [strptime] with the directives below sets no
    time of day. *)
Record datetime : Type := Date { year : nat; month : nat; day : nat }.

Definition is_leap (y : nat) : bool :=
  ((y mod 4 =? 0) && negb (y mod 100 =? 0)) || (y mod 400 =? 0).

Definition days_in_month (y m : nat) : nat :=
  match m with
  | 2 => if is_leap y then 29 else 28
  | 4 | 6 | 9 | 11 => 30
  | _ => 31
  end.

(** The constructor's range checks ([ValueError] otherwise). *)
Definition valid_date (y m d : nat) : bool :=
  (1 <=? y) && (y <=? 9999) && (1 <=? m) && (m <=? 12)
  && (1 <=? d) && (d <=? days_in_month y m).

(** Month names of the C locale, lower-cased as [_strptime.LocaleTime]
    keeps them. *)
Definition a_month : list string :=
  ["jan"; "feb"; "mar"; "apr"; "may"; "jun";
   "jul"; "aug"; "sep"; "oct"; "nov"; "dec"].

Definition f_month : list string :=
  ["january"; "february"; "march"; "april"; "may"; "june";
   "july"; "august"; "september"; "october"; "november"; "december"].

(** The same names longest first (a stable sort), the order in which
    [_strptime] writes the alternatives of [%B]. *)
Definition f_month_by_length : list string :=
  ["september"; "february"; "november"; "december"; "january"; "october";
   "august"; "march"; "april"; "june"; "july"; "may"].

Fixpoint alternatives (names : list string) : re :=
  match names with
  | [] => Chr (fun _ => false)
  | [n] => LitI n
  | n :: ns => Alt (LitI n) (alternatives ns)
  end.

Definition one_of (cs : string) : re := Chr (fun c => PyStr.has_char c cs).

(** The regular expression of a directive; the group numbers stand for the
    group names [d], [m], [Y], [b], [B]. *)
Definition directive (c : ascii) : option re :=
  if Ascii.eqb c "d" then
    (* 3[0-1]|[1-2]\d|0[1-9]|[1-9]| [1-9] *)
    Some (Grp 1 (Alt (Seq (C "3") (one_of "01"))
                (Alt (Seq (one_of "12") digit)
                (Alt (Seq (C "0") (one_of "123456789"))
                (Alt (one_of "123456789")
                     (Seq (C " ") (one_of "123456789")))))))
  else if Ascii.eqb c "m" then
    (* 1[0-2]|0[1-9]|[1-9] *)
    Some (Grp 2 (Alt (Seq (C "1") (one_of "012"))
                (Alt (Seq (C "0") (one_of "123456789"))
                     (one_of "123456789"))))
  else if Ascii.eqb c "Y" then Some (Grp 3 (Rep 4 digit))   (* \d\d\d\d *)
  else if Ascii.eqb c "b" then Some (Grp 4 (alternatives a_month))
  else if Ascii.eqb c "B" then Some (Grp 5 (alternatives f_month_by_length))
  else None.

(** [_strptime.TimeRE.pattern]: a run of whitespace becomes [\s+], a
    directive its expression, any other character itself (compared without
    case).  [None]: a stray [%] or a directive outside [d m Y b B], the ones
    the repository configures; Python knows more directives, which this
    model does not cover. *)
Fixpoint format_re (after_ws : bool) (fmt : string) : option re :=
  match fmt with
  | "" => Some Eps
  | String c fmt' =>
      if Ascii.eqb c "%" then
        match fmt' with
        | "" => None
        | String d fmt'' =>
            match directive d, format_re false fmt'' with
            | Some r, Some r' => Some (Seq r r')
            | _, _ => None
            end
        end
      else if PyStr.is_space c then
        match format_re true fmt' with
        | Some r' => Some (if after_ws then r' else Seq (Plus ws) r')
        | None => None
        end
      else
        match format_re false fmt' with
        | Some r' => Some (Seq (LitI (String c "")) r')
        | None => None
        end
  end.

(** [int(s)] for the text of a numeric group. *)
Definition int_of (s : string) : nat := Z.to_nat (PyFloat.digits_value 0 s).

Fixpoint index_of (name : string) (names : list string) (i : nat) : option nat :=
  match names with
  | [] => None
  | n :: ns => if String.eqb n name then Some i else index_of name ns (S i)
  end.

Definition opt_or {A : Type} (a b : option A) : option A :=
  match a with Some _ => a | None => b end.

Definition opt_map {A B : Type} (f : A -> B) (a : option A) : option B :=
  match a with Some x => Some (f x) | None => None end.

Definition opt_bind {A B : Type} (a : option A) (f : A -> option B) : option B :=
  match a with Some x => f x | None => None end.

Definition opt_default {A : Type} (d : A) (a : option A) : A :=
  match a with Some x => x | None => d end.

(** The directives of a format, in order; [None] for a [%] at the end. *)
Fixpoint directives_of (fmt : string) : option (list ascii) :=
  match fmt with
  | "" => Some []
  | String c fmt' =>
      if Ascii.eqb c "%" then
        match fmt' with
        | "" => None
        | String d fmt'' => opt_map (cons d) (directives_of fmt'')
        end
      else directives_of fmt'
  end.

Fixpoint distinct (l : list ascii) : bool :=
  match l with
  | [] => true
  | c :: l' => negb (existsb (Ascii.eqb c) l') && distinct l'
  end.

(** The formats on which [strptime] below stands for Python's: every
    directive is one of [%d %m %Y %b %B], the ones the repository
    configures, and none comes twice.  Outside this fragment Python knows
    more directives ([%y], [%j], [%%], ...), and a directive used twice makes
    it raise [re.error], which is no [ValueError]; the model says nothing
    there. *)
Definition supported_format (fmt : string) : bool :=
  match directives_of fmt with
  | Some ds => forallb (fun d => PyStr.has_char d "dmYbB") ds && distinct ds
  | None => false
  end.

(** [datetime.strptime(data, fmt)] for a supported format; [None] stands
    for [ValueError]: no match at the start, text left over after the match,
    or a date that does not exist.  A field without directive keeps its
    default (1900, 1, 1). *)
Definition strptime (data fmt : string) : option datetime :=
  match format_re false fmt with
  | None => None
  | Some r =>
      match rmatch_of r data with
      | None => None
      | Some m =>
          if m_end m =? String.length data then
            let y := opt_default 1900 (opt_map int_of (group 3 m data)) in
            let mo :=
              opt_default 1
                (opt_or (opt_map int_of (group 2 m data))
                (opt_or (opt_bind (group 4 m data)
                           (fun t => index_of (PyStr.lower t) a_month 1))
                        (opt_bind (group 5 m data)
                           (fun t => index_of (PyStr.lower t) f_month 1)))) in
            let d := opt_default 1 (opt_map int_of (group 1 m data)) in
            if valid_date y mo d then Some (Date y mo d) else None
          else None
      end
  end.

End PyDate.

(* ================================================================== *)
(** * utils.py *)
(* ================================================================== *)

Module Utils.

Import PyDate.

(** [normalize_spanish_month] *)
Definition normalize_spanish_month (text : string) : string :=
  fold_left (fun text_lower '(es_month, en_month) =>
               PyStr.replace es_month en_month text_lower)
            Config.MESES_ES (PyStr.lower text).

(** The [for fmt in formats_to_try] loop: the first format that parses. *)
Fixpoint try_formats (date_str : string) (formats : list string) : option datetime :=
  match formats with
  | [] => None
  | fmt :: rest =>
      match strptime date_str fmt with
      | Some d => Some d
      | None => try_formats date_str rest
      end
  end.

(** [formats or DATE_FORMATS]: [None] and the empty list both select the
    default list. *)
Definition formats_to_try (formats : option (list string)) : list string :=
  match formats with
  | Some (f :: fs) => f :: fs
  | _ => Config.DATE_FORMATS
  end.

(** [parse_date] *)
Definition parse_date (date_str : string) (formats : option (list string))
  : option datetime :=
  if PyStr.is_empty date_str then None
  else
    let date_str := PyStr.strip date_str in
    if PyStr.is_empty date_str then None
    else
      let date_str := normalize_spanish_month date_str in
      try_formats date_str (formats_to_try formats).

Definition is_amount_char (c : ascii) : bool :=
  PyStr.is_digit c || Ascii.eqb c "." || Ascii.eqb c ",".

(** [extract_amount] *)
Definition extract_amount (amount_str : string) : option float :=
  if PyStr.is_empty amount_str then None
  else
    let cleaned := PyStr.strip amount_str in
    let is_negative := PyStr.endswith_char "-" cleaned in
    let cleaned := if is_negative then PyStr.strip (PyStr.drop_last cleaned)
                   else cleaned in
    (* re.sub(r'[^\d.,]', '', cleaned) *)
    let cleaned := Re.sub (Chr (fun c => negb (is_amount_char c))) "" cleaned in
    if PyStr.is_empty cleaned then None
    else
      let cleaned :=
        if PyStr.has_char "." cleaned && PyStr.has_char "," cleaned then
          PyStr.replace "," "." (PyStr.replace "." "" cleaned)
        else if PyStr.has_char "," cleaned then
          match PyStr.split "," cleaned with
          | [_; p1] =>
              if String.length p1 <=? 2 then PyStr.replace "," "." cleaned
              else PyStr.replace "," "" cleaned
          | _ => PyStr.replace "," "" cleaned
          end
        else if PyStr.has_char "." cleaned then
          match PyStr.split "." cleaned with
          | [p0; p1] =>
              if (String.length p1 <=? 2) && (String.length p0 <=? 3)
              then cleaned
              else PyStr.replace "." "" cleaned
          | _ => PyStr.replace "." "" cleaned
          end
        else cleaned in
      match PyFloat.float_of_str cleaned with
      | Some amount => Some (if is_negative then (- amount)%float else amount)
      | None => None
      end.

(** [\s+Cuota\s+\d+/\d+\s*$] *)
Definition cuota_tail_re : re :=
  Seq (Plus ws) (Seq (Lit "Cuota") (Seq (Plus ws) (Seq (Plus digit)
    (Seq (C "/") (Seq (Plus digit) (Seq (Star ws) Eol)))))).

(** The class [[\w\s\-\.\/*$%]]. *)
Definition is_description_char (c : ascii) : bool :=
  PyStr.is_word c || PyStr.is_space c || PyStr.has_char c "-./*$%".

(** [clean_description] *)
Definition clean_description (text : string) : string :=
  if PyStr.is_empty text then ""
  else
    let text := Re.sub (Plus ws) " " (PyStr.strip text) in
    let text := Re.sub cuota_tail_re "" text in
    let text := Re.sub (Chr (fun c => negb (is_description_char c))) " " text in
    let text := Re.sub (Plus ws) " " (PyStr.strip text) in
    PyStr.strip text.

End Utils.

(* ================================================================== *)
(** * Exceptions and list helpers *)
(* ================================================================== *)

(** The result of a call that may raise: [Raised] is an exception of class
    [Exception] leaving the call. *)
Inductive outcome (A : Type) : Type :=
| Returned (a : A)
| Raised.

Arguments Returned {A} a.
Arguments Raised {A}.

Definition bind {A B : Type} (x : outcome A) (f : A -> outcome B) : outcome B :=
  match x with
  | Returned a => f a
  | Raised => Raised
  end.

Notation "x <- c1 ;; c2" := (bind c1 (fun x => c2))
  (at level 61, c1 at next level, right associativity).

Module PyList.

(** [enumerate(l)] *)
Definition enumerate {A : Type} (l : list A) : list (nat * A) :=
  combine (seq 0 (List.length l)) l.

(** [del l[i]].  Python raises [IndexError] for [i >= len(l)]; the passes
    below delete only indices they took from [enumerate] over the same
    list, largest first, so the case is never met and the list is left as
    it is there. *)
Fixpoint delete_at {A : Type} (i : nat) (l : list A) : list A :=
  match l, i with
  | [], _ => []
  | _ :: l', O => l'
  | x :: l', S i' => x :: delete_at i' l'
  end.

(** [for i in reversed(indices): del l[i]] *)
Definition delete_reversed {A : Type} (indices : list nat) (l : list A) : list A :=
  fold_left (fun l i => delete_at i l) (rev indices) l.

(** [l[i] = f(l[i])], for [i < len(l)]. *)
Fixpoint update_at {A : Type} (i : nat) (f : A -> A) (l : list A) : list A :=
  match l, i with
  | [], _ => []
  | x :: l', O => f x :: l'
  | x :: l', S i' => x :: update_at i' f l'
  end.

(** The additions from 0, left to right: what a loop [total += x] over
    [xs] computes from [total = 0.0]. *)
Definition sum (xs : list float) : float :=
  fold_left PrimFloat.add xs 0%float.

(** The builtin [sum] over floats depends on the interpreter: up to CPython
    3.11 it adds the items in order; from CPython 3.12 on it also carries
    the rounding errors of the additions (Neumaier's compensated summation)
    and adds them at the end. *)
Inductive summation : Type :=
| Plain          (** CPython 3.11 and earlier *)
| Compensated.   (** CPython 3.12 and later *)

(** One turn of the compensated loop, on the running total [f_result] and
    the compensation [c]:
    [t = f_result + x;
     if (fabs(f_result) >= fabs(x)) c += (f_result - t) + x;
     else c += (x - t) + f_result;
     f_result = t]. *)
Definition neumaier_step (st : float * float) (x : float) : float * float :=
  let '(f_result, c) := st in
  let t := (f_result + x)%float in
  (t, if (abs x <=? abs f_result)%float
      then (c + ((f_result - t) + x))%float
      else (c + ((x - t) + f_result))%float).

(** The compensated sum.  The first item is added to the start value 0 by
    the generic addition; the loop runs on the other items; the compensation
    is added at the end when it is neither zero nor infinite nor a NaN
    ([if (c && isfinite(c)) f_result += c]). *)
Definition sum_compensated (xs : list float) : float :=
  match xs with
  | [] => 0%float
  | x :: rest =>
      let '(f_result, c) := fold_left neumaier_step rest ((0 + x)%float, 0%float) in
      if negb (c =? 0)%float && is_finite c then (f_result + c)%float
      else f_result
  end.

(** [sum(xs)], the builtin, over a sequence of floats.  (Of an empty sequence
    Python returns the integer 0, which the additions that follow read as
    0.0.) *)
Definition builtin_sum (py : summation) (xs : list float) : float :=
  match py with
  | Plain => sum xs
  | Compensated => sum_compensated xs
  end.

End PyList.

(* ================================================================== *)
(** * extractors/base.py *)
(* ================================================================== *)

Module Base.

Import PyDate Utils.

(** A movement [dict].  The keys [titular], [archivo_origen] and [banco]
    are added after the record is built: [None] is a missing key. *)
Record movement : Type := Movement {
  fecha : option datetime;
  comprobante : string;
  descripcion : string;
  importe : float;
  cuota : string;
  moneda : string;
  titular : option string;
  archivo_origen : option string;
  banco : option string
}.

Definition set_titular (t : string) (m : movement) : movement :=
  Movement (fecha m) (comprobante m) (descripcion m) (importe m) (cuota m)
           (moneda m) (Some t) (archivo_origen m) (banco m).

Definition set_metadata (archivo b : string) (m : movement) : movement :=
  Movement (fecha m) (comprobante m) (descripcion m) (importe m) (cuota m)
           (moneda m) (titular m) (Some archivo) (Some b).

(** Truth value of a string or [None]. *)
Definition opt_truthy (o : option string) : bool :=
  match o with
  | Some t => PyStr.truthy t
  | None => false
  end.

(** [mov.get('titular')] as a condition: the key is there and not empty. *)
Definition has_titular (m : movement) : bool := opt_truthy (titular m).

(** What the PDF library gives: [page.extract_text(keep_blank_chars=True)]
    returns a text or [None], or raises. *)
Record page : Type := Page { extract_text : outcome (option string) }.

(** A PDF path: its file name, and what [pdfplumber.open(path).pages]
    does, the pages or an exception. *)
Record pdf_path : Type := PdfPath {
  name : string;
  open_pages : outcome (list page)
}.

(** [BaseExtractor._extract_pages_from_pdf]: [except Exception] turns a
    failure to open into no pages. *)
Definition _extract_pages_from_pdf (pdf : pdf_path) : list page :=
  match open_pages pdf with
  | Returned pages => pages
  | Raised => []
  end.

(** [TextBasedExtractor._extract_text_from_pages] *)
Fixpoint _extract_text_from_pages_loop (full_text : string) (pages : list page)
  : outcome string :=
  match pages with
  | [] => Returned full_text
  | pg :: rest =>
      page_text <- extract_text pg ;;
      match page_text with
      | Some t =>
          _extract_text_from_pages_loop
            (if PyStr.truthy t then full_text ++ t else full_text) rest
      | None => _extract_text_from_pages_loop full_text rest
      end
  end.

Definition _extract_text_from_pages (pages : list page) : outcome string :=
  _extract_text_from_pages_loop "" pages.

(** [Total\s+Consumos\s+de\s+(.+?)\s+([\d.,]+)] *)
Definition titular_re : re :=
  Seq (Lit "Total") (Seq (Plus ws) (Seq (Lit "Consumos") (Seq (Plus ws)
    (Seq (Lit "de") (Seq (Plus ws) (Seq (Grp 1 (LazyPlus dot)) (Seq (Plus ws)
      (Grp 2 (Plus (Chr is_amount_char)))))))))).

(** [_extract_titular_info] *)
Definition _extract_titular_info (line : string) : option string :=
  if PyStr.contains "Total Consumos de" line && PyStr.contains "Tarjeta" line then
    match search titular_re line with
    | Some nombre_match =>
        PyDate.opt_map PyStr.strip (group 1 nombre_match line)
    | None => None
    end
  else None.

(** [[\d]{1,3}(?:\.[\d]{3})*(?:,[\d]{2})?\-?] *)
Definition monto_pattern : re :=
  Seq (Range 1 3 digit) (Seq (Star (Seq (C ".") (Rep 3 digit)))
    (Seq (Opt (Seq (C ",") (Rep 2 digit))) (Opt (C "-")))).

(** [(monto(?:\s+(?:monto|_))?)\s*_?\s*$] *)
Definition has_amount_re : re :=
  Seq (Grp 1 (Seq monto_pattern
               (Opt (Seq (Plus ws) (Alt monto_pattern (C "_"))))))
      (Seq (Star ws) (Seq (Opt (C "_")) (Seq (Star ws) Eol))).

Definition is_some {A : Type} (o : option A) : bool :=
  match o with Some _ => true | None => false end.

(** [_looks_like_movement] *)
Definition _looks_like_movement (line : string) : bool :=
  let line_len := String.length line in
  if (line_len <? 103) || (124 <? line_len) then false
  else is_some (search has_amount_re line).

Definition min_amount_pos : nat := 80.

(** [([\d.,]+\-?)\s+([\d.,_]+\-?)\s*_?\s*$] *)
Definition monto_doble_re : re :=
  Seq (Grp 1 (Seq (Plus (Chr is_amount_char)) (Opt (C "-"))))
    (Seq (Plus ws)
      (Seq (Grp 2 (Seq (Plus (Chr (fun c => is_amount_char c || Ascii.eqb c "_")))
                       (Opt (C "-"))))
        (Seq (Star ws) (Seq (Opt (C "_")) (Seq (Star ws) Eol))))).

(** [([.\d,\-]+)\s*$] *)
Definition monto_simple_re : re :=
  Seq (Grp 1 (Plus (Chr (fun c => is_amount_char c || Ascii.eqb c "-"))))
      (Seq (Star ws) Eol).

(** [^\d{1,3}(?:\.\d{3})*(?:,\d{2})?$] *)
Definition monto_valid_re : re :=
  Seq Bol (Seq (Range 1 3 digit) (Seq (Star (Seq (C ".") (Rep 3 digit)))
    (Seq (Opt (Seq (C ",") (Rep 2 digit))) Eol))).

(** [\s+(?:Cuota\s+)?(\d{2}/\d{2})\s*$] *)
Definition cuota_re : re :=
  Seq (Plus ws) (Seq (Opt (Seq (Lit "Cuota") (Plus ws)))
    (Seq (Grp 1 (Seq (Rep 2 digit) (Seq (C "/") (Rep 2 digit))))
      (Seq (Star ws) Eol))).

(** [^(\w+\*?[KX]?)] *)
Definition comprobante_re : re :=
  Seq Bol (Grp 1 (Seq (Plus word) (Seq (Opt (C "*"))
    (Opt (Chr (fun c => Ascii.eqb c "K" || Ascii.eqb c "X")))))).

(** [^(\d{2}\.\d{2}\.\d{2})$] *)
Definition fecha_re : re :=
  Seq Bol (Seq (Grp 1 (Seq (Rep 2 digit) (Seq (C ".") (Seq (Rep 2 digit)
    (Seq (C ".") (Rep 2 digit)))))) Eol).

(** Step 1 of [_parse_by_fixed_positions]: [monto_raw] and
    [monto_start_pos], from the double pattern when it matches the line
    from [min_amount_pos] on, else from the single one. *)
Definition locate_monto (line : string) : option (string * nat) :=
  let tail := PyStr.slice_from min_amount_pos line in
  let monto_doble_match := search monto_doble_re tail in
  let monto_simple_match := search monto_simple_re tail in
  match monto_doble_match with
  | Some m =>
      Some (PyDate.opt_default "" (group 1 m tail), min_amount_pos + m_start m)
  | None =>
      match monto_simple_match with
      | Some m =>
          Some (PyDate.opt_default "" (group 1 m tail), min_amount_pos + m_start m)
      | None => None
      end
  end.

(** The sign and the cleaned digits of [monto_raw]: [monto_str], or [None]
    when the digits are not grouped as an amount. *)
Definition monto_str_of (monto_raw : string) : option string :=
  let is_negative := PyStr.endswith_char "-" monto_raw in
  let monto_raw := if is_negative then PyStr.drop_last monto_raw else monto_raw in
  let monto_clean := Re.sub (Chr (fun c => negb (is_amount_char c))) "" monto_raw in
  if is_some (rmatch_of monto_valid_re monto_clean)
  then Some (monto_clean ++ (if is_negative then "-" else ""))
  else None.

(** Step 5: the date in columns 7 to 15. *)
Definition fecha_of (line : string) : option datetime :=
  if 15 <=? String.length line then
    let possible_fecha := PyStr.strip (PyStr.slice 7 15 line) in
    match rmatch_of fecha_re possible_fecha with
    | Some fecha_match =>
        match PyStr.split "." (PyDate.opt_default "" (group 1 fecha_match possible_fecha)) with
        | [d; m; y] =>
            let y := if String.length y =? 2 then "20" ++ y else y in
            parse_date (d ++ "/" ++ m ++ "/" ++ y) (Some ["%d/%m/%Y"])
        | _ => None
        end
    | None => None
    end
  else None.

(** [_parse_by_fixed_positions] *)
Definition _parse_by_fixed_positions (line : string) : list movement :=
  let original_line := line in
  if PyStr.is_empty line || (String.length (PyStr.strip line) <? 10) then []
  else
    match locate_monto line with
    | None => []
    | Some (monto_raw, monto_start_pos) =>
        match monto_str_of monto_raw with
        | None => []
        | Some monto_str =>
            let line := PyStr.rstrip (PyStr.slice_to monto_start_pos line) in
            (* 2. cuota *)
            let '(cuota, line) :=
              match search cuota_re line with
              | Some cuota_match =>
                  (PyDate.opt_default "" (group 1 cuota_match line),
                   PyStr.rstrip (PyStr.slice_to (m_start cuota_match) line))
              | None => ("", line)
              end in
            (* 3. descripcion *)
            let '(descripcion, line) :=
              if 31 <? String.length line
              then (PyStr.strip (PyStr.slice_from 31 line),
                    PyStr.rstrip (PyStr.slice_to 31 line))
              else ("", line) in
            (* 4. comprobante *)
            let '(comprobante, line) :=
              if 20 <? String.length line then
                let comprobante_substring := PyStr.strip (PyStr.slice_from 20 line) in
                ((if PyStr.truthy comprobante_substring then
                    match rmatch_of comprobante_re comprobante_substring with
                    | Some m => PyDate.opt_default "" (group 1 m comprobante_substring)
                    | None => ""
                    end
                  else ""),
                 PyStr.rstrip (PyStr.slice_to 20 line))
              else ("", line) in
            (* 5. fecha *)
            let fecha_final := fecha_of line in
            let descripcion_final :=
              if PyStr.truthy descripcion then PyStr.strip descripcion else "" in
            let descripcion_final :=
              if PyStr.truthy descripcion_final then descripcion_final
              else PyStr.strip (PyStr.slice_to monto_start_pos original_line) in
            let descripcion_final := clean_description descripcion_final in
            match extract_amount monto_str with
            | Some importe_final =>
                if PyStr.truthy descripcion_final
                then [Movement fecha_final comprobante descripcion_final
                               importe_final cuota "ARS" None None None]
                else []
            | None => []
            end
        end
    end.

(** The scanner's state: the section flag and the movements so far. *)
Record scanner : Type := Scanner {
  in_movement_section : bool;
  movements : list movement
}.

Definition is_header (line : string) : bool :=
  PyStr.contains "FECHA" line && PyStr.contains "COMPROBANTE" line
  && PyStr.contains "DETALLE" line.

Definition is_section_end (line : string) : bool :=
  PyStr.contains "DEBITAREMOS DE SU" line || PyStr.contains "Plan V:" line
  || PyStr.contains "CFTEA" line || PyStr.contains "Condiciones vigentes" line
  || PyStr.contains "Estimado Cliente" line.

Definition pseudo_movement (titular_nombre : string) : movement :=
  Movement None "" "" 0%float "" "" (Some titular_nombre) None None.

(** One turn of the loop over the lines of [_extract_movements_from_text]. *)
Definition scan_line (st : scanner) (line : string) : scanner :=
  if PyStr.is_empty (PyStr.strip line) then st
  else if negb (in_movement_section st) then
    if is_header line then Scanner true (movements st) else st
  else if is_section_end line then Scanner false (movements st)
  else
    let titular_nombre := _extract_titular_info line in
    if opt_truthy titular_nombre
    then Scanner true (movements st ++ [pseudo_movement (PyDate.opt_default "" titular_nombre)])
    else if _looks_like_movement line
         then Scanner true (movements st ++ _parse_by_fixed_positions line)
         else st.

Definition scan (lines : list string) : scanner :=
  fold_left scan_line lines (Scanner false []).

(** [_extract_movements_from_text] *)
Definition _extract_movements_from_text (text : string) : list movement :=
  movements (scan (PyStr.split "010" text)).

(** [TextBasedExtractor._extract_movements_from_file] *)
Definition _extract_movements_from_file (pdf : pdf_path) : outcome (list movement) :=
  let pages := _extract_pages_from_pdf pdf in
  match pages with
  | [] => Returned []
  | _ =>
      full_text <- _extract_text_from_pages pages ;;
      Returned (_extract_movements_from_text full_text)
  end.

(** ['patagonia'.title()] *)
Definition banco_title : string := "Patagonia".

(** [BaseExtractor.extract_movements] *)
Definition extract_movements (pdf : pdf_path) : outcome (list movement) :=
  movements <- _extract_movements_from_file pdf ;;
  Returned (List.map (set_metadata (name pdf) banco_title) movements).

End Base.

(* ================================================================== *)
(** * extractors/patagonia.py *)
(* ================================================================== *)

Module Patagonia.

Import Base.

(** The [resumen_info] dict.  [saldo_actual] and [pago_minimo] may hold
    [None]; the two validation keys exist only when a current balance was
    found. *)
Record resumen_info : Type := ResumenInfo {
  saldo_anterior : float;
  cargos_bancarios : float;
  saldo_actual : option float;
  pago_minimo : option float;
  total_consumos : float;
  bonificaciones : float;
  saldo_calculado : float;
  diferencia_validacion : option float;
  validacion_ok : option bool
}.

(** [any(re.search(pattern, descripcion) for pattern in patterns)], on the
    upper-cased description: the inner loop that stops at the first hit. *)
Definition matches_any (patterns : list re) (mov : movement) : bool :=
  let descripcion := PyStr.upper (descripcion mov) in
  existsb (fun pattern => is_some (search pattern descripcion)) patterns.

(** The loop shared by [_extract_saldo_anterior] and
    [_extract_cargos_bancarios]: the running total and
    [indices_a_eliminar]. *)
Definition collect_step (patterns : list re) (acc : float * list nat)
           (im : nat * movement) : float * list nat :=
  let '(total, indices_a_eliminar) := acc in
  let '(i, mov) := im in
  if matches_any patterns mov
  then ((total + importe mov)%float, (indices_a_eliminar ++ [i])%list)
  else acc.

Definition collect (patterns : list re) (movements : list movement)
  : float * list nat :=
  fold_left (collect_step patterns) (PyList.enumerate movements) (0%float, []).

(** [_extract_saldo_anterior] *)
Definition _extract_saldo_anterior (movements : list movement)
  : float * list movement :=
  let '(saldo_anterior, indices_a_eliminar) :=
    collect Config.saldo_patterns movements in
  (saldo_anterior, PyList.delete_reversed indices_a_eliminar movements).

(** [_extract_cargos_bancarios] *)
Definition _extract_cargos_bancarios (movements : list movement)
  : float * list movement :=
  let '(total_cargos, indices_a_eliminar) :=
    collect Config.cargos_patterns movements in
  (total_cargos, PyList.delete_reversed indices_a_eliminar movements).

(** An entry of [titulares_data]. *)
Record titular_data : Type := TitularData {
  nombre : string;
  td_primer_movimiento : nat;
  td_ultimo_movimiento : nat
}.

(** The variables of the first pass of
    [_assign_titular_to_movements_advanced]. *)
Record ranges : Type := Ranges {
  titulares_data : list titular_data;
  primer_movimiento : nat;
  movements_to_remove : list nat;
  ultimo_movimiento : nat
}.

(** One turn of the first pass. *)
Definition range_step (st : ranges) (im : nat * movement) : ranges :=
  let '(i, mov) := im in
  let st :=
    if has_titular mov && (primer_movimiento st <? i) then
      let ultimo := i - 1 in
      Ranges (titulares_data st ++
                [TitularData (PyDate.opt_default "" (titular mov))
                             (primer_movimiento st) ultimo])%list
             (i + 1) (movements_to_remove st) ultimo
    else st in
  if has_titular mov then
    Ranges (titulares_data st)
           (if primer_movimiento st =? i then i + 1 else primer_movimiento st)
           (movements_to_remove st ++ [i])%list
           (ultimo_movimiento st)
  else st.

Definition first_pass (movements : list movement) : ranges :=
  fold_left range_step (PyList.enumerate movements) (Ranges [] 0 [] 0).

(** [for i in range(max(0, inicio), min(len(movements), fin + 1)):
       movements[i]['titular'] = nombre] *)
Definition stamp (movements : list movement) (td : titular_data) : list movement :=
  let inicio := td_primer_movimiento td in
  let fin := td_ultimo_movimiento td in
  let lo := Nat.max 0 inicio in
  let hi := Nat.min (List.length movements) (fin + 1) in
  fold_left (fun movements i => PyList.update_at i (set_titular (nombre td)) movements)
            (seq lo (hi - lo)) movements.

(** [_assign_titular_to_movements_advanced].  The records of the sequence
    are distinct dicts (the scanner builds one per line), so the updates in
    place are updates of the list's elements. *)
Definition _assign_titular_to_movements_advanced (movements : list movement)
  : list movement :=
  let st := first_pass movements in
  let movements := List.map (set_titular "") movements in
  let movements := fold_left stamp (titulares_data st) movements in
  PyList.delete_reversed (movements_to_remove st) movements.

(** The loop of [extract] that captures the current balance and the
    minimum payment: [saldo_actual], [pago_minimo], [saldo_movements]. *)
Definition saldo_step (acc : option float * option float * list nat)
           (im : nat * movement) : option float * option float * list nat :=
  let '(saldo_actual, pago_minimo, saldo_movements) := acc in
  let '(i, mov) := im in
  if PyStr.contains "SALDO ACTUAL" (descripcion mov)
  then (Some (importe mov), pago_minimo, (saldo_movements ++ [i])%list)
  else if PyStr.contains "PAGO MINIMO" (descripcion mov)
  then (saldo_actual, Some (importe mov), (saldo_movements ++ [i])%list)
  else acc.

(** The body of [extract] after the call of [extract_movements], for a
    non-empty result: the final movements and [resumen_info].  [py] is the
    summation of the interpreter's builtin [sum]. *)
Definition process (py : PyList.summation) (movements : list movement)
  : list movement * resumen_info :=
  let '(saldo_anterior, movements) := _extract_saldo_anterior movements in
  let '(total_cargos, movements) := _extract_cargos_bancarios movements in
  let '(saldo_actual, pago_minimo, saldo_movements) :=
    fold_left saldo_step (PyList.enumerate movements) (None, None, []) in
  let movements := PyList.delete_reversed saldo_movements movements in
  let movements := _assign_titular_to_movements_advanced movements in
  let total_consumos :=
    PyList.builtin_sum py (List.map importe
      (List.filter (fun mov => (0 <? importe mov)%float) movements)) in
  let bonificaciones :=
    PyList.builtin_sum py (List.map importe
      (List.filter (fun mov => (importe mov <? 0)%float) movements)) in
  let saldo_calculado :=
    (saldo_anterior + total_consumos + bonificaciones + total_cargos)%float in
  let diferencia :=
    PyDate.opt_map (fun sa => abs (saldo_calculado - sa)%float) saldo_actual in
  (movements,
   ResumenInfo saldo_anterior total_cargos saldo_actual pago_minimo
               total_consumos bonificaciones saldo_calculado
               diferencia
               (PyDate.opt_map (fun d => (d <=? 1.0)%float) diferencia)).

(** [PatagoniaExtractor.extract]: the movements returned, and
    [self.last_resumen_info] after the call, given its value before. *)
Definition extract (py : PyList.summation)
           (last_resumen_info : option resumen_info) (pdf : pdf_path)
  : outcome (list movement * option resumen_info) :=
  movements <- extract_movements pdf ;;
  match movements with
  | [] => Returned (movements, last_resumen_info)
  | _ =>
      let '(movements, resumen_info) := process py movements in
      Returned (movements, Some resumen_info)
  end.

End Patagonia.

(* ================================================================== *)
(** * Auxiliary definitions for the proofs *)
(* ================================================================== *)

Module Aux.

(** The indices, counted from [k], at which a mask holds. *)
Fixpoint positions (k : nat) (mask : list bool) : list nat :=
  match mask with
  | [] => []
  | b :: mask' => (if b then [k] else []) ++ positions (S k) mask'
  end%list.

(** The elements of [l] whose mask is off; past the end of the mask every
    element stays. *)
Fixpoint keep {A : Type} (mask : list bool) (l : list A) : list A :=
  match mask, l with
  | [], _ => l
  | _, [] => []
  | b :: mask', x :: l' => if b then keep mask' l' else x :: keep mask' l'
  end.

(** The record has a [titular] key, holding a string. *)
Definition has_string_titular (m : Base.movement) : Prop :=
  exists t, Base.titular m = Some t.

End Aux.

(* ================================================================== *)
(** * Example data *)
(* ================================================================== *)

(** A transaction record as the line parser builds it, with the given
    description and amount. *)
Definition transaction (d : string) (x : float) : Base.movement :=
  Base.Movement None "" d x "" "ARS" None None None.

(** The sequence of the cardholder example: three records, the pseudo-record
    of Ana at index 3, two records, the pseudo-record of Luis at index 6,
    three records. *)
Definition ana_luis_sequence : list Base.movement :=
  [transaction "A" 1; transaction "B" 2; transaction "C" 3;
   Base.pseudo_movement "Ana";
   transaction "D" 4; transaction "E" 5;
   Base.pseudo_movement "Luis";
   transaction "F" 6; transaction "G" 7; transaction "H" 8].

(** A text in which a transaction line and a cardholder line are present
    but the three column titles never share a line. *)
Definition headless_text : string :=
  "  FECHA   COMPROBANTE
  DETALLE
       15.01.25     123456*    MERCADOPAGO *TIENDA                Cuota 03/12                         1.234,56
   Tarjeta 1234 Total Consumos de JUAN PEREZ          12.345,67".

(** The records of a statement with prior balance 1000.00, a charge of
    500.00, a bonus of -50.00, bank charges of 25.00 and the stated current
    balance [stated], as the scanner delivers them. *)
Definition statement_records (stated : float) : list Base.movement :=
  [transaction "SALDO ANTERIOR" 1000;
   transaction "SUPERMERCADO LA ANONIMA" 500;
   transaction "BONIF. CONSUMO" (-50);
   transaction "IVA $ 21 00%" 25;
   transaction "SALDO ACTUAL $" stated].

(** The records of a statement with prior balance 10.00, three charges of
    0.10, 0.20 and 0.30, two bonuses of -0.10 and -0.20 and the stated
    current balance 10.30. *)
Definition small_amounts_records : list Base.movement :=
  [transaction "SALDO ANTERIOR" 10;
   transaction "KIOSCO" 0.1;
   transaction "PANADERIA" 0.2;
   transaction "FARMACIA" 0.3;
   transaction "BONIF. KIOSCO" (-0.1);
   transaction "BONIF. PANADERIA" (-0.2);
   transaction "SALDO ACTUAL $" 10.3].

(** The same statement as the text of a one-page PDF, with the line of the
    cardholder's total; [stated] is the amount printed on the balance line. *)
Definition statement_lines (stated : string) : list string :=
  ["RESUMEN DE CUENTA";
   "       FECHA        COMPROBANTE DETALLE DE TRANSACCION                                                  PESOS";
   "                               SALDO ANTERIOR                                                         1.000,00";
   "       15.01.25     123456*    SUPERMERCADO LA ANONIMA            Cuota 03/12                           500,00";
   "       17.01.25     000777K    BONIF. CONSUMO                                                           50,00-";
   "   Tarjeta 1234 Total Consumos de ANA GOMEZ                                                             450,00";
   "                               IVA $ 21,00%                                                              25,00";
   "                               SALDO ACTUAL $                                                         " ++ stated;
   "Plan V: consulte condiciones"].

Definition statement_pdf (stated : string) : Base.pdf_path :=
  Base.PdfPath "resumenTarjetaCredito.15 ene. 2025.pdf"
    (Returned [Base.Page (Returned (Some
       (String.concat (String "010" "") (statement_lines stated))))]).

(** The amount [_parse_by_fixed_positions] derives from the token
    [monto_raw]: sign and digits checked, then [extract_amount]. *)
Definition amount_of_token (monto_raw : string) : option float :=
  match Base.monto_str_of monto_raw with
  | Some monto_str => Utils.extract_amount monto_str
  | None => None
  end.

(** A candidate line that ends with two amounts. *)
Definition two_amount_line : string :=
  "       16.01.25     000123     COMPRA DOBLE                                             1.234,56      7.890,12".

(* ================================================================== *)
(** * Substitutions as functions on characters *)
(* ================================================================== *)

(** Every character of class [p] replaced by [repl]. *)
Fixpoint replace_class (p : ascii -> bool) (repl s : string) : string :=
  match s with
  | "" => ""
  | String c s' =>
      if p c then repl ++ replace_class p repl s'
      else String c (replace_class p repl s')
  end.

(** Every run of whitespace replaced by one space; [in_ws] tells that the
    run has begun. *)
Fixpoint collapse_from (in_ws : bool) (s : string) : string :=
  match s with
  | "" => ""
  | String c s' =>
      if PyStr.is_space c
      then if in_ws then collapse_from true s'
           else String " " (collapse_from true s')
      else String c (collapse_from false s')
  end.

Definition collapse (s : string) : string := collapse_from false s.

(** Number of whitespace characters at the start of [s]. *)
Fixpoint span_ws (s : string) : nat :=
  match s with
  | "" => 0
  | String c s' => if PyStr.is_space c then S (span_ws s') else 0
  end.

(** The string is empty or begins with a character that is no whitespace. *)
Definition lclean (s : string) : bool :=
  match s with
  | "" => true
  | String c _ => negb (PyStr.is_space c)
  end.

(** Every whitespace character is a space and is followed by a character
    that is no whitespace, or by the end. *)
Fixpoint single_spaced (s : string) : bool :=
  match s with
  | "" => true
  | String c s' =>
      (if PyStr.is_space c then Ascii.eqb c " " && lclean s' else true)
      && single_spaced s'
  end.

(* ================================================================== *)
(** * The separator rules of the amount parser, as the specification
      states them *)
(* ================================================================== *)

Module Rules.

Inductive separator_role : Type := Thousands | Decimal.

(** Number of times [sep] appears. *)
Fixpoint occurrences (sep : ascii) (s : string) : nat :=
  match s with
  | "" => 0
  | String c s' => (if Ascii.eqb c sep then 1 else 0) + occurrences sep s'
  end.

(** Number of characters after the first [sep]: the trailing digits. *)
Fixpoint trailing (sep : ascii) (s : string) : nat :=
  match s with
  | "" => 0
  | String c s' => if Ascii.eqb c sep then String.length s' else trailing sep s'
  end.

(** Number of characters before the first [sep]: the leading digits. *)
Fixpoint leading (sep : ascii) (s : string) : nat :=
  match s with
  | "" => 0
  | String c s' => if Ascii.eqb c sep then 0 else S (leading sep s')
  end.

(** The comma: decimal when a point appears too; alone, decimal iff it
    occurs exactly once with at most 2 trailing digits. *)
Definition comma_role (body : string) : separator_role :=
  if PyStr.has_char "." body then Decimal
  else if (occurrences "," body =? 1) && (trailing "," body <=? 2) then Decimal
  else Thousands.

(** The point: thousands when a comma appears too; alone, decimal iff it
    occurs exactly once with at most 2 trailing and at most 3 leading
    digits. *)
Definition point_role (body : string) : separator_role :=
  if PyStr.has_char "," body then Thousands
  else if (occurrences "." body =? 1) && (trailing "." body <=? 2)
          && (leading "." body <=? 3) then Decimal
  else Thousands.

(** A thousands separator is dropped, a decimal separator becomes the
    decimal point. *)
Fixpoint apply_roles (comma point : separator_role) (body : string) : string :=
  match body with
  | "" => ""
  | String c s' =>
      let rest := apply_roles comma point s' in
      if Ascii.eqb c "," then
        match comma with Decimal => String "." rest | Thousands => rest end
      else if Ascii.eqb c "." then
        match point with Decimal => String "." rest | Thousands => rest end
      else String c rest
  end.

(** The value by the rules: the digits and separators of the trimmed input
    without its trailing minus, the separators read by their roles, the
    numeral's value (none without a digit or with two decimal points),
    negated when the input ends with a minus. *)
Definition amount_by_rules (s : string) : option float :=
  let t := PyStr.strip s in
  let negative := PyStr.endswith_char "-" t in
  let body := PyStr.filter Utils.is_amount_char
                (if negative then PyStr.drop_last t else t) in
  match PyFloat.float_of_str
          (apply_roles (comma_role body) (point_role body) body) with
  | Some v => Some (if negative then (- v)%float else v)
  | None => None
  end.

End Rules.

(** A character that is no decimal digit. *)
Definition no_digit (c : ascii) : bool := negb (PyStr.is_digit c).

(** [st'] is reached from [st] by consuming characters: the position moves
    forward by as much as the rest gets shorter. *)
Definition advances (st st' : mstate) : Prop :=
  Re.pos st <= Re.pos st'
  /\ Re.pos st' + String.length (rest st') = Re.pos st + String.length (rest st).

(** A matcher is sound when a result it returns comes from the continuation,
    called on a state reached by consuming characters. *)
Definition sound {A : Type}
           (body : mstate -> (mstate -> option A) -> option A) : Prop :=
  forall st k x, body st k = Some x ->
    exists st', k st' = Some x /\ advances st st'.

(** A page whose text extraction returns [o]. *)
Definition page_returning (o : option string) : Base.page :=
  Base.Page (Returned o).

(** A record as the line parser emits it: a non-empty normalized description,
    the currency of the bank, no [titular], [archivo_origen] or [banco] key
    yet, and a date of the calendar when there is one. *)
Definition transaction_shape (m : Base.movement) : Prop :=
  PyStr.truthy (Base.descripcion m) = true
  /\ PyStr.strip (Base.descripcion m) = Base.descripcion m
  /\ single_spaced (Base.descripcion m) = true
  /\ PyStr.forallb Utils.is_description_char (Base.descripcion m) = true
  /\ Base.moneda m = "ARS"
  /\ Base.titular m = None /\ Base.archivo_origen m = None /\ Base.banco m = None
  /\ (forall d, Base.fecha m = Some d ->
        PyDate.valid_date (PyDate.year d) (PyDate.month d) (PyDate.day d) = true).

(** A pseudo-record of the scanner: a non-empty stripped name and nothing
    else. *)
Definition pseudo_shape (m : Base.movement) : Prop :=
  exists t, m = Base.pseudo_movement t /\ PyStr.truthy t = true
            /\ PyStr.strip t = t.

(** The cardholder name of the first pseudo-record of [l], or the empty
    string when there is none. *)
Fixpoint next_titular (l : list Base.movement) : string :=
  match l with
  | [] => ""
  | m :: l' =>
      if Base.has_titular m then PyDate.opt_default "" (Base.titular m)
      else next_titular l'
  end.

(** Attribution in one pass: a pseudo-record is dropped, any other record
    takes the name of the first pseudo-record after it. *)
Fixpoint attribute (l : list Base.movement) : list Base.movement :=
  match l with
  | [] => []
  | m :: l' =>
      if Base.has_titular m then attribute l'
      else Base.set_titular (next_titular l') m :: attribute l'
  end.

(** A range moved [k] places to the right. *)
Definition shift_range (k : nat) (td : Patagonia.titular_data)
  : Patagonia.titular_data :=
  Patagonia.TitularData (Patagonia.nombre td)
    (k + Patagonia.td_primer_movimiento td)
    (k + Patagonia.td_ultimo_movimiento td).

(** [del l[i]] with its bound check: [None] is [IndexError]. *)
Fixpoint delete_at_checked {A : Type} (i : nat) (l : list A) : option (list A) :=
  match l, i with
  | [], _ => None
  | _ :: l', O => Some l'
  | x :: l', S i' =>
      match delete_at_checked i' l' with
      | Some r => Some (x :: r)
      | None => None
      end
  end.

(** [for i in reversed(indices): del l[i]], stopping at the first
    [IndexError]. *)
Definition delete_reversed_checked {A : Type} (indices : list nat) (l : list A)
  : option (list A) :=
  fold_left (fun acc i => match acc with
                          | Some l' => delete_at_checked i l'
                          | None => None
                          end)
            (rev indices) (Some l).

(** The description holds the current-balance marker. *)
Definition is_saldo_actual (m : Base.movement) : bool :=
  PyStr.contains "SALDO ACTUAL" (Base.descripcion m).

(** The description holds the minimum-payment marker and not the
    current-balance one (the [elif]). *)
Definition is_pago_minimo (m : Base.movement) : bool :=
  negb (is_saldo_actual m) && PyStr.contains "PAGO MINIMO" (Base.descripcion m).

(** A record that the balance loop of [extract] removes. *)
Definition is_balance_line (m : Base.movement) : bool :=
  is_saldo_actual m || is_pago_minimo m.

(** The amount of the last record of [l] that satisfies [p]. *)
Definition last_importe (p : Base.movement -> bool) (l : list Base.movement)
  : option float :=
  fold_left (fun acc m => if p m then Some (Base.importe m) else acc) l None.

(** The survivors of the two removal passes, and of the balance loop. *)
Definition after_removal_passes (l : list Base.movement) : list Base.movement :=
  List.filter (fun m => negb (Patagonia.matches_any Config.cargos_patterns m))
    (List.filter (fun m => negb (Patagonia.matches_any Config.saldo_patterns m)) l).

Definition after_balance_loop (l : list Base.movement) : list Base.movement :=
  List.filter (fun m => negb (is_balance_line m)) (after_removal_passes l).

(** A record as [extract] returns it for the file [nombre]: a transaction
    with its metadata and a cardholder string, and none of the lines that the
    passes take out. *)
Definition final_shape (nombre : string) (m : Base.movement) : Prop :=
  PyStr.truthy (Base.descripcion m) = true
  /\ Base.moneda m = "ARS"
  /\ Base.archivo_origen m = Some nombre
  /\ Base.banco m = Some "Patagonia"
  /\ (exists t, Base.titular m = Some t)
  /\ Patagonia.matches_any Config.saldo_patterns m = false
  /\ Patagonia.matches_any Config.cargos_patterns m = false
  /\ is_balance_line m = false.

(** A text of exactly two decimal digits. *)
Definition two_digits (s : string) : Prop :=
  String.length s = 2 /\ PyStr.forallb PyStr.is_digit s = true.

(** A digit or a slash: the characters of a numeric date. *)
Definition plain_char (c : ascii) : bool := PyStr.is_digit c || Ascii.eqb c "/".

(** Every character class of [r] lies within [P]. *)
Fixpoint alphabet (P : ascii -> bool) (r : re) : Prop :=
  match r with
  | Chr q => forall c, q c = true -> P c = true
  | Seq a b | Alt a b => alphabet P a /\ alphabet P b
  | Star a | LazyStar a | Grp _ a => alphabet P a
  | Eps | Bol | Eol => True
  end.

(** [st'] is reached from [st] by consuming characters of [P] only. *)
Definition within (P : ascii -> bool) (st st' : mstate) : Prop :=
  exists w, rest st = w ++ rest st' /\ PyStr.forallb P w = true.

(** A matcher that consumes characters of [P] only. *)
Definition sound_in {A : Type} (P : ascii -> bool)
           (body : mstate -> (mstate -> option A) -> option A) : Prop :=
  forall st k x, body st k = Some x ->
    exists st', k st' = Some x /\ within P st st'.

(** Any character but the point. *)
Definition no_point (c : ascii) : bool := negb (Ascii.eqb c ".").

(** [l] begins with [a]. *)
Definition begins_with (a l : string) : Prop := exists post, l = a ++ post.

(** A movement line dated 30 February. *)
Definition impossible_date_line : string :=
  "       30.02.25     000123     COMPRA EN COMERCIO                                                    1.234,56".

(** A character that is no letter of a month name and that [str.lower]
    leaves alone: a digit, whitespace, or one of [/ - . ,]. *)
Definition date_punct (c : ascii) : bool :=
  PyStr.is_digit c || PyStr.is_space c || PyStr.has_char c "/-.,".

(** The full Spanish month names, January to December. *)
Definition full_months_es : list string :=
  ["enero"; "febrero"; "marzo"; "abril"; "mayo"; "junio"; "julio"; "agosto";
   "septiembre"; "octubre"; "noviembre"; "diciembre"].

(** A text of exactly four decimal digits. *)
Definition four_digits (s : string) : Prop :=
  String.length s = 4 /\ PyStr.forallb PyStr.is_digit s = true.

(* ================================================================== *)
(** * Lists: deletion by index *)
(* ================================================================== *)

Section ListLemmas.

Context {A : Type}.
Implicit Types (l pre : list A) (mask : list bool).

Lemma delete_reversed_cons (i : nat) (idx : list nat) l :
  PyList.delete_reversed (i :: idx) l
  = PyList.delete_at i (PyList.delete_reversed idx l).
Proof.
  unfold PyList.delete_reversed. simpl. now rewrite fold_left_app.
Qed.

Lemma delete_at_middle pre (x : A) l :
  PyList.delete_at (List.length pre) (pre ++ x :: l)%list = (pre ++ l)%list.
Proof.
  induction pre as [|y pre IH]; simpl; [reflexivity | now rewrite IH].
Qed.

(** Deleting, largest first, the positions of a mask keeps exactly the
    unmasked elements, in their order. *)
Lemma delete_positions mask : forall pre l,
  List.length mask <= List.length l ->
  PyList.delete_reversed (Aux.positions (List.length pre) mask) (pre ++ l)%list
  = (pre ++ Aux.keep mask l)%list.
Proof.
  induction mask as [|b mask IH]; intros pre l Hlen.
  - reflexivity.
  - destruct l as [|x l]; simpl in Hlen; [lia|].
    assert (Hrec := IH (pre ++ [x])%list l ltac:(lia)).
    rewrite length_app, Nat.add_comm in Hrec; simpl in Hrec.
    rewrite <- !app_assoc in Hrec; simpl in Hrec.
    destruct b; simpl.
    + rewrite delete_reversed_cons, Hrec. apply delete_at_middle.
    + exact Hrec.
Qed.

Lemma keep_map_filter (P : A -> bool) l :
  Aux.keep (List.map P l) l = List.filter (fun x => negb (P x)) l.
Proof.
  induction l as [|x l IH]; simpl; [reflexivity|].
  destruct (P x); simpl; now rewrite IH.
Qed.

Lemma keep_app mask l (rest : list A) :
  List.length mask = List.length l ->
  Aux.keep mask (l ++ rest)%list = (Aux.keep mask l ++ rest)%list.
Proof.
  revert l; induction mask as [|b mask IH]; intros [|x l] Hlen;
    simpl in *; try discriminate; try reflexivity.
  destruct b; simpl; rewrite IH by lia; reflexivity.
Qed.

Lemma length_update_at (i : nat) (f : A -> A) l :
  List.length (PyList.update_at i f l) = List.length l.
Proof.
  revert i; induction l as [|x l IH]; intros [|i]; simpl; auto.
Qed.

Lemma update_at_app (i : nat) (f : A -> A) l (rest : list A) :
  i < List.length l ->
  PyList.update_at i f (l ++ rest)%list = (PyList.update_at i f l ++ rest)%list.
Proof.
  revert i; induction l as [|x l IH]; intros [|i] Hi; simpl in *;
    try lia; try reflexivity.
  now rewrite IH by lia.
Qed.

Lemma enumerate_from_app (k : nat) l (rest : list A) :
  combine (seq k (List.length (l ++ rest))) (l ++ rest)%list
  = (combine (seq k (List.length l)) l
     ++ combine (seq (k + List.length l) (List.length rest)) rest)%list.
Proof.
  revert k; induction l as [|x l IH]; intros k; simpl.
  - now rewrite Nat.add_0_r.
  - rewrite IH. now rewrite Nat.add_succ_r.
Qed.

End ListLemmas.

(* ================================================================== *)
(** * The removal passes *)
(* ================================================================== *)

Section RemovalPasses.

Import Base Patagonia.

Variable patterns : list re.

Lemma collect_fold (l : list movement) : forall k total idx,
  fold_left (collect_step patterns) (combine (seq k (List.length l)) l) (total, idx)
  = (fold_left PrimFloat.add
       (List.map importe (List.filter (matches_any patterns) l)) total,
     (idx ++ Aux.positions k (List.map (matches_any patterns) l))%list).
Proof.
  induction l as [|m l IH]; intros k total idx; simpl.
  - now rewrite app_nil_r.
  - destruct (matches_any patterns m); simpl; rewrite IH.
    + now rewrite <- app_assoc.
    + reflexivity.
Qed.

(** A removal pass returns the sum of the records that match and leaves
    the others, as they were and in their order. *)
Lemma removal_pass (l : list movement) :
  (let '(total, idx) := collect patterns l in
   (total, PyList.delete_reversed idx l))
  = (PyList.sum (List.map importe (List.filter (matches_any patterns) l)),
     List.filter (fun m => negb (matches_any patterns m)) l).
Proof.
  unfold collect, PyList.enumerate. rewrite collect_fold. simpl.
  f_equal. rewrite <- keep_map_filter.
  apply (delete_positions (List.map (matches_any patterns) l) [] l).
  now rewrite length_map.
Qed.

End RemovalPasses.

(** C10.  The prior-balance pass and the bank-charges pass each return the
    sum (from 0, in list order) of the [importe] of the records whose
    upper-cased description matches one of the pass's patterns, and the list
    of the other records: each of them unchanged, in the original relative
    order. *)
Theorem removal_passes_frame (movements : list Base.movement) :
  Patagonia._extract_saldo_anterior movements
  = (PyList.sum (List.map Base.importe
       (List.filter (Patagonia.matches_any Config.saldo_patterns) movements)),
     List.filter (fun m => negb (Patagonia.matches_any Config.saldo_patterns m))
       movements)
  /\ Patagonia._extract_cargos_bancarios movements
  = (PyList.sum (List.map Base.importe
       (List.filter (Patagonia.matches_any Config.cargos_patterns) movements)),
     List.filter (fun m => negb (Patagonia.matches_any Config.cargos_patterns m))
       movements).
Proof.
  split; [apply (removal_pass Config.saldo_patterns)
         | apply (removal_pass Config.cargos_patterns)].
Qed.

(* ================================================================== *)
(** * The cardholder attribution pass *)
(* ================================================================== *)

Section Attribution.

Import Base Patagonia.

Lemma range_step_other (st : ranges) (i : nat) (mov : movement) :
  has_titular mov = false -> range_step st (i, mov) = st.
Proof.
  intros H. unfold range_step. now rewrite H.
Qed.

(** A pseudo-record met after pending records closes their range. *)
Lemma range_step_closes (st : ranges) (i : nat) (mov : movement) (t : string) :
  titular mov = Some t -> has_titular mov = true -> primer_movimiento st < i ->
  range_step st (i, mov)
  = Ranges (titulares_data st ++ [TitularData t (primer_movimiento st) (i - 1)])%list
           (i + 1) (movements_to_remove st ++ [i])%list (i - 1).
Proof.
  intros Ht Hm Hi. unfold range_step. rewrite Hm, Ht.
  apply Nat.ltb_lt in Hi. rewrite Hi. simpl.
  replace (i + 1 =? i) with false by (symmetry; apply Nat.eqb_neq; lia).
  reflexivity.
Qed.

(** Invariant of the first pass: every range ends before the index
    reached, and the indices to remove are those of the pseudo-records. *)
Lemma first_pass_invariant (l : list movement) : forall k st,
  Forall (fun td => td_ultimo_movimiento td < k) (titulares_data st) ->
  let st' := fold_left range_step (combine (seq k (List.length l)) l) st in
  Forall (fun td => td_ultimo_movimiento td < k + List.length l)
         (titulares_data st')
  /\ movements_to_remove st'
     = (movements_to_remove st ++ Aux.positions k (List.map has_titular l))%list.
Proof.
  induction l as [|m l IH]; intros k st Hst; cbv zeta;
    cbn [fold_left combine seq List.length List.map Aux.positions].
  - rewrite Nat.add_0_r, app_nil_r. now split.
  - destruct (IH (S k) (range_step st (k, m))) as [H1 H2]; cbv zeta in *.
    + unfold range_step.
      destruct (has_titular m); simpl;
        [destruct (primer_movimiento st <? k); simpl|];
        rewrite ?Forall_app; repeat split;
        try (eapply Forall_impl; [|exact Hst]; simpl; intros; lia).
      constructor; [simpl; lia | constructor].
    + split.
      * replace (k + S (List.length l)) with (S k + List.length l) by lia.
        exact H1.
      * rewrite H2. unfold range_step.
        destruct (has_titular m); simpl;
          [destruct (primer_movimiento st <? k); simpl|];
          rewrite <- ?app_assoc; reflexivity.
Qed.

Lemma first_pass_app (l rest : list movement) :
  Forall (fun m => has_titular m = false) rest ->
  first_pass (l ++ rest) = first_pass l.
Proof.
  intros Hrest. unfold first_pass, PyList.enumerate.
  rewrite enumerate_from_app, fold_left_app. simpl.
  generalize (fold_left range_step (combine (seq 0 (List.length l)) l)
                        (Ranges [] 0 [] 0)).
  generalize (List.length l).
  induction Hrest as [|m rest Hm _ IH]; intros k st;
    cbn [fold_left combine seq List.length].
  - reflexivity.
  - rewrite range_step_other by exact Hm. apply IH.
Qed.

Lemma fold_update_app (f : movement -> movement) (idx : list nat) :
  forall (l rest : list movement),
  Forall (fun i => i < List.length l) idx ->
  fold_left (fun movs i => PyList.update_at i f movs) idx (l ++ rest)%list
  = (fold_left (fun movs i => PyList.update_at i f movs) idx l ++ rest)%list.
Proof.
  induction idx as [|i idx IH]; intros l rest Hidx; simpl.
  - reflexivity.
  - inversion Hidx as [|? ? Hi Hidx']; subst.
    rewrite update_at_app by exact Hi.
    apply IH. now rewrite length_update_at.
Qed.

Lemma length_fold_update (f : movement -> movement) (idx : list nat) :
  forall l : list movement,
  List.length (fold_left (fun movs i => PyList.update_at i f movs) idx l)
  = List.length l.
Proof.
  induction idx as [|i idx IH]; intros l; simpl; [reflexivity|].
  now rewrite IH, length_update_at.
Qed.

Lemma length_stamp (l : list movement) (td : titular_data) :
  List.length (stamp l td) = List.length l.
Proof. apply length_fold_update. Qed.

Lemma stamp_app (l rest : list movement) (td : titular_data) :
  td_ultimo_movimiento td < List.length l ->
  stamp (l ++ rest) td = (stamp l td ++ rest)%list.
Proof.
  intros H. unfold stamp. rewrite length_app.
  replace (Nat.min (List.length l + List.length rest) (td_ultimo_movimiento td + 1))
    with (Nat.min (List.length l) (td_ultimo_movimiento td + 1)) by lia.
  apply fold_update_app.
  apply Forall_forall. intros i Hi. apply in_seq in Hi. lia.
Qed.

Lemma fold_stamp_app (tds : list titular_data) : forall (l rest : list movement),
  Forall (fun td => td_ultimo_movimiento td < List.length l) tds ->
  fold_left stamp tds (l ++ rest)%list = (fold_left stamp tds l ++ rest)%list.
Proof.
  induction tds as [|td tds IH]; intros l rest Htds; simpl.
  - reflexivity.
  - inversion Htds as [|? ? Htd Htds']; subst.
    rewrite stamp_app by exact Htd. apply IH.
    now rewrite length_stamp.
Qed.

Lemma length_fold_stamp (tds : list titular_data) : forall l : list movement,
  List.length (fold_left stamp tds l) = List.length l.
Proof.
  induction tds as [|td tds IH]; intros l; simpl; [reflexivity|].
  now rewrite IH, length_stamp.
Qed.

(** The pass as a filter: the stamped records whose original was not a
    pseudo-record. *)
Lemma assign_keep (l : list movement) :
  _assign_titular_to_movements_advanced l
  = Aux.keep (List.map has_titular l)
      (fold_left stamp (titulares_data (first_pass l))
                 (List.map (set_titular "") l)).
Proof.
  unfold _assign_titular_to_movements_advanced.
  destruct (first_pass_invariant l 0 (Ranges [] 0 [] 0)) as [_ H]; [constructor|].
  fold (PyList.enumerate l) in H. fold (first_pass l) in H. simpl in H.
  rewrite H.
  apply (delete_positions (List.map has_titular l) []).
  now rewrite length_fold_stamp, !length_map.
Qed.

(** Records that follow the last pseudo-record are outside every range. *)
Lemma assign_trailing (l rest : list movement) :
  Forall (fun m => has_titular m = false) rest ->
  _assign_titular_to_movements_advanced (l ++ rest)
  = (_assign_titular_to_movements_advanced l
     ++ List.map (set_titular "") rest)%list.
Proof.
  intros Hrest. rewrite !assign_keep, first_pass_app by exact Hrest.
  rewrite !map_app.
  destruct (first_pass_invariant l 0 (Ranges [] 0 [] 0)) as [H _]; [constructor|].
  fold (PyList.enumerate l) in H. fold (first_pass l) in H. simpl in H.
  rewrite fold_stamp_app by now rewrite length_map.
  assert (Hk : forall (m1 : list bool) (a b : list movement),
             List.length m1 = List.length a ->
             Aux.keep (m1 ++ List.map has_titular rest) (a ++ b)
             = (Aux.keep m1 a ++ Aux.keep (List.map has_titular rest) b)%list).
  { induction m1 as [|x m1 IH]; intros [|y a] b Hlen; simpl in *;
      try discriminate; try reflexivity.
    destruct x; simpl; rewrite IH by lia; reflexivity. }
  rewrite Hk by now rewrite length_fold_stamp, !length_map.
  f_equal. clear -Hrest.
  induction Hrest as [|m rest Hm _ IH]; simpl; [reflexivity|].
  now rewrite Hm, IH.
Qed.

Lemma Forall_update_at (P : movement -> Prop) (f : movement -> movement)
      (i : nat) (l : list movement) :
  (forall m, P (f m)) -> Forall P l -> Forall P (PyList.update_at i f l).
Proof.
  intros Hf. revert i. induction l as [|x l IH]; intros [|i] H; simpl;
    inversion H; subst; constructor; auto.
Qed.

Lemma Forall_keep (P : movement -> Prop) (mask : list bool) :
  forall l : list movement, Forall P l -> Forall P (Aux.keep mask l).
Proof.
  induction mask as [|b mask IH]; intros [|x l] H; simpl; auto.
  inversion H; subst. destruct b; [|constructor]; auto.
Qed.

Lemma assign_all_string (l : list movement) :
  Forall Aux.has_string_titular (_assign_titular_to_movements_advanced l).
Proof.
  rewrite assign_keep. apply Forall_keep.
  generalize (titulares_data (first_pass l)).
  assert (H0 : Forall Aux.has_string_titular (List.map (set_titular "") l)).
  { apply Forall_forall. intros m Hm. apply in_map_iff in Hm.
    destruct Hm as [m' [<- _]]. now exists "". }
  revert H0. generalize (List.map (set_titular "") l).
  intros l0 H0 tds. revert l0 H0.
  induction tds as [|td tds IH]; intros l0 H0; simpl; [exact H0|].
  apply IH. unfold stamp.
  generalize (seq (Nat.max 0 (td_primer_movimiento td))
                  (Nat.min (List.length l0) (td_ultimo_movimiento td + 1)
                   - Nat.max 0 (td_primer_movimiento td))).
  intros idx. revert l0 H0.
  induction idx as [|i idx IHi]; intros l0 H0; simpl; [exact H0|].
  apply IHi. apply Forall_update_at; [|exact H0].
  intros m. now exists (nombre td).
Qed.

End Attribution.

(** C9.  Whatever precedes them, records after which no pseudo-record
    comes (none of them has a non-empty [titular]) leave the attribution pass
    with [titular] equal to the empty string, at the end of the output; this
    covers a sequence without any pseudo-record.  Every record of the output
    has a [titular] field holding a string. *)
Theorem attribution_titular_field (l rest : list Base.movement)
  (Hrest : Forall (fun m => Base.has_titular m = false) rest) :
  Forall Aux.has_string_titular
    (Patagonia._assign_titular_to_movements_advanced (l ++ rest))
  /\ Patagonia._assign_titular_to_movements_advanced (l ++ rest)
     = (Patagonia._assign_titular_to_movements_advanced l
        ++ List.map (Base.set_titular "") rest)%list
  /\ Patagonia._assign_titular_to_movements_advanced rest
     = List.map (Base.set_titular "") rest.
Proof.
  repeat split.
  - apply assign_all_string.
  - now apply assign_trailing.
  - now apply (assign_trailing [] rest).
Qed.

Lemma attribution_titular_field_witness :
  Forall Aux.has_string_titular
    (Patagonia._assign_titular_to_movements_advanced
       ([transaction "A" 10; Base.pseudo_movement "Ana"]
        ++ [transaction "B" 20; transaction "C" 30]))
  /\ Patagonia._assign_titular_to_movements_advanced
       ([transaction "A" 10; Base.pseudo_movement "Ana"]
        ++ [transaction "B" 20; transaction "C" 30])
     = (Patagonia._assign_titular_to_movements_advanced
          [transaction "A" 10; Base.pseudo_movement "Ana"]
        ++ List.map (Base.set_titular "")
             [transaction "B" 20; transaction "C" 30])%list
  /\ Patagonia._assign_titular_to_movements_advanced
       [transaction "B" 20; transaction "C" 30]
     = List.map (Base.set_titular "") [transaction "B" 20; transaction "C" 30].
Proof.
  apply (attribution_titular_field
           [transaction "A" 10; Base.pseudo_movement "Ana"]
           [transaction "B" 20; transaction "C" 30]).
  repeat constructor.
Defined.

(** C1, as stated, fails: the two records that follow the pseudo-record of
    Ana leave the pass with "Luis", the three that follow the pseudo-record
    of Luis with the empty string.  Neither the last five records of the
    output nor its first five carry Ana, Ana, Luis, Luis, Luis. *)
Lemma attribution_following_records_fails :
  let out := Patagonia._assign_titular_to_movements_advanced ana_luis_sequence in
  List.map (fun m => (Base.descripcion m, Base.titular m)) out
  = [("A", Some "Ana"); ("B", Some "Ana"); ("C", Some "Ana");
     ("D", Some "Luis"); ("E", Some "Luis");
     ("F", Some ""); ("G", Some ""); ("H", Some "")]
  /\ ~ (exists t0 t1 t2,
          List.map Base.titular out
          = [t0; t1; t2; Some "Ana"; Some "Ana";
             Some "Luis"; Some "Luis"; Some "Luis"])
  /\ firstn 5 (List.map Base.titular out)
     <> [Some "Ana"; Some "Ana"; Some "Luis"; Some "Luis"; Some "Luis"].
Proof.
  cbv zeta. repeat split.
  - intros (t0 & t1 & t2 & H). discriminate H.
  - discriminate.
Qed.

(** C1, amended.  A pseudo-record closes the run of records that precedes
    it: with the pseudo-record of Ana at index 3 and that of Luis at index 6
    among transaction records, the three records before index 3 leave the
    pass with "Ana", the two between the pseudo-records with "Luis", the
    three after index 6 with the empty string, and the output holds these
    eight records only, in order. *)
Theorem attribution_ana_luis
  (r0 r1 r2 pa r4 r5 pl r7 r8 r9 : Base.movement)
  (H0 : Base.has_titular r0 = false) (H1 : Base.has_titular r1 = false)
  (H2 : Base.has_titular r2 = false) (H4 : Base.has_titular r4 = false)
  (H5 : Base.has_titular r5 = false) (H7 : Base.has_titular r7 = false)
  (H8 : Base.has_titular r8 = false) (H9 : Base.has_titular r9 = false)
  (Ha : Base.titular pa = Some "Ana") (Hl : Base.titular pl = Some "Luis") :
  Patagonia._assign_titular_to_movements_advanced
    [r0; r1; r2; pa; r4; r5; pl; r7; r8; r9]
  = [Base.set_titular "Ana" r0; Base.set_titular "Ana" r1;
     Base.set_titular "Ana" r2;
     Base.set_titular "Luis" r4; Base.set_titular "Luis" r5;
     Base.set_titular "" r7; Base.set_titular "" r8; Base.set_titular "" r9].
Proof.
  assert (Hpa : Base.has_titular pa = true)
    by (unfold Base.has_titular; now rewrite Ha).
  assert (Hpl : Base.has_titular pl = true)
    by (unfold Base.has_titular; now rewrite Hl).
  unfold Patagonia._assign_titular_to_movements_advanced,
    Patagonia.first_pass, PyList.enumerate.
  cbn [List.length seq combine fold_left].
  rewrite (range_step_other _ 0 r0 H0), (range_step_other _ 1 r1 H1),
    (range_step_other _ 2 r2 H2).
  rewrite (range_step_closes _ 3 pa "Ana") by (trivial; simpl; lia).
  rewrite (range_step_other _ 4 r4 H4), (range_step_other _ 5 r5 H5).
  rewrite (range_step_closes _ 6 pl "Luis") by (trivial; simpl; lia).
  rewrite (range_step_other _ 7 r7 H7), (range_step_other _ 8 r8 H8),
    (range_step_other _ 9 r9 H9).
  reflexivity.
Qed.

Lemma attribution_ana_luis_witness :
  Patagonia._assign_titular_to_movements_advanced ana_luis_sequence
  = [Base.set_titular "Ana" (transaction "A" 1);
     Base.set_titular "Ana" (transaction "B" 2);
     Base.set_titular "Ana" (transaction "C" 3);
     Base.set_titular "Luis" (transaction "D" 4);
     Base.set_titular "Luis" (transaction "E" 5);
     Base.set_titular "" (transaction "F" 6);
     Base.set_titular "" (transaction "G" 7);
     Base.set_titular "" (transaction "H" 8)].
Proof.
  apply (attribution_ana_luis
           (transaction "A" 1) (transaction "B" 2) (transaction "C" 3)
           (Base.pseudo_movement "Ana")
           (transaction "D" 4) (transaction "E" 5)
           (Base.pseudo_movement "Luis")
           (transaction "F" 6) (transaction "G" 7) (transaction "H" 8));
    reflexivity.
Defined.

(* ================================================================== *)
(** * The movement-section scanner *)
(* ================================================================== *)

Section Scanner.

Import Base.

(** Outside the section a line that is not a header leaves the state as
    it is. *)
Lemma scan_line_outside (movs : list movement) (line : string) :
  is_header line = false ->
  scan_line (Scanner false movs) line = Scanner false movs.
Proof.
  intros H. unfold scan_line. simpl. rewrite H.
  now destruct (PyStr.is_empty (PyStr.strip line)).
Qed.

Lemma scan_outside (lines : list string) (movs : list movement) :
  Forall (fun line => is_header line = false) lines ->
  fold_left scan_line lines (Scanner false movs) = Scanner false movs.
Proof.
  induction 1 as [|line lines Hl _ IH]; simpl.
  - reflexivity.
  - now rewrite scan_line_outside.
Qed.

Lemma Forall_firstn {X : Type} (P : X -> Prop) (n : nat) (l : list X) :
  Forall P l -> Forall P (firstn n l).
Proof.
  intros H. revert n. induction H; intros [|n]; simpl; constructor; auto.
Qed.

End Scanner.

(** C7.  If no line of the text contains "FECHA", "COMPROBANTE" and
    "DETALLE" together, the scanner is outside the movement section, with no
    movement recorded, after every number of lines read, and
    [_extract_movements_from_text] returns the empty list. *)
Theorem scanner_without_header (text : string)
  (Hno : forall line, In line (PyStr.split "010" text) ->
           ~ (PyStr.contains "FECHA" line = true
              /\ PyStr.contains "COMPROBANTE" line = true
              /\ PyStr.contains "DETALLE" line = true)) :
  (forall n, Base.scan (firstn n (PyStr.split "010" text)) = Base.Scanner false [])
  /\ Base._extract_movements_from_text text = [].
Proof.
  assert (H : Forall (fun line => Base.is_header line = false)
                     (PyStr.split "010" text)).
  { apply Forall_forall. intros line Hin. specialize (Hno line Hin).
    unfold Base.is_header.
    destruct (PyStr.contains "FECHA" line), (PyStr.contains "COMPROBANTE" line),
      (PyStr.contains "DETALLE" line); try reflexivity.
    exfalso. apply Hno. auto. }
  split.
  - intros n. apply scan_outside. now apply Forall_firstn.
  - unfold Base._extract_movements_from_text, Base.scan.
    now rewrite scan_outside.
Qed.

Lemma scanner_without_header_witness :
  (forall n, Base.scan (firstn n (PyStr.split "010" headless_text))
             = Base.Scanner false [])
  /\ Base._extract_movements_from_text headless_text = [].
Proof.
  apply (scanner_without_header headless_text).
  intros line Hin. vm_compute in Hin.
  intros (H1 & H2 & H3).
  repeat (destruct Hin as [<- | Hin]; [vm_compute in H1, H2, H3; discriminate|]).
  exact Hin.
Defined.

(* ================================================================== *)
(** * Documents without pages *)
(* ================================================================== *)

(** C8.  When opening the PDF raises, or gives no page,
    [_extract_movements_from_file] returns the empty list and raises
    nothing; so do [extract_movements] and [extract], which leaves
    [last_resumen_info] as it was. *)
Theorem zero_pages_tolerated (pdf : Base.pdf_path)
  (Hpages : Base.open_pages pdf = Raised \/ Base.open_pages pdf = Returned []) :
  Base._extract_movements_from_file pdf = Returned []
  /\ Base.extract_movements pdf = Returned []
  /\ forall py last, Patagonia.extract py last pdf = Returned ([], last).
Proof.
  assert (H : Base._extract_movements_from_file pdf = Returned []).
  { unfold Base._extract_movements_from_file, Base._extract_pages_from_pdf.
    destruct Hpages as [-> | ->]; reflexivity. }
  assert (H' : Base.extract_movements pdf = Returned []).
  { unfold Base.extract_movements. now rewrite H. }
  repeat split; trivial.
  intros py last. unfold Patagonia.extract. now rewrite H'.
Qed.

Lemma zero_pages_tolerated_witness :
  Base._extract_movements_from_file (Base.PdfPath "resumen.pdf" Raised) = Returned []
  /\ Base.extract_movements (Base.PdfPath "resumen.pdf" Raised) = Returned []
  /\ forall py last,
       Patagonia.extract py last (Base.PdfPath "resumen.pdf" Raised)
       = Returned ([], last).
Proof.
  apply (zero_pages_tolerated (Base.PdfPath "resumen.pdf" Raised)).
  left. reflexivity.
Defined.

(* ================================================================== *)
(** * Reconciliation *)
(* ================================================================== *)

(** C2.  With [out] the movements [extract] returns and [info] the summary
    it stores, on either interpreter: the total of charges is the builtin
    sum of the positive amounts of [out], the total of adjustments that of
    the negative ones, the computed balance is prior balance + charges +
    adjustments + bank charges (the totals of the two removal passes), and
    when a stated balance was captured the difference is the absolute value
    of computed minus stated and the validation flag tells whether it is at
    most 1.0.  On the statement with prior balance 1000.00, records +500.00
    and -50.00 and bank charges 25.00, the computed balance is 1475.00; the
    stated balance 1475.00 passes, the stated balance 1600.00 fails with
    difference 125.00, from the records and from the text of the document
    alike.  The totals are sums of binary floating-point numbers: the
    charges 0.10, 0.20 and 0.30 total 0.6000000000000001 up to CPython 3.11
    and 0.6 from CPython 3.12 on; with the bonuses -0.10 and -0.20 on the
    prior balance 10.00 the computed balance is 10.299999999999999 on both,
    which differs from the stated 10.30 in the last place and passes. *)
Theorem reconciliation_summary :
  (forall (py : PyList.summation) (movements : list Base.movement),
     let out := fst (Patagonia.process py movements) in
     let info := snd (Patagonia.process py movements) in
     let after_saldo := snd (Patagonia._extract_saldo_anterior movements) in
     Patagonia.saldo_anterior info
     = fst (Patagonia._extract_saldo_anterior movements)
     /\ Patagonia.cargos_bancarios info
        = fst (Patagonia._extract_cargos_bancarios after_saldo)
     /\ Patagonia.total_consumos info
        = PyList.builtin_sum py (List.map Base.importe
            (List.filter (fun mov => (0 <? Base.importe mov)%float) out))
     /\ Patagonia.bonificaciones info
        = PyList.builtin_sum py (List.map Base.importe
            (List.filter (fun mov => (Base.importe mov <? 0)%float) out))
     /\ Patagonia.saldo_calculado info
        = (Patagonia.saldo_anterior info + Patagonia.total_consumos info
           + Patagonia.bonificaciones info + Patagonia.cargos_bancarios info)%float
     /\ Patagonia.diferencia_validacion info
        = PyDate.opt_map
            (fun stated => abs (Patagonia.saldo_calculado info - stated)%float)
            (Patagonia.saldo_actual info)
     /\ Patagonia.validacion_ok info
        = PyDate.opt_map
            (fun stated =>
               (abs (Patagonia.saldo_calculado info - stated) <=? 1.0)%float)
            (Patagonia.saldo_actual info))
  /\ (forall py : PyList.summation,
        let info := snd (Patagonia.process py (statement_records 1475)) in
        Patagonia.saldo_anterior info = 1000%float
        /\ Patagonia.total_consumos info = 500%float
        /\ Patagonia.bonificaciones info = (-50)%float
        /\ Patagonia.cargos_bancarios info = 25%float
        /\ Patagonia.saldo_actual info = Some 1475%float
        /\ Patagonia.saldo_calculado info = 1475%float
        /\ Patagonia.validacion_ok info = Some true)
  /\ (forall py : PyList.summation,
        let info := snd (Patagonia.process py (statement_records 1600)) in
        Patagonia.saldo_calculado info = 1475%float
        /\ Patagonia.validacion_ok info = Some false
        /\ Patagonia.diferencia_validacion info = Some 125%float)
  /\ (forall py : PyList.summation,
        exists out info,
          Patagonia.extract py None (statement_pdf "1.475,00")
          = Returned (out, Some info)
          /\ List.map (fun m => (Base.descripcion m, Base.importe m, Base.titular m)) out
             = [("SUPERMERCADO LA ANONIMA", 500%float, Some "ANA GOMEZ");
                ("BONIF. CONSUMO", (-50)%float, Some "ANA GOMEZ")]
          /\ Patagonia.saldo_calculado info = 1475%float
          /\ Patagonia.validacion_ok info = Some true)
  /\ (forall py : PyList.summation,
        exists out info,
          Patagonia.extract py None (statement_pdf "1.600,00")
          = Returned (out, Some info)
          /\ Patagonia.saldo_calculado info = 1475%float
          /\ Patagonia.validacion_ok info = Some false
          /\ Patagonia.diferencia_validacion info = Some 125%float)
  /\ (let info := snd (Patagonia.process PyList.Plain small_amounts_records) in
      Patagonia.total_consumos info = 0.6000000000000001%float
      /\ Patagonia.bonificaciones info = (-0.30000000000000004)%float
      /\ Patagonia.saldo_calculado info = 10.299999999999999%float
      /\ Patagonia.diferencia_validacion info = Some 1.7763568394002505e-15%float
      /\ Patagonia.validacion_ok info = Some true)
  /\ (let info := snd (Patagonia.process PyList.Compensated small_amounts_records) in
      Patagonia.total_consumos info = 0.6%float
      /\ Patagonia.bonificaciones info = (-0.30000000000000004)%float
      /\ Patagonia.saldo_calculado info = 10.299999999999999%float
      /\ Patagonia.diferencia_validacion info = Some 1.7763568394002505e-15%float
      /\ Patagonia.validacion_ok info = Some true).
Proof.
  split; [|split; [|split; [|split; [|split; [|split]]]]].
  - intros py movements. unfold Patagonia.process.
    destruct (Patagonia._extract_saldo_anterior movements) as [saldo m1].
    cbn [fst snd].
    destruct (Patagonia._extract_cargos_bancarios m1) as [cargos m2].
    destruct (fold_left Patagonia.saldo_step (PyList.enumerate m2) (None, None, []))
      as [[stated pago] idx].
    cbn [fst snd Patagonia.saldo_anterior Patagonia.cargos_bancarios
         Patagonia.total_consumos Patagonia.bonificaciones
         Patagonia.saldo_calculado Patagonia.diferencia_validacion
         Patagonia.validacion_ok Patagonia.saldo_actual].
    repeat split; destruct stated; reflexivity.
  - intros [|]; vm_compute; repeat split.
  - intros [|]; vm_compute; repeat split.
  - intros [|]; (eexists; eexists; split; [vm_compute; reflexivity|]);
      vm_compute; repeat split.
  - intros [|]; (eexists; eexists; split; [vm_compute; reflexivity|]);
      vm_compute; repeat split.
  - vm_compute. repeat split.
  - vm_compute. repeat split.
Qed.

(* ================================================================== *)
(** * The fixed-column line parser *)
(* ================================================================== *)

(** C6.  For every line, with [tail] the line from column 80 on: when the
    double-amount pattern matches [tail], a record that is emitted has the
    amount of the first group of that match; the single-amount pattern
    decides only when the double one does not match, and then the amount is
    that of its group; when neither matches no record is emitted.  On a line
    ending with 1.234,56 and 7.890,12 the record carries 1234.56. *)
Theorem double_amount_preference :
  (forall line : string,
     let tail := PyStr.slice_from Base.min_amount_pos line in
     match search Base.monto_doble_re tail with
     | Some m =>
         forall mov, In mov (Base._parse_by_fixed_positions line) ->
           Some (Base.importe mov)
           = amount_of_token (PyDate.opt_default "" (group 1 m tail))
     | None =>
         match search Base.monto_simple_re tail with
         | Some m =>
             forall mov, In mov (Base._parse_by_fixed_positions line) ->
               Some (Base.importe mov)
               = amount_of_token (PyDate.opt_default "" (group 1 m tail))
         | None => Base._parse_by_fixed_positions line = []
         end
     end)
  /\ (let tail := PyStr.slice_from Base.min_amount_pos two_amount_line in
      Base._looks_like_movement two_amount_line = true
      /\ (exists m, search Base.monto_doble_re tail = Some m
                    /\ group 1 m tail = Some "1.234,56"
                    /\ group 2 m tail = Some "7.890,12")
      /\ List.map Base.importe (Base._parse_by_fixed_positions two_amount_line)
         = [1234.56%float]).
Proof.
  split.
  - intros line tail.
    assert (Hparse : forall raw pos mov,
              Base.locate_monto line = Some (raw, pos) ->
              In mov (Base._parse_by_fixed_positions line) ->
              Some (Base.importe mov) = amount_of_token raw).
    { intros raw pos mov Hloc Hin. unfold Base._parse_by_fixed_positions in Hin.
      rewrite Hloc in Hin. unfold amount_of_token.
      destruct (PyStr.is_empty line || (String.length (PyStr.strip line) <? 10));
        [contradiction|].
      destruct (Base.monto_str_of raw) as [monto_str|]; [|contradiction].
      destruct (search Base.cuota_re _);
        destruct (31 <? _); destruct (20 <? _);
        destruct (Utils.extract_amount monto_str); try contradiction;
        match type of Hin with
        | In _ (if ?c then _ else _) => destruct c; [|contradiction]
        end;
        destruct Hin as [<- | []]; reflexivity. }
    assert (Hnone : Base.locate_monto line = None ->
                    Base._parse_by_fixed_positions line = []).
    { intros Hloc. unfold Base._parse_by_fixed_positions. rewrite Hloc.
      now destruct (PyStr.is_empty line || _). }
    unfold Base.locate_monto in Hparse, Hnone. fold tail in Hparse, Hnone.
    destruct (search Base.monto_doble_re tail) as [m|].
    + intros mov. now apply Hparse with (pos := Base.min_amount_pos + m_start m).
    + destruct (search Base.monto_simple_re tail) as [m|].
      * intros mov. now apply Hparse with (pos := Base.min_amount_pos + m_start m).
      * now apply Hnone.
  - cbv zeta. split; [vm_compute; reflexivity|]. split.
    + eexists. split; [vm_compute; reflexivity|]. split; vm_compute; reflexivity.
    + vm_compute. reflexivity.
Qed.

Lemma double_amount_preference_witness :
  Some 1234.56%float = amount_of_token "1.234,56".
Proof.
  assert (H := proj1 double_amount_preference two_amount_line).
  cbv zeta in H.
  replace (search Base.monto_doble_re
             (PyStr.slice_from Base.min_amount_pos two_amount_line))
    with (Some (RMatch 8 30 [(2, (22, 30)); (1, (8, 16))])) in H
    by (vm_compute; reflexivity).
  apply (H (Base.Movement (Some (PyDate.Date 2025 1 16)) "000123" "COMPRA DOBLE"
                          1234.56%float "" "ARS" None None None)).
  vm_compute. left. reflexivity.
Defined.

(* ================================================================== *)
(** * The date parser *)
(* ================================================================== *)

(** C5, as stated, fails: with the default formats "15 ene. 2025" becomes
    "15 jan. 2025", and the point after the month matches none of them. *)
Lemma parse_date_dotted_month_default :
  Utils.normalize_spanish_month "15 ene. 2025" = "15 jan. 2025"
  /\ List.map (PyDate.strptime "15 jan. 2025") Config.DATE_FORMATS
     = [None; None; None; None; None]
  /\ Utils.parse_date "15 ene. 2025" None = None.
Proof.
  repeat split; vm_compute; reflexivity.
Qed.

Lemma try_formats_none (date_str : string) (formats : list string) :
  (forall fmt, In fmt formats -> PyDate.strptime date_str fmt = None) ->
  Utils.try_formats date_str formats = None.
Proof.
  induction formats as [|fmt formats IH]; intros H; simpl.
  - reflexivity.
  - rewrite (H fmt) by (now left). apply IH. intros f Hf. apply H. now right.
Qed.

(** C5, amended.  [parse_date("15 ene. 2025")] is the date 2025-01-15 with
    the format "%d %b. %Y" that the Patagonia configuration declares, and
    [None] with the default formats; [parse_date("15 ene 2025")], without
    the point, is that date with the default formats.  With either
    configured list of formats, a string that matches none of the formats,
    that is one on whose stripped and normalized form [strptime] fails for
    each of them, gives [None], and so does an empty or blank string; no
    call raises: the configured formats use the directives [%d %m %Y %b %B]
    only, each at most once, so that [strptime] raises nothing but
    [ValueError]. *)
Theorem parse_date_spanish_month :
  Utils.parse_date "15 ene. 2025" (Some [Config.patagonia_date_format])
  = Some (PyDate.Date 2025 1 15)
  /\ Utils.parse_date "15 ene. 2025" None = None
  /\ Utils.parse_date "15 ene 2025" None = Some (PyDate.Date 2025 1 15)
  /\ forallb PyDate.supported_format
             (Config.patagonia_date_format :: Config.DATE_FORMATS) = true
  /\ (forall (date_str : string) (formats : option (list string)),
        formats = None \/ formats = Some [Config.patagonia_date_format] ->
        (forall fmt, In fmt (Utils.formats_to_try formats) ->
           PyDate.strptime (Utils.normalize_spanish_month (PyStr.strip date_str)) fmt
           = None) ->
        Utils.parse_date date_str formats = None)
  /\ (forall (date_str : string) (formats : option (list string)),
        formats = None \/ formats = Some [Config.patagonia_date_format] ->
        PyStr.strip date_str = "" -> Utils.parse_date date_str formats = None).
Proof.
  split; [vm_compute; reflexivity|].
  split; [vm_compute; reflexivity|].
  split; [vm_compute; reflexivity|].
  split; [vm_compute; reflexivity|].
  split.
  - intros date_str formats _ H. unfold Utils.parse_date.
    destruct (PyStr.is_empty date_str); [reflexivity|].
    destruct (PyStr.is_empty (PyStr.strip date_str)); [reflexivity|].
    now apply try_formats_none.
  - intros date_str formats _ H. unfold Utils.parse_date. rewrite H. simpl.
    now destruct (PyStr.is_empty date_str).
Qed.

Lemma parse_date_spanish_month_witness :
  Utils.parse_date "31/02/2025" None = None
  /\ Utils.parse_date "   " (Some [Config.patagonia_date_format]) = None.
Proof.
  split.
  - apply (proj1 (proj2 (proj2 (proj2 (proj2 parse_date_spanish_month)))));
      [left; reflexivity|].
    intros fmt Hin. vm_compute in Hin.
    repeat (destruct Hin as [<- | Hin]; [vm_compute; reflexivity|]).
    contradiction.
  - apply (proj2 (proj2 (proj2 (proj2 (proj2 parse_date_spanish_month)))));
      [right; reflexivity|].
    vm_compute. reflexivity.
Defined.

(* ================================================================== *)
(** * The matcher on the simple patterns *)
(* ================================================================== *)

Section Substitution.

Lemma append_nil_r (s : string) : s ++ "" = s.
Proof. induction s as [|c s IH]; simpl; [reflexivity | now rewrite IH]. Qed.

Lemma length_app_str (s t : string) :
  String.length (s ++ t) = String.length s + String.length t.
Proof. induction s as [|c s IH]; simpl; [reflexivity | now rewrite IH]. Qed.

Lemma length_slice_to (n : nat) (s : string) :
  String.length (PyStr.slice_to n s) <= n.
Proof.
  revert s; induction n as [|n IH]; intros [|c s]; simpl; try lia.
  specialize (IH s). lia.
Qed.

Lemma length_slice_from (n : nat) (s : string) :
  String.length (PyStr.slice_from n s) = String.length s - n.
Proof.
  revert s; induction n as [|n IH]; intros [|c s]; simpl; auto.
Qed.

Variable p : ascii -> bool.
Variable repl : string.

(** Where the leftmost character of class [p] is, and what replacing does
    around it. *)
Lemma search_from_chr (s : string) : forall pos,
  match search_from (Chr p) pos s with
  | None => replace_class p repl s = s
  | Some m =>
      exists i, m_start m = pos + i /\ m_end m = pos + i + 1
        /\ i < String.length s
        /\ replace_class p repl s
           = PyStr.slice_to i s ++ repl
             ++ replace_class p repl (PyStr.slice_from (i + 1) s)
  end.
Proof.
  induction s as [|c s IH]; intros pos.
  - reflexivity.
  - unfold search_from; fold search_from. unfold match_at. simpl.
    destruct (p c) eqn:Hc.
    + exists 0. simpl. repeat split; lia.
    + specialize (IH (S pos)).
      destruct (search_from (Chr p) (S pos) s) as [m|].
      * destruct IH as (i & H1 & H2 & H3 & H4).
        exists (S i). simpl. rewrite H4. repeat split; try lia.
      * simpl. now rewrite IH.
Qed.

Lemma sub_from_chr (fuel : nat) : forall pos s,
  String.length s < fuel ->
  sub_from (Chr p) repl fuel pos s = replace_class p repl s.
Proof.
  induction fuel as [|fuel IH]; intros pos s Hlen; [lia|].
  simpl. pose proof (search_from_chr s pos) as H.
  destruct (search_from (Chr p) pos s) as [m|].
  - destruct H as (i & H1 & H2 & H3 & H4).
    rewrite H4, H1, H2.
    replace (pos + i - pos) with i by lia.
    replace (pos + i + 1 - pos) with (i + 1) by lia.
    rewrite IH; [reflexivity|].
    rewrite length_slice_from. lia.
  - now rewrite H.
Qed.

(** [re.sub] of a character class is the replacement character by
    character. *)
Lemma sub_chr (s : string) : Re.sub (Chr p) repl s = replace_class p repl s.
Proof. apply sub_from_chr. lia. Qed.

End Substitution.

Section Whitespace.

(** A greedy run of whitespace followed by nothing else takes the whole
    run. *)
Lemma star_ws (p0 fuel : nat) : forall pos s gs,
  String.length s < fuel ->
  star_loop (fun st' k' => run ws st' k')
            (fun st => Some (RMatch p0 (Re.pos st) (groups st)))
            fuel (MState pos s gs)
  = Some (RMatch p0 (pos + span_ws s) gs).
Proof.
  induction fuel as [|fuel IH]; intros pos s gs Hlen; [lia|].
  destruct s as [|c s]; cbn [star_loop run ws rest Re.pos groups span_ws].
  - now rewrite Nat.add_0_r.
  - destruct (PyStr.is_space c).
    + replace (pos <? S pos) with true by (symmetry; apply Nat.ltb_lt; lia).
      rewrite IH by (simpl in Hlen; lia).
      now rewrite Nat.add_succ_r.
    + now rewrite Nat.add_0_r.
Qed.

Lemma match_at_plus_ws (pos : nat) (c : ascii) (s : string) :
  match_at (Plus ws) pos (String c s)
  = if PyStr.is_space c then Some (RMatch pos (S pos + span_ws s) []) else None.
Proof.
  unfold match_at, Plus, ws. cbn [run rest Re.pos groups].
  destruct (PyStr.is_space c); [|reflexivity].
  apply (star_ws pos (S (String.length s)) (S pos) s []). lia.
Qed.

Lemma collapse_after_run (s : string) :
  collapse_from true s = collapse_from false (PyStr.slice_from (span_ws s) s).
Proof.
  induction s as [|c s IH]; simpl; [reflexivity|].
  destruct (PyStr.is_space c) eqn:Hc; simpl; [exact IH | now rewrite Hc].
Qed.

Lemma search_from_plus_ws (s : string) : forall pos,
  match search_from (Plus ws) pos s with
  | None => forall b, collapse_from b s = s
  | Some m =>
      exists i n, m_start m = pos + i /\ m_end m = pos + i + n
        /\ 1 <= n /\ i + n <= String.length s
        /\ collapse s
           = PyStr.slice_to i s ++ " " ++ collapse (PyStr.slice_from (i + n) s)
  end.
Proof.
  induction s as [|c s IH]; intros pos.
  - simpl. intros b. reflexivity.
  - unfold search_from; fold search_from. rewrite match_at_plus_ws.
    destruct (PyStr.is_space c) eqn:Hc.
    + exists 0, (S (span_ws s)). unfold collapse. simpl. rewrite Hc.
      rewrite collapse_after_run. repeat split; try lia.
      clear. induction s as [|a s IHs]; simpl; [lia|].
      destruct (PyStr.is_space a); lia.
    + specialize (IH (S pos)).
      destruct (search_from (Plus ws) (S pos) s) as [m|].
      * destruct IH as (i & n & H1 & H2 & H3 & H4 & H5).
        exists (S i), n. unfold collapse in *. simpl. rewrite Hc, H5.
        repeat split; try lia.
      * intros b. simpl. now rewrite Hc, IH.
Qed.

Lemma sub_from_plus_ws (fuel : nat) : forall pos s,
  String.length s < fuel ->
  sub_from (Plus ws) " " fuel pos s = collapse s.
Proof.
  induction fuel as [|fuel IH]; intros pos s Hlen; [lia|].
  simpl. pose proof (search_from_plus_ws s pos) as H.
  destruct (search_from (Plus ws) pos s) as [m|].
  - destruct H as (i & n & H1 & H2 & H3 & H4 & H5).
    rewrite H5, H1, H2.
    replace (pos + i - pos) with i by lia.
    replace (pos + i + n - pos) with (i + n) by lia.
    rewrite IH; [reflexivity|].
    rewrite length_slice_from. lia.
  - symmetry. apply H.
Qed.

(** [re.sub(r'\s+', ' ', s)] replaces every run of whitespace by a space. *)
Lemma sub_plus_ws (s : string) : Re.sub (Plus ws) " " s = collapse s.
Proof. apply sub_from_plus_ws. lia. Qed.

End Whitespace.

(* ================================================================== *)
(** * Stripping and collapsing whitespace *)
(* ================================================================== *)

Section Tidy.

Lemma lclean_lstrip (s : string) : lclean (PyStr.lstrip s) = true.
Proof.
  induction s as [|c s IH]; simpl; [reflexivity|].
  destruct (PyStr.is_space c) eqn:Hc; [exact IH | simpl; now rewrite Hc].
Qed.

Lemma lstrip_lclean (s : string) : lclean s = true -> PyStr.lstrip s = s.
Proof.
  destruct s as [|c s]; simpl; [reflexivity|].
  now destruct (PyStr.is_space c).
Qed.

Lemma lclean_rstrip (s : string) : lclean s = true -> lclean (PyStr.rstrip s) = true.
Proof.
  destruct s as [|c s]; simpl; [reflexivity|].
  destruct (PyStr.is_space c) eqn:Hc; [discriminate|].
  intros _. rewrite andb_false_r. simpl. now rewrite Hc.
Qed.

Lemma rstrip_rstrip (s : string) : PyStr.rstrip (PyStr.rstrip s) = PyStr.rstrip s.
Proof.
  induction s as [|c s IH]; simpl; [reflexivity|].
  destruct (PyStr.is_empty (PyStr.rstrip s) && PyStr.is_space c) eqn:H;
    [reflexivity|].
  simpl. rewrite IH, H. reflexivity.
Qed.

Lemma strip_strip (s : string) : PyStr.strip (PyStr.strip s) = PyStr.strip s.
Proof.
  unfold PyStr.strip.
  rewrite (lstrip_lclean (PyStr.rstrip (PyStr.lstrip s)))
    by (apply lclean_rstrip, lclean_lstrip).
  apply rstrip_rstrip.
Qed.

Lemma single_spaced_lstrip (s : string) :
  single_spaced s = true -> single_spaced (PyStr.lstrip s) = true.
Proof.
  induction s as [|c s IH]; simpl; [reflexivity|].
  destruct (PyStr.is_space c) eqn:Hc.
  - intros H. apply andb_prop in H. apply IH, H.
  - intros H. simpl. now rewrite Hc.
Qed.

Lemma single_spaced_rstrip (s : string) :
  single_spaced s = true -> single_spaced (PyStr.rstrip s) = true.
Proof.
  induction s as [|c s IH]; simpl; [reflexivity|].
  intros H. apply andb_prop in H. destruct H as [H1 H2].
  destruct (PyStr.is_empty (PyStr.rstrip s) && PyStr.is_space c); [reflexivity|].
  simpl. rewrite (IH H2), andb_true_r.
  destruct (PyStr.is_space c); [|reflexivity].
  apply andb_prop in H1. destruct H1 as [H1 H3].
  now rewrite H1, (lclean_rstrip s H3).
Qed.

Lemma single_spaced_strip (s : string) :
  single_spaced s = true -> single_spaced (PyStr.strip s) = true.
Proof.
  intros H. apply single_spaced_rstrip, single_spaced_lstrip, H.
Qed.

Lemma collapse_from_tidy (s : string) : forall b,
  single_spaced (collapse_from b s) = true
  /\ lclean (collapse_from true s) = true.
Proof.
  induction s as [|c s IH]; intros b; simpl; [now split|].
  destruct (PyStr.is_space c) eqn:Hc.
  - destruct (IH true) as [H1 H2].
    destruct b; simpl; [now split|].
    now rewrite H1, H2.
  - simpl. rewrite Hc. destruct (IH false) as [H1 _]. now rewrite H1.
Qed.

Lemma single_spaced_collapse (s : string) : single_spaced (collapse s) = true.
Proof. apply collapse_from_tidy. Qed.

Lemma collapse_single_spaced (s : string) :
  single_spaced s = true ->
  collapse_from false s = s /\ (lclean s = true -> collapse_from true s = s).
Proof.
  induction s as [|c s IH]; simpl; [now split|].
  intros H. apply andb_prop in H. destruct H as [H1 H2].
  destruct (IH H2) as [IH1 IH2].
  destruct (PyStr.is_space c) eqn:Hc.
  - apply andb_prop in H1. destruct H1 as [H1 H3].
    apply Ascii.eqb_eq in H1. subst c. split; [|discriminate].
    now rewrite (IH2 H3).
  - rewrite IH1. now split.
Qed.

Lemma collapse_fixed (s : string) : single_spaced s = true -> collapse s = s.
Proof. intros H. apply collapse_single_spaced, H. Qed.

Variable p : ascii -> bool.

Lemma forallb_lstrip (s : string) :
  PyStr.forallb p s = true -> PyStr.forallb p (PyStr.lstrip s) = true.
Proof.
  induction s as [|c s IH]; simpl; [reflexivity|].
  intros H. destruct (PyStr.is_space c); [|exact H].
  apply andb_prop in H. apply IH, H.
Qed.

Lemma forallb_rstrip (s : string) :
  PyStr.forallb p s = true -> PyStr.forallb p (PyStr.rstrip s) = true.
Proof.
  induction s as [|c s IH]; simpl; [reflexivity|].
  intros H. apply andb_prop in H. destruct H as [H1 H2].
  destruct (PyStr.is_empty (PyStr.rstrip s) && PyStr.is_space c); [reflexivity|].
  simpl. now rewrite H1, (IH H2).
Qed.

Lemma forallb_strip (s : string) :
  PyStr.forallb p s = true -> PyStr.forallb p (PyStr.strip s) = true.
Proof. intros H. apply forallb_rstrip, forallb_lstrip, H. Qed.

Lemma forallb_collapse (s : string) : forall b,
  p " " = true ->
  PyStr.forallb p s = true -> PyStr.forallb p (collapse_from b s) = true.
Proof.
  induction s as [|c s IH]; intros b Hsp; simpl; [reflexivity|].
  intros H. apply andb_prop in H. destruct H as [H1 H2].
  destruct (PyStr.is_space c); [destruct b|]; simpl;
    rewrite ?Hsp, ?H1; simpl; now apply IH.
Qed.

Lemma forallb_replace_class (s : string) :
  p " " = true ->
  PyStr.forallb p (replace_class (fun c => negb (p c)) " " s) = true.
Proof.
  intros Hsp. induction s as [|c s IH]; simpl; [reflexivity|].
  destruct (p c) eqn:Hc; simpl; [now rewrite Hc | now rewrite Hsp].
Qed.

Lemma replace_class_fixed (s : string) :
  PyStr.forallb p s = true -> replace_class (fun c => negb (p c)) " " s = s.
Proof.
  induction s as [|c s IH]; simpl; [reflexivity|].
  intros H. apply andb_prop in H. destruct H as [H1 H2].
  now rewrite H1, (IH H2).
Qed.

End Tidy.

(* ================================================================== *)
(** * The matcher: where a match can end *)
(* ================================================================== *)

Section MatcherInvariant.

Context {A : Type}.

Lemma advances_refl (st : mstate) : advances st st.
Proof. split; lia. Qed.

Lemma advances_trans (a b c : mstate) :
  advances a b -> advances b c -> advances a c.
Proof. unfold advances. intros [H1 H2] [H3 H4]. split; lia. Qed.

Lemma star_loop_sound body (Hbody : sound (A := A) body) (k : mstate -> option A) :
  forall fuel st x, star_loop body k fuel st = Some x ->
    exists st', k st' = Some x /\ advances st st'.
Proof.
  induction fuel as [|fuel IH]; intros st x H; simpl in H.
  - exists st. split; [exact H | apply advances_refl].
  - destruct (body st _) as [y|] eqn:Hb.
    + injection H as ->. apply Hbody in Hb.
      destruct Hb as (st1 & H1 & Hadv).
      destruct (Re.pos st <? Re.pos st1); [|discriminate].
      apply IH in H1. destruct H1 as (st' & H1 & Hadv').
      exists st'. split; [exact H1 | eapply advances_trans; eassumption].
    + exists st. split; [exact H | apply advances_refl].
Qed.

Lemma lazy_loop_sound body (Hbody : sound (A := A) body) (k : mstate -> option A) :
  forall fuel st x, lazy_loop body k fuel st = Some x ->
    exists st', k st' = Some x /\ advances st st'.
Proof.
  induction fuel as [|fuel IH]; intros st x H; simpl in H.
  - exists st. split; [exact H | apply advances_refl].
  - destruct (k st) as [y|] eqn:Hk.
    + injection H as ->. exists st. split; [exact Hk | apply advances_refl].
    + apply Hbody in H. destruct H as (st1 & H1 & Hadv).
      destruct (Re.pos st <? Re.pos st1); [|discriminate].
      apply IH in H1. destruct H1 as (st' & H1 & Hadv').
      exists st'. split; [exact H1 | eapply advances_trans; eassumption].
Qed.

Lemma run_sound (r : re) : sound (fun st k => run (A := A) r st k).
Proof.
  induction r as [|p|a IHa b IHb|a IHa b IHb|a IHa|a IHa|n a IHa| |];
    intros st k x H; cbn [run] in H.
  - exists st. split; [exact H | apply advances_refl].
  - destruct st as [ps rs gs]. cbn [rest Re.pos groups] in H.
    destruct rs as [|c s]; [discriminate|].
    destruct (p c); [|discriminate].
    eexists. split; [exact H|]. split; simpl; lia.
  - apply IHa in H. destruct H as (st1 & H & Hadv).
    apply IHb in H. destruct H as (st' & H & Hadv').
    exists st'. split; [exact H | eapply advances_trans; eassumption].
  - destruct (run a st k) as [y|] eqn:Ha.
    + injection H as ->. now apply IHa in Ha.
    + now apply IHb in H.
  - now apply (star_loop_sound _ IHa) in H.
  - now apply (lazy_loop_sound _ IHa) in H.
  - apply IHa in H. destruct H as (st1 & H & Hadv).
    eexists. split; [exact H|]. exact Hadv.
  - destruct (Re.pos st =? 0); [|discriminate].
    exists st. split; [exact H | apply advances_refl].
  - exists st. split; [|apply advances_refl].
    destruct (rest st) as [|c [|c' s]]; try discriminate; [exact H|].
    destruct (Ascii.eqb c "010"); [exact H | discriminate].
Qed.

End MatcherInvariant.

Section MatchBounds.

Lemma match_at_bounds (r : re) (p : nat) (s : string) (m : rmatch) :
  match_at r p s = Some m ->
  m_start m = p /\ p <= m_end m /\ m_end m <= p + String.length s.
Proof.
  unfold match_at. intros H. apply (run_sound r) in H.
  destruct H as (st' & H & Hadv1 & Hadv2). injection H as <-.
  simpl in *. repeat split; lia.
Qed.

Lemma search_from_bounds (r : re) (s : string) : forall p m,
  search_from r p s = Some m ->
  p <= m_start m /\ m_start m <= m_end m /\ m_end m <= p + String.length s
  /\ match_at r (m_start m) (PyStr.slice_from (m_start m - p) s) = Some m.
Proof.
  induction s as [|c s IH]; intros p m H; simpl in H.
  - destruct (match_at r p "") as [m'|] eqn:Hm; [|discriminate].
    injection H as ->. pose proof (match_at_bounds _ _ _ _ Hm) as (H1 & H2 & H3).
    rewrite H1, Nat.sub_diag. simpl in *. repeat split; try lia. exact Hm.
  - destruct (match_at r p (String c s)) as [m'|] eqn:Hm.
    + injection H as ->. pose proof (match_at_bounds _ _ _ _ Hm) as (H1 & H2 & H3).
      rewrite H1, Nat.sub_diag. simpl in *. repeat split; try lia. exact Hm.
    + apply IH in H. destruct H as (H1 & H2 & H3 & H4).
      simpl. repeat split; try lia.
      replace (m_start m - p) with (S (m_start m - S p)) by lia.
      exact H4.
Qed.

(** Removing matches never makes a string longer. *)
Lemma length_sub_from_empty (r : re) (fuel : nat) : forall p s,
  String.length (sub_from r "" fuel p s) <= String.length s.
Proof.
  induction fuel as [|fuel IH]; intros p s; simpl; [lia|].
  destruct (search_from r p s) as [m|] eqn:Hm; [|lia].
  apply search_from_bounds in Hm. destruct Hm as (H1 & H2 & H3 & _).
  rewrite length_app_str. simpl.
  specialize (IH (m_end m) (PyStr.slice_from (m_end m - p) s)).
  rewrite length_slice_from in IH.
  pose proof (length_slice_to (m_start m - p) s).
  lia.
Qed.

End MatchBounds.

(* ================================================================== *)
(** * The description normalizer *)
(* ================================================================== *)

Section Normalizer.

Import Utils.

Lemma is_description_char_space : is_description_char " " = true.
Proof. reflexivity. Qed.

(** [clean_description] with the three simple substitutions written as
    functions on characters. *)
Lemma clean_description_eq (text : string) :
  clean_description text
  = if PyStr.is_empty text then ""
    else PyStr.strip (collapse (PyStr.strip
           (replace_class (fun c => negb (is_description_char c)) " "
              (Re.sub cuota_tail_re "" (collapse (PyStr.strip text)))))).
Proof.
  unfold clean_description. now rewrite !sub_plus_ws, sub_chr.
Qed.

(** The result is stripped, single-spaced and made of allowed characters. *)
Lemma clean_description_tidy (text : string) :
  let y := clean_description text in
  PyStr.strip y = y /\ single_spaced y = true
  /\ PyStr.forallb is_description_char y = true.
Proof.
  cbv zeta. rewrite clean_description_eq.
  destruct (PyStr.is_empty text); [now repeat split|].
  repeat split.
  - apply strip_strip.
  - apply single_spaced_strip, single_spaced_collapse.
  - apply forallb_strip, forallb_collapse; [reflexivity|].
    apply forallb_strip, forallb_replace_class. reflexivity.
Qed.

Lemma sub_no_match (r : re) (repl s : string) :
  search r s = None -> Re.sub r repl s = s.
Proof.
  unfold search, Re.sub. simpl. now intros ->.
Qed.

Lemma length_lstrip (s : string) : String.length (PyStr.lstrip s) <= String.length s.
Proof.
  induction s as [|c s IH]; simpl; [lia|].
  destruct (PyStr.is_space c); simpl; lia.
Qed.

Lemma length_rstrip (s : string) : String.length (PyStr.rstrip s) <= String.length s.
Proof.
  induction s as [|c s IH]; simpl; [lia|].
  destruct (PyStr.is_empty (PyStr.rstrip s) && PyStr.is_space c); simpl; lia.
Qed.

Lemma length_strip (s : string) : String.length (PyStr.strip s) <= String.length s.
Proof.
  unfold PyStr.strip.
  pose proof (length_rstrip (PyStr.lstrip s)). pose proof (length_lstrip s). lia.
Qed.

Lemma length_collapse_from (s : string) : forall b,
  String.length (collapse_from b s) <= String.length s.
Proof.
  induction s as [|c s IH]; intros b; simpl; [lia|].
  destruct (PyStr.is_space c); [destruct b|]; simpl;
    [specialize (IH true) | specialize (IH true) | specialize (IH false)]; lia.
Qed.

Lemma length_replace_class_space (p : ascii -> bool) (s : string) :
  String.length (replace_class p " " s) = String.length s.
Proof.
  induction s as [|c s IH]; simpl; [reflexivity|].
  destruct (p c); simpl; now rewrite IH.
Qed.

(** A match of a pattern that begins with a character is not empty. *)
Lemma match_at_nonempty (q : ascii -> bool) (R : re) (p : nat) (s : string)
      (m : rmatch) :
  match_at (Seq (Chr q) R) p s = Some m -> p < m_end m.
Proof.
  unfold match_at. cbn [run rest Re.pos groups].
  destruct s as [|c s]; [discriminate|].
  destruct (q c); [|discriminate].
  intros H. apply (run_sound R) in H.
  destruct H as (st' & H & Hadv & _). injection H as <-. simpl in *. lia.
Qed.

Lemma match_at_seq_assoc (a b c : re) (p : nat) (s : string) :
  match_at (Seq (Seq a b) c) p s = match_at (Seq a (Seq b c)) p s.
Proof. reflexivity. Qed.

(** Removing a trailing installment annotation shortens the text. *)
Lemma sub_cuota_shorter (y : string) (m : rmatch) :
  search cuota_tail_re y = Some m ->
  String.length (Re.sub cuota_tail_re "" y) < String.length y.
Proof.
  intros H. unfold Re.sub. cbn [sub_from]. unfold search in H. rewrite H.
  apply search_from_bounds in H. destruct H as (_ & _ & H3 & H4).
  unfold cuota_tail_re, Plus, ws in H4. rewrite match_at_seq_assoc in H4.
  apply match_at_nonempty in H4.
  rewrite length_app_str. simpl.
  pose proof (length_sub_from_empty cuota_tail_re (String.length y) (m_end m)
                (PyStr.slice_from (m_end m - 0) y)) as H5.
  rewrite length_slice_from in H5.
  pose proof (length_slice_to (m_start m - 0) y). lia.
Qed.

End Normalizer.

(** C4, as stated, fails: of two installment annotations at the end the
    first application removes one and the second application the other; a
    forbidden character after an annotation hides it from the first
    application only. *)
Lemma clean_description_twice_differs :
  Utils.clean_description "A Cuota 1/2 Cuota 3/4" = "A Cuota 1/2"
  /\ Utils.clean_description (Utils.clean_description "A Cuota 1/2 Cuota 3/4") = "A"
  /\ Utils.clean_description "PAGO Cuota 1/2!" = "PAGO Cuota 1/2"
  /\ Utils.clean_description (Utils.clean_description "PAGO Cuota 1/2!") = "PAGO"
  /\ Utils.clean_description (Utils.clean_description "A Cuota 1/2 Cuota 3/4")
     <> Utils.clean_description "A Cuota 1/2 Cuota 3/4".
Proof.
  repeat split; try (vm_compute; reflexivity).
  vm_compute. discriminate.
Qed.

(** C4, amended.  [clean_description] applied twice gives the same as
    applied once exactly for the inputs whose normalized text does not itself
    end with an installment annotation (the pattern [\s+Cuota\s+\d+/\d+\s*$]
    finds no match in it); otherwise the second application removes that
    annotation and the text gets shorter. *)
Theorem clean_description_idempotent (x : string) :
  Utils.clean_description (Utils.clean_description x) = Utils.clean_description x
  <-> search Utils.cuota_tail_re (Utils.clean_description x) = None.
Proof.
  destruct (clean_description_tidy x) as (Hstrip & Hss & Hall).
  revert Hstrip Hss Hall. generalize (Utils.clean_description x). intros y.
  intros Hstrip Hss Hall.
  rewrite clean_description_eq.
  rewrite Hstrip, (collapse_fixed y Hss).
  split.
  - intros Heq.
    destruct (search Utils.cuota_tail_re y) as [m|] eqn:Hm; [exfalso|reflexivity].
    destruct y as [|c y]; [vm_compute in Hm; discriminate|].
    cbn [PyStr.is_empty] in Heq.
    apply sub_cuota_shorter in Hm.
    apply (f_equal String.length) in Heq.
    revert Heq Hm. generalize (Re.sub Utils.cuota_tail_re "" (String c y)).
    intros z Heq Hm.
    pose proof (length_strip
      (collapse (PyStr.strip
         (replace_class (fun c => negb (Utils.is_description_char c)) " " z)))).
    pose proof (length_collapse_from
      (PyStr.strip
         (replace_class (fun c => negb (Utils.is_description_char c)) " " z)) false).
    pose proof (length_strip
      (replace_class (fun c => negb (Utils.is_description_char c)) " " z)).
    pose proof (length_replace_class_space
      (fun c => negb (Utils.is_description_char c)) z).
    unfold collapse in *. lia.
  - intros Hno.
    destruct (PyStr.is_empty y) eqn:Hy; [now destruct y|].
    rewrite (sub_no_match _ _ _ Hno), (replace_class_fixed _ y Hall).
    now rewrite Hstrip, (collapse_fixed y Hss).
Qed.

Lemma clean_description_idempotent_witness :
  Utils.clean_description (Utils.clean_description "  MERCADO#PAGO   *X  Cuota 03/12 ")
  = Utils.clean_description "  MERCADO#PAGO   *X  Cuota 03/12 ".
Proof.
  apply (proj2 (clean_description_idempotent "  MERCADO#PAGO   *X  Cuota 03/12 ")).
  vm_compute. reflexivity.
Defined.

(* ================================================================== *)
(** * The amount parser *)
(* ================================================================== *)

Section AmountParser.

Import Utils Rules.

Lemma replace_class_filter (p : ascii -> bool) (s : string) :
  replace_class (fun c => negb (p c)) "" s = PyStr.filter p s.
Proof.
  induction s as [|c s IH]; simpl; [reflexivity|].
  destruct (p c); simpl; now rewrite IH.
Qed.

Lemma filter_lstrip (p : ascii -> bool) (s : string) :
  (forall c, PyStr.is_space c = true -> p c = false) ->
  PyStr.filter p (PyStr.lstrip s) = PyStr.filter p s.
Proof.
  intros Hp. induction s as [|c s IH]; simpl; [reflexivity|].
  destruct (PyStr.is_space c) eqn:Hc; [|reflexivity].
  now rewrite (Hp c Hc).
Qed.

Lemma filter_rstrip (p : ascii -> bool) (s : string) :
  (forall c, PyStr.is_space c = true -> p c = false) ->
  PyStr.filter p (PyStr.rstrip s) = PyStr.filter p s.
Proof.
  intros Hp. induction s as [|c s IH]; simpl; [reflexivity|].
  destruct (PyStr.is_empty (PyStr.rstrip s) && PyStr.is_space c) eqn:H.
  - apply andb_prop in H. destruct H as [H1 H2].
    rewrite (Hp c H2), <- IH.
    now destruct (PyStr.rstrip s).
  - simpl. now rewrite IH.
Qed.

Lemma filter_strip (p : ascii -> bool) (s : string) :
  (forall c, PyStr.is_space c = true -> p c = false) ->
  PyStr.filter p (PyStr.strip s) = PyStr.filter p s.
Proof.
  intros Hp. unfold PyStr.strip. now rewrite filter_rstrip, filter_lstrip.
Qed.

Lemma space_not_amount_char (c : ascii) :
  PyStr.is_space c = true -> is_amount_char c = false.
Proof.
  destruct c as [[] [] [] [] [] [] [] []]; vm_compute; congruence.
Qed.

(** [s.replace(c, new)] for a one-character [c]. *)
Lemma replace_char (c : ascii) (new s : string) :
  PyStr.replace (String c "") new s = replace_class (Ascii.eqb c) new s.
Proof.
  unfold PyStr.replace. simpl.
  induction s as [|a s IH]; simpl; [reflexivity|].
  rewrite andb_true_r. destruct (Ascii.eqb c a); now rewrite IH.
Qed.

(** The pieces of a split, by the number of separators. *)
Lemma split_shape (sep : ascii) (s : string) :
  match PyStr.split sep s with
  | [] => False
  | [p0] => occurrences sep s = 0 /\ p0 = s
  | [p0; p1] =>
      occurrences sep s = 1 /\ String.length p0 = leading sep s
      /\ String.length p1 = trailing sep s
  | _ => 2 <= occurrences sep s
  end.
Proof.
  induction s as [|c s IH]; simpl; [now split|].
  destruct (Ascii.eqb c sep).
  - destruct (PyStr.split sep s) as [|p0 [|p1 [|p2 ps]]]; try contradiction.
    + destruct IH as [H1 H2]. subst. now rewrite H1.
    + destruct IH as [H1 _]. rewrite H1. lia.
    + lia.
  - destruct (PyStr.split sep s) as [|p0 [|p1 [|p2 ps]]]; try contradiction.
    + destruct IH as [H1 H2]. subst. now split.
    + destruct IH as (H1 & H2 & H3). simpl. repeat split; auto.
    + exact IH.
Qed.

Lemma has_char_occurrences (sep : ascii) (s : string) :
  PyStr.has_char sep s = negb (occurrences sep s =? 0).
Proof.
  induction s as [|c s IH]; simpl; [reflexivity|].
  destruct (Ascii.eqb c sep); simpl; [reflexivity | exact IH].
Qed.

Ltac eqb_cases :=
  repeat match goal with
  | |- context [Ascii.eqb ?a ?b] =>
      destruct (Ascii.eqb_spec a b); subst; try congruence; try discriminate
  end.

Lemma apply_roles_both (s : string) :
  replace_class (Ascii.eqb ",") "." (replace_class (Ascii.eqb ".") "" s)
  = apply_roles Decimal Thousands s.
Proof.
  induction s as [|c s IH]; cbn [replace_class apply_roles]; [reflexivity|].
  eqb_cases; cbn [replace_class append]; eqb_cases; now rewrite IH.
Qed.

Lemma apply_roles_comma (point : separator_role) (s : string) :
  PyStr.has_char "." s = false ->
  apply_roles Decimal point s = replace_class (Ascii.eqb ",") "." s
  /\ apply_roles Thousands point s = replace_class (Ascii.eqb ",") "" s.
Proof.
  induction s as [|c s IH]; cbn [replace_class apply_roles PyStr.has_char];
    [now split|].
  intros H. apply orb_false_elim in H. destruct H as [H1 H2].
  destruct (IH H2) as [IH1 IH2]. rewrite IH1, IH2.
  revert H1. eqb_cases; intros _; now split.
Qed.

Lemma apply_roles_point (comma : separator_role) (s : string) :
  PyStr.has_char "," s = false ->
  apply_roles comma Decimal s = s
  /\ apply_roles comma Thousands s = replace_class (Ascii.eqb ".") "" s.
Proof.
  induction s as [|c s IH]; cbn [replace_class apply_roles PyStr.has_char];
    [now split|].
  intros H. apply orb_false_elim in H. destruct H as [H1 H2].
  destruct (IH H2) as [IH1 IH2]. rewrite IH1, IH2.
  revert H1. eqb_cases; intros _; now split.
Qed.

Lemma apply_roles_none (comma point : separator_role) (s : string) :
  PyStr.has_char "." s = false -> PyStr.has_char "," s = false ->
  apply_roles comma point s = s.
Proof.
  induction s as [|c s IH]; cbn [apply_roles PyStr.has_char]; [reflexivity|].
  intros H H'. apply orb_false_elim in H, H'.
  destruct H as [H1 H2], H' as [H3 H4]. rewrite (IH H2 H4).
  revert H1 H3. eqb_cases; reflexivity.
Qed.

(** The string handed to [float] is the body with the separators read by
    their roles. *)
Lemma cleaned_by_roles (body : string) :
  (if PyStr.has_char "." body && PyStr.has_char "," body then
     PyStr.replace "," "." (PyStr.replace "." "" body)
   else if PyStr.has_char "," body then
     match PyStr.split "," body with
     | [_; p1] =>
         if String.length p1 <=? 2 then PyStr.replace "," "." body
         else PyStr.replace "," "" body
     | _ => PyStr.replace "," "" body
     end
   else if PyStr.has_char "." body then
     match PyStr.split "." body with
     | [p0; p1] =>
         if (String.length p1 <=? 2) && (String.length p0 <=? 3)
         then body
         else PyStr.replace "." "" body
     | _ => PyStr.replace "." "" body
     end
   else body)
  = apply_roles (comma_role body) (point_role body) body.
Proof.
  rewrite !replace_char. unfold comma_role, point_role.
  destruct (PyStr.has_char "." body) eqn:Hp;
    destruct (PyStr.has_char "," body) eqn:Hc; simpl.
  - apply apply_roles_both.
  - destruct (apply_roles_point Decimal body Hc) as [H1 H2].
    pose proof (split_shape "." body) as Hs.
    destruct (PyStr.split "." body) as [|p0 [|p1 [|p2 ps]]]; try contradiction.
    + destruct Hs as [Hs _]. now rewrite Hs.
    + destruct Hs as (Hs & Hl & Ht). rewrite Hs, Hl, Ht. simpl.
      now destruct ((trailing "." body <=? 2) && (leading "." body <=? 3)).
    + replace (occurrences "." body =? 1) with false
        by (symmetry; apply Nat.eqb_neq; lia).
      exact (eq_sym H2).
  - destruct (apply_roles_comma Thousands body Hp) as [H1 H2].
    pose proof (split_shape "," body) as Hs.
    destruct (PyStr.split "," body) as [|p0 [|p1 [|p2 ps]]]; try contradiction.
    + destruct Hs as [Hs _]. now rewrite Hs.
    + destruct Hs as (Hs & Hl & Ht). rewrite Hs, Ht. simpl.
      now destruct (trailing "," body <=? 2).
    + replace (occurrences "," body =? 1) with false
        by (symmetry; apply Nat.eqb_neq; lia).
      exact (eq_sym H2).
  - symmetry. now apply apply_roles_none.
Qed.

Lemma extract_amount_refines (s : string) :
  extract_amount s = amount_by_rules s.
Proof.
  unfold extract_amount, amount_by_rules.
  destruct (PyStr.is_empty s) eqn:Hs; [now destruct s|].
  rewrite sub_chr, replace_class_filter.
  set (t := PyStr.strip s). set (neg := PyStr.endswith_char "-" t).
  replace (PyStr.filter is_amount_char
             (if neg then PyStr.strip (PyStr.drop_last t) else t))
    with (PyStr.filter is_amount_char (if neg then PyStr.drop_last t else t))
    by (destruct neg; [now rewrite (filter_strip _ _ space_not_amount_char)
                      | reflexivity]).
  set (body := PyStr.filter is_amount_char (if neg then PyStr.drop_last t else t)).
  rewrite cleaned_by_roles.
  destruct (PyStr.is_empty body) eqn:Hb; [now destruct body|reflexivity].
Qed.

End AmountParser.

Section DigitFree.

Lemma has_digit_forallb (s : string) :
  PyFloat.has_digit s = negb (PyStr.forallb no_digit s).
Proof.
  induction s as [|c s IH]; simpl; [reflexivity|].
  unfold no_digit at 1. destruct (PyStr.is_digit c); simpl; [reflexivity|exact IH].
Qed.

Lemma forallb_drop_last (p : ascii -> bool) (s : string) :
  PyStr.forallb p s = true -> PyStr.forallb p (PyStr.drop_last s) = true.
Proof.
  induction s as [|c s IH]; simpl; [reflexivity|].
  intros H. apply andb_prop in H. destruct H as [H1 H2].
  destruct s; [reflexivity|].
  cbn [PyStr.forallb]. rewrite H1. exact (IH H2).
Qed.

Lemma forallb_filter (p q : ascii -> bool) (s : string) :
  PyStr.forallb p s = true -> PyStr.forallb p (PyStr.filter q s) = true.
Proof.
  induction s as [|c s IH]; simpl; [reflexivity|].
  intros H. apply andb_prop in H. destruct H as [H1 H2].
  destruct (q c); simpl; [rewrite H1|]; exact (IH H2).
Qed.

Lemma forallb_apply_roles (comma point : Rules.separator_role) (s : string) :
  PyStr.forallb no_digit s = true ->
  PyStr.forallb no_digit (Rules.apply_roles comma point s) = true.
Proof.
  induction s as [|c s IH]; cbn [Rules.apply_roles PyStr.forallb]; [reflexivity|].
  intros H. apply andb_prop in H. destruct H as [H1 H2].
  specialize (IH H2).
  destruct (Ascii.eqb c ","); [destruct comma; [exact IH|]|];
    [|destruct (Ascii.eqb c "."); [destruct point; [exact IH|]|]];
    cbn [PyStr.forallb]; rewrite IH, ?H1; reflexivity.
Qed.

Lemma extract_amount_digit_free (s : string) :
  PyFloat.has_digit s = false -> Utils.extract_amount s = None.
Proof.
  intros H. rewrite has_digit_forallb in H. apply negb_false_iff in H.
  rewrite extract_amount_refines. unfold Rules.amount_by_rules.
  set (t := PyStr.strip s).
  set (body := PyStr.filter Utils.is_amount_char _).
  assert (Hb : PyStr.forallb no_digit body = true).
  { apply forallb_filter. destruct (PyStr.endswith_char "-" t).
    - apply forallb_drop_last, forallb_strip, H.
    - apply forallb_strip, H. }
  apply (forallb_apply_roles (Rules.comma_role body) (Rules.point_role body)) in Hb.
  unfold PyFloat.float_of_str. rewrite has_digit_forallb, Hb.
  now rewrite andb_false_r.
Qed.

End DigitFree.

(** C3.  For every string [extract_amount] returns what the separator rules
    give ([Rules.amount_by_rules]): with both separators the point groups
    thousands and the comma is the decimal separator; a comma alone is
    decimal iff it occurs once with at most 2 trailing digits, a point alone
    iff it occurs once with at most 2 trailing and at most 3 leading digits,
    else they group thousands; a trailing minus negates the value; an input
    without a digit, the empty one included, gives [None]. *)
Theorem extract_amount_separator_rules :
  (forall s : string, Utils.extract_amount s = Rules.amount_by_rules s)
  /\ (forall s : string,
        PyFloat.has_digit s = false -> Utils.extract_amount s = None)
  /\ Utils.extract_amount "1.234,56" = Some 1234.56%float
  /\ Utils.extract_amount "1.234,56-" = Some (-1234.56)%float
  /\ Utils.extract_amount "12,5" = Some 12.5%float
  /\ Utils.extract_amount "12.500" = Some 12500%float
  /\ Utils.extract_amount "" = None.
Proof.
  split; [exact extract_amount_refines|].
  split; [exact extract_amount_digit_free|].
  repeat split; vm_compute; reflexivity.
Qed.

Lemma extract_amount_separator_rules_witness :
  Utils.extract_amount "$ s/n -" = None.
Proof.
  apply (proj1 (proj2 extract_amount_separator_rules)).
  vm_compute. reflexivity.
Defined.

(* ================================================================== *)
(** * Further properties of [utils.py] *)
(* ================================================================== *)

Section AmountSign.

Import Utils Rules.

Lemma minus_not_amount_char : is_amount_char "-" = false.
Proof. reflexivity. Qed.

Lemma filter_drop_last (p : ascii -> bool) (c : ascii) (t : string) :
  PyStr.endswith_char c t = true -> p c = false ->
  PyStr.filter p (PyStr.drop_last t) = PyStr.filter p t.
Proof.
  intros He Hp. induction t as [|a t IH]; [reflexivity|].
  destruct t as [|b t].
  - simpl in *. apply Ascii.eqb_eq in He. subst. now rewrite Hp.
  - change (PyStr.drop_last (String a (String b t)))
      with (String a (PyStr.drop_last (String b t))).
    change (PyStr.endswith_char c (String a (String b t)))
      with (PyStr.endswith_char c (String b t)) in He.
    cbn [PyStr.filter] in *. now rewrite (IH He).
Qed.

Lemma filter_app (p : ascii -> bool) (s t : string) :
  PyStr.filter p (s ++ t) = PyStr.filter p s ++ PyStr.filter p t.
Proof.
  induction s as [|a s IH]; simpl; [reflexivity|].
  destruct (p a); simpl; now rewrite IH.
Qed.

(** The characters that [extract_amount] keeps are those of the input: the
    stripping and the removal of the trailing minus take none of them. *)
Lemma amount_body (s : string) :
  PyStr.filter is_amount_char
    (if PyStr.endswith_char "-" (PyStr.strip s)
     then PyStr.drop_last (PyStr.strip s) else PyStr.strip s)
  = PyStr.filter is_amount_char s.
Proof.
  destruct (PyStr.endswith_char "-" (PyStr.strip s)) eqn:He.
  - rewrite (filter_drop_last _ "-" _ He minus_not_amount_char).
    apply filter_strip, space_not_amount_char.
  - apply filter_strip, space_not_amount_char.
Qed.

Lemma endswith_rstrip_cons (c a : ascii) (s : string) :
  PyStr.is_empty (PyStr.rstrip s) = false ->
  PyStr.endswith_char c (PyStr.rstrip (String a s))
  = PyStr.endswith_char c (PyStr.rstrip s).
Proof.
  intros H. cbn [PyStr.rstrip]. rewrite H. simpl.
  destruct (PyStr.rstrip s); [discriminate | reflexivity].
Qed.

Lemma endswith_rstrip_lstrip (c : ascii) (s : string) :
  PyStr.endswith_char c (PyStr.rstrip (PyStr.lstrip s))
  = PyStr.endswith_char c (PyStr.rstrip s).
Proof.
  induction s as [|a s IH]; [reflexivity|].
  cbn [PyStr.lstrip]. destruct (PyStr.is_space a) eqn:Ha; [|reflexivity].
  rewrite IH. cbn [PyStr.rstrip]. rewrite Ha.
  destruct (PyStr.rstrip s) as [|b r]; reflexivity.
Qed.

Lemma rstrip_app_char (c : ascii) (s : string) :
  PyStr.is_space c = false ->
  PyStr.rstrip (s ++ String c "") = s ++ String c "".
Proof.
  intros Hc. induction s as [|a s IH]; simpl.
  - now rewrite Hc.
  - rewrite IH. now destruct s.
Qed.

Lemma endswith_app_char (c : ascii) (s : string) :
  PyStr.endswith_char c (s ++ String c "") = true.
Proof.
  induction s as [|a s IH]; simpl; [apply Ascii.eqb_refl|].
  destruct s; exact IH.
Qed.

(** The value of the digits and separators of [body], before the sign. *)
Lemma amount_by_rules_eq (s : string) :
  amount_by_rules s
  = match PyFloat.float_of_str
            (apply_roles (comma_role (PyStr.filter is_amount_char s))
                         (point_role (PyStr.filter is_amount_char s))
                         (PyStr.filter is_amount_char s)) with
    | Some v => Some (if PyStr.endswith_char "-" (PyStr.strip s)
                      then (- v)%float else v)
    | None => None
    end.
Proof. unfold amount_by_rules. now rewrite amount_body. Qed.

End AmountSign.

(** X1.  [extract_amount] reads only the digits, points and commas of its
    input and whether the last character before trailing whitespace is a
    minus: two inputs that agree on both give the same result, whatever
    other characters (currency signs, letters, spaces) they hold. *)
Theorem extract_amount_reads_digits_and_sign (s s' : string)
  (Hbody : PyStr.filter Utils.is_amount_char s
           = PyStr.filter Utils.is_amount_char s')
  (Hsign : PyStr.endswith_char "-" (PyStr.strip s)
           = PyStr.endswith_char "-" (PyStr.strip s')) :
  Utils.extract_amount s = Utils.extract_amount s'.
Proof.
  rewrite !extract_amount_refines, !amount_by_rules_eq.
  now rewrite Hbody, Hsign.
Qed.

Lemma extract_amount_reads_digits_and_sign_witness :
  Utils.extract_amount "$ 1.234,56 -" = Utils.extract_amount "ARS1.234x,56-  ".
Proof.
  apply (extract_amount_reads_digits_and_sign "$ 1.234,56 -" "ARS1.234x,56-  ");
    vm_compute; reflexivity.
Defined.

(** X2.  Only a trailing minus counts.  A minus put before the input changes
    nothing (the sign is dropped); a minus put after an input that does not
    already end with one negates the result; after an input that ends with
    one it changes nothing (two minus signs do not cancel). *)
Theorem extract_amount_minus_position (s : string) :
  Utils.extract_amount (String "-" s) = Utils.extract_amount s
  /\ (PyStr.endswith_char "-" (PyStr.strip s) = false ->
      Utils.extract_amount (s ++ "-")
      = PyDate.opt_map PrimFloat.opp (Utils.extract_amount s))
  /\ (PyStr.endswith_char "-" (PyStr.strip s) = true ->
      Utils.extract_amount (s ++ "-") = Utils.extract_amount s).
Proof.
  assert (Hafter : PyStr.endswith_char "-" (PyStr.strip (s ++ "-")) = true).
  { unfold PyStr.strip. rewrite endswith_rstrip_lstrip.
    rewrite rstrip_app_char by reflexivity. apply endswith_app_char. }
  assert (Hbody : PyStr.filter Utils.is_amount_char (s ++ "-")
                  = PyStr.filter Utils.is_amount_char s).
  { rewrite filter_app. simpl. apply append_nil_r. }
  rewrite !extract_amount_refines, !amount_by_rules_eq, Hafter, Hbody.
  cbn [PyStr.filter]. rewrite minus_not_amount_char.
  repeat split.
  - destruct (PyStr.is_empty (PyStr.rstrip s)) eqn:Hblank.
    + assert (Hf : PyStr.filter Utils.is_amount_char s = "").
      { rewrite <- (filter_rstrip _ s space_not_amount_char).
        now destruct (PyStr.rstrip s). }
      rewrite Hf. reflexivity.
    + replace (PyStr.endswith_char "-" (PyStr.strip (String "-" s)))
        with (PyStr.endswith_char "-" (PyStr.strip s)); [reflexivity|].
      unfold PyStr.strip. rewrite endswith_rstrip_lstrip.
      cbn [PyStr.lstrip]. replace (PyStr.is_space "-") with false by reflexivity.
      symmetry. now apply endswith_rstrip_cons.
  - intros ->. now destruct (PyFloat.float_of_str _).
  - intros ->. reflexivity.
Qed.

Lemma extract_amount_minus_position_witness :
  Utils.extract_amount ("1.234,56" ++ "-")
  = PyDate.opt_map PrimFloat.opp (Utils.extract_amount "1.234,56")
  /\ Utils.extract_amount ("50,00-" ++ "-") = Utils.extract_amount "50,00-".
Proof.
  split.
  - apply (proj1 (proj2 (extract_amount_minus_position "1.234,56"))).
    vm_compute. reflexivity.
  - apply (proj2 (proj2 (extract_amount_minus_position "50,00-"))).
    vm_compute. reflexivity.
Defined.

Section DateParser.

Import Utils PyDate.

Lemma strip_empty_of_empty (s : string) :
  PyStr.is_empty s = true -> PyStr.is_empty (PyStr.strip s) = true.
Proof. now destruct s. Qed.

(** [parse_date] as a function of the stripped string. *)
Lemma parse_date_eq (s : string) (formats : option (list string)) :
  parse_date s formats
  = if PyStr.is_empty (PyStr.strip s) then None
    else try_formats (normalize_spanish_month (PyStr.strip s))
                     (formats_to_try formats).
Proof.
  unfold parse_date. destruct (PyStr.is_empty s) eqn:H; [|reflexivity].
  now rewrite strip_empty_of_empty.
Qed.

Lemma is_empty_lower (s : string) :
  PyStr.is_empty (PyStr.lower s) = PyStr.is_empty s.
Proof. now destruct s. Qed.

Lemma strptime_valid (data fmt : string) (d : datetime) :
  strptime data fmt = Some d -> valid_date (year d) (month d) (day d) = true.
Proof.
  unfold strptime. destruct (format_re false fmt); [|discriminate].
  destruct (rmatch_of _ data); [|discriminate].
  destruct (m_end _ =? _); [|discriminate].
  destruct (valid_date _ _ _) eqn:Hv; [|discriminate].
  intros H. injection H as <-. exact Hv.
Qed.

Lemma try_formats_valid (data : string) (formats : list string) (d : datetime) :
  try_formats data formats = Some d ->
  valid_date (year d) (month d) (day d) = true.
Proof.
  induction formats as [|fmt formats IH]; simpl; [discriminate|].
  destruct (strptime data fmt) eqn:Hs; [|exact IH].
  intros H. injection H as <-. eapply strptime_valid, Hs.
Qed.

End DateParser.

(** X3.  [parse_date] looks at its input only up to surrounding whitespace
    and letter case: with a list of formats made of the directives the
    configuration uses, two strings whose stripped, lower-cased forms agree
    parse alike. *)
Theorem parse_date_case_space (s s' : string) (formats : option (list string))
  (Hformats : forallb PyDate.supported_format (Utils.formats_to_try formats)
              = true)
  (Hagree : PyStr.lower (PyStr.strip s) = PyStr.lower (PyStr.strip s')) :
  Utils.parse_date s formats = Utils.parse_date s' formats.
Proof.
  rewrite !parse_date_eq.
  unfold Utils.normalize_spanish_month. rewrite <- Hagree.
  rewrite <- (is_empty_lower (PyStr.strip s')), <- Hagree, is_empty_lower.
  reflexivity.
Qed.

Lemma parse_date_case_space_witness :
  Utils.parse_date "  15 ENE 2025 " None = Utils.parse_date "15 ene 2025" None.
Proof.
  apply (parse_date_case_space "  15 ENE 2025 " "15 ene 2025" None).
  - vm_compute. reflexivity.
  - vm_compute. reflexivity.
Defined.

(** X4.  The text [clean_description] returns has no whitespace at either
    end, no whitespace other than single spaces between words, only
    characters of the allowed class, and is never longer than the input. *)
Theorem clean_description_output (text : string) :
  let y := Utils.clean_description text in
  PyStr.strip y = y /\ single_spaced y = true
  /\ PyStr.forallb Utils.is_description_char y = true
  /\ String.length y <= String.length text.
Proof.
  cbv zeta. destruct (clean_description_tidy text) as (H1 & H2 & H3).
  repeat split; trivial.
  rewrite clean_description_eq. destruct (PyStr.is_empty text); [simpl; lia|].
  set (f := fun c => negb (Utils.is_description_char c)).
  pose proof (length_strip text).
  pose proof (length_collapse_from (PyStr.strip text) false).
  pose proof (length_sub_from_empty Utils.cuota_tail_re
                (S (String.length (collapse (PyStr.strip text)))) 0
                (collapse (PyStr.strip text))) as H4.
  fold (Re.sub Utils.cuota_tail_re "" (collapse (PyStr.strip text))) in H4.
  revert H4. generalize (Re.sub Utils.cuota_tail_re "" (collapse (PyStr.strip text))).
  intros z H4.
  pose proof (length_replace_class_space f z).
  pose proof (length_strip (replace_class f " " z)).
  pose proof (length_collapse_from (PyStr.strip (replace_class f " " z)) false).
  pose proof (length_strip (collapse (PyStr.strip (replace_class f " " z)))).
  unfold collapse in *. lia.
Qed.

(* ================================================================== *)
(** * Further properties of [extractors/base.py] *)
(* ================================================================== *)

Section Pages.

Import Base.

Lemma append_assoc_str (a b c : string) : (a ++ b) ++ c = a ++ (b ++ c).
Proof. induction a as [|x a IH]; simpl; [reflexivity | now rewrite IH]. Qed.

Lemma concat_empty_cons (x : string) (xs : list string) :
  String.concat "" (x :: xs) = x ++ String.concat "" xs.
Proof. destruct xs; simpl; [now rewrite append_nil_r | reflexivity]. Qed.

Lemma text_loop_returning (outs : list (option string)) : forall acc,
  _extract_text_from_pages_loop acc (List.map page_returning outs)
  = Returned (acc ++ String.concat "" (List.map (PyDate.opt_default "") outs)).
Proof.
  induction outs as [|o outs IH]; intros acc.
  - simpl. now rewrite append_nil_r.
  - cbn [List.map]. rewrite concat_empty_cons.
    cbn [_extract_text_from_pages_loop page_returning extract_text bind].
    destruct o as [t|]; rewrite IH; cbn [PyDate.opt_default].
    + destruct t; simpl; [reflexivity | now rewrite append_assoc_str].
    + reflexivity.
Qed.

Lemma text_loop_raises (pages : list page) (pg : page) :
  In pg pages -> extract_text pg = Raised ->
  forall acc, _extract_text_from_pages_loop acc pages = Raised.
Proof.
  intros Hin Hpg. induction pages as [|p pages IH]; [contradiction|].
  intros acc. simpl. destruct Hin as [->|Hin].
  - now rewrite Hpg.
  - destruct (extract_text p) as [[t|]|]; simpl; auto.
Qed.

End Pages.

(** X5.  When every page gives its text, [_extract_text_from_pages] returns
    the texts joined in page order with nothing between them (a page without
    text counts as empty); so the movements of the file are those of that one
    text, and a line cut by a page break is scanned as one line. *)
Theorem pages_are_concatenated (nombre : string) (o : option string)
  (outs : list (option string)) :
  let text := String.concat "" (List.map (PyDate.opt_default "") (o :: outs)) in
  let pdf := Base.PdfPath nombre
               (Returned (List.map page_returning (o :: outs))) in
  Base._extract_text_from_pages (List.map page_returning (o :: outs))
  = Returned text
  /\ Base._extract_movements_from_file pdf
     = Returned (Base._extract_movements_from_text text).
Proof.
  cbv zeta.
  assert (H : Base._extract_text_from_pages (List.map page_returning (o :: outs))
              = Returned (String.concat ""
                            (List.map (PyDate.opt_default "") (o :: outs)))).
  { unfold Base._extract_text_from_pages. now rewrite text_loop_returning. }
  split; [exact H|].
  unfold Base._extract_movements_from_file, Base._extract_pages_from_pdf.
  cbn [Base.open_pages]. rewrite H. reflexivity.
Qed.

(** X6.  A failure to open the file is absorbed, a failure to read a page
    is not: when [extract_text] raises on any page of an opened file,
    [_extract_movements_from_file], [extract_movements] and [extract] raise,
    whatever the other pages hold. *)
Theorem page_failure_propagates (pdf : Base.pdf_path) (pages : list Base.page)
  (pg : Base.page)
  (Hopen : Base.open_pages pdf = Returned pages)
  (Hin : In pg pages) (Hpg : Base.extract_text pg = Raised) :
  Base._extract_movements_from_file pdf = Raised
  /\ Base.extract_movements pdf = Raised
  /\ forall py last, Patagonia.extract py last pdf = Raised.
Proof.
  assert (H : Base._extract_movements_from_file pdf = Raised).
  { unfold Base._extract_movements_from_file, Base._extract_pages_from_pdf.
    rewrite Hopen. destruct pages as [|p pages]; [contradiction|].
    unfold Base._extract_text_from_pages.
    now rewrite (text_loop_raises _ pg Hin Hpg). }
  assert (H' : Base.extract_movements pdf = Raised).
  { unfold Base.extract_movements. now rewrite H. }
  repeat split; trivial.
  intros py last. unfold Patagonia.extract. now rewrite H'.
Qed.

Lemma page_failure_propagates_witness :
  Base._extract_movements_from_file
    (Base.PdfPath "r.pdf" (Returned [page_returning (Some "a"); Base.Page Raised]))
  = Raised
  /\ Base.extract_movements
       (Base.PdfPath "r.pdf" (Returned [page_returning (Some "a"); Base.Page Raised]))
     = Raised
  /\ forall py last,
       Patagonia.extract py last
         (Base.PdfPath "r.pdf" (Returned [page_returning (Some "a"); Base.Page Raised]))
       = Raised.
Proof.
  apply (page_failure_propagates
           (Base.PdfPath "r.pdf"
              (Returned [page_returning (Some "a"); Base.Page Raised]))
           [page_returning (Some "a"); Base.Page Raised] (Base.Page Raised)).
  - reflexivity.
  - right. left. reflexivity.
  - reflexivity.
Defined.

Section LineParser.

Import Base.

Lemma slice_from_short (n : nat) (s : string) :
  String.length s <= n -> PyStr.slice_from n s = "".
Proof.
  revert s. induction n as [|n IH]; intros [|c s] H; simpl in *;
    try reflexivity; try lia.
  apply IH. lia.
Qed.

Lemma locate_monto_short (line : string) :
  String.length line <= min_amount_pos -> locate_monto line = None.
Proof.
  intros H. unfold locate_monto. rewrite (slice_from_short _ _ H). reflexivity.
Qed.

Lemma fecha_of_valid (line : string) (d : PyDate.datetime) :
  fecha_of line = Some d ->
  PyDate.valid_date (PyDate.year d) (PyDate.month d) (PyDate.day d) = true.
Proof.
  unfold fecha_of. destruct (15 <=? String.length line); [|discriminate].
  destruct (rmatch_of fecha_re _); [|discriminate].
  destruct (PyStr.split "." _) as [|a [|b [|c [|e l]]]]; try discriminate.
  rewrite parse_date_eq. destruct (PyStr.is_empty _); [discriminate|].
  apply try_formats_valid.
Qed.

(** What [_parse_by_fixed_positions] returns: nothing, or one record of the
    transaction shape. *)
Lemma parse_line_cases (line : string) :
  _parse_by_fixed_positions line = []
  \/ exists mov, _parse_by_fixed_positions line = [mov] /\ transaction_shape mov.
Proof.
  unfold _parse_by_fixed_positions.
  destruct (PyStr.is_empty line || (String.length (PyStr.strip line) <? 10));
    [now left|].
  destruct (locate_monto line) as [[raw pos]|]; [|now left].
  destruct (monto_str_of raw) as [monto_str|]; [|now left].
  destruct (search cuota_re _);
    destruct (31 <? _); destruct (20 <? _);
    destruct (Utils.extract_amount monto_str); try (now left);
    match goal with
    | |- (if ?c then _ else _) = [] \/ _ => destruct c eqn:Htruthy; [|now left]
    end;
    right; eexists; (split; [reflexivity|]);
    match type of Htruthy with
    | PyStr.truthy (Utils.clean_description ?x) = true =>
        destruct (clean_description_tidy x) as (H1 & H2 & H3)
    end;
    unfold transaction_shape; cbn [descripcion moneda titular archivo_origen banco fecha];
    repeat split; trivial; intros d Hd; eapply fecha_of_valid; exact Hd.
Qed.

End LineParser.

(** X7.  [_parse_by_fixed_positions] emits at most one record per line, and
    none for a line of 80 characters or fewer (no room for an amount).  An
    emitted record has a non-empty description in normalized form, currency
    "ARS", no [titular], [archivo_origen] or [banco] key, and a date that is
    absent or exists in the calendar. *)
Theorem line_parser_record (line : string) :
  (String.length line <= 80 -> Base._parse_by_fixed_positions line = [])
  /\ (Base._parse_by_fixed_positions line = []
      \/ exists mov, Base._parse_by_fixed_positions line = [mov]
                     /\ transaction_shape mov).
Proof.
  split; [|apply parse_line_cases].
  intros H. unfold Base._parse_by_fixed_positions.
  rewrite (locate_monto_short line H).
  now destruct (PyStr.is_empty line || _).
Qed.

Lemma line_parser_record_witness :
  Base._parse_by_fixed_positions
    "       16.01.25     000123     COMPRA DOBLE                    1.234,56" = [].
Proof.
  apply (proj1 (line_parser_record
    "       16.01.25     000123     COMPRA DOBLE                    1.234,56")).
  simpl. lia.
Defined.

Section ScannerShape.

Import Base.

Lemma titular_info_stripped (line t : string) :
  _extract_titular_info line = Some t -> PyStr.strip t = t.
Proof.
  unfold _extract_titular_info.
  destruct (_ && _); [|discriminate].
  destruct (search titular_re line) as [m|]; [|discriminate].
  destruct (group 1 m line); [|discriminate].
  intros H. injection H as <-. apply strip_strip.
Qed.

Lemma scan_line_shape (st : scanner) (line : string) :
  Forall (fun m => pseudo_shape m \/ transaction_shape m) (movements st) ->
  Forall (fun m => pseudo_shape m \/ transaction_shape m)
         (movements (scan_line st line)).
Proof.
  intros H. unfold scan_line.
  destruct (PyStr.is_empty (PyStr.strip line)); [exact H|].
  destruct (negb (in_movement_section st)).
  { destruct (is_header line); exact H. }
  destruct (is_section_end line); [exact H|].
  destruct (_extract_titular_info line) as [t|] eqn:Ht; cbn [opt_truthy].
  - destruct (PyStr.truthy t) eqn:Htr.
    + cbn [movements PyDate.opt_default]. apply Forall_app. split; [exact H|].
      constructor; [|constructor]. left. exists t.
      repeat split; trivial. eapply titular_info_stripped, Ht.
    + destruct (_looks_like_movement line); [|exact H].
      cbn [movements]. apply Forall_app. split; [exact H|].
      destruct (parse_line_cases line) as [->|(mov & -> & Hs)];
        [constructor | constructor; [now right | constructor]].
  - destruct (_looks_like_movement line); [|exact H].
    cbn [movements]. apply Forall_app. split; [exact H|].
    destruct (parse_line_cases line) as [->|(mov & -> & Hs)];
      [constructor | constructor; [now right | constructor]].
Qed.

Lemma scan_shape (lines : list string) : forall st,
  Forall (fun m => pseudo_shape m \/ transaction_shape m) (movements st) ->
  Forall (fun m => pseudo_shape m \/ transaction_shape m)
         (movements (fold_left scan_line lines st)).
Proof.
  induction lines as [|line lines IH]; intros st H; simpl; [exact H|].
  apply IH, scan_line_shape, H.
Qed.

Lemma scan_line_extends (st : scanner) (line : string) :
  exists extra, movements (scan_line st line) = (movements st ++ extra)%list.
Proof.
  unfold scan_line.
  destruct (PyStr.is_empty (PyStr.strip line));
    [exists []; now rewrite app_nil_r|].
  destruct (negb (in_movement_section st)).
  { destruct (is_header line); exists []; now rewrite app_nil_r. }
  destruct (is_section_end line); [exists []; now rewrite app_nil_r|].
  destruct (opt_truthy (_extract_titular_info line)); [eexists; reflexivity|].
  destruct (_looks_like_movement line);
    [eexists; reflexivity | exists []; now rewrite app_nil_r].
Qed.

Lemma scan_extends (lines : list string) : forall st,
  exists extra,
    movements (fold_left scan_line lines st) = (movements st ++ extra)%list.
Proof.
  induction lines as [|line lines IH]; intros st; simpl.
  - exists []. now rewrite app_nil_r.
  - destruct (IH (scan_line st line)) as [e2 H2].
    destruct (scan_line_extends st line) as [e1 H1].
    exists (e1 ++ e2)%list. now rewrite H2, H1, app_assoc.
Qed.

Lemma blank_contains (s : string) :
  PyStr.is_empty (PyStr.strip s) = true ->
  forall c sub, PyStr.is_space c = false ->
    PyStr.contains (String c sub) s = false.
Proof.
  intros Hs c sub Hc.
  assert (Hall : PyStr.forallb PyStr.is_space s = true).
  { unfold PyStr.strip in Hs. induction s as [|a s IH]; [reflexivity|].
    cbn [PyStr.lstrip] in Hs. simpl. destruct (PyStr.is_space a) eqn:Ha.
    - now apply IH.
    - cbn [PyStr.rstrip] in Hs. rewrite Ha, andb_false_r in Hs. discriminate. }
  clear Hs. induction s as [|a s IH]; [reflexivity|].
  simpl in Hall. apply andb_prop in Hall. destruct Hall as [Ha Hall].
  cbn [PyStr.contains PyStr.startswith]. rewrite (IH Hall).
  destruct (Ascii.eqb_spec c a) as [->|_]; [congruence|reflexivity].
Qed.

Lemma section_end_not_blank (line : string) :
  is_section_end line = true -> PyStr.is_empty (PyStr.strip line) = false.
Proof.
  intros H. destruct (PyStr.is_empty (PyStr.strip line)) eqn:Hb; [|reflexivity].
  unfold is_section_end in H.
  rewrite !(blank_contains line Hb) in H by reflexivity. discriminate.
Qed.

End ScannerShape.

(** X8.  Every record [_extract_movements_from_text] returns is either a
    pseudo-record (a non-empty stripped cardholder name, amount 0, every
    other field empty) or a record of the transaction shape of X7; a
    transaction record therefore never counts as a pseudo-record. *)
Theorem scanner_output_shape (text : string) :
  Forall (fun m => (pseudo_shape m /\ Base.has_titular m = true)
                   \/ (transaction_shape m /\ Base.has_titular m = false))
         (Base._extract_movements_from_text text).
Proof.
  unfold Base._extract_movements_from_text, Base.scan.
  eapply Forall_impl; [|apply scan_shape; constructor].
  intros m [Hp|Ht].
  - left. split; [exact Hp|]. destruct Hp as (t & -> & Htr & _).
    unfold Base.has_titular. simpl. exact Htr.
  - right. split; [exact Ht|].
    destruct Ht as (_ & _ & _ & _ & _ & Hn & _).
    unfold Base.has_titular. now rewrite Hn.
Qed.

(** X9.  Reading more lines never changes what was found: the movements
    after [l1 ++ l2] begin with the movements after [l1]. *)
Theorem scanner_keeps_movements (l1 l2 : list string) :
  exists extra,
    Base.movements (Base.scan (l1 ++ l2))
    = (Base.movements (Base.scan l1) ++ extra)%list.
Proof.
  unfold Base.scan. rewrite fold_left_app. apply scan_extends.
Qed.

(** X10.  An end-marker line met inside the section closes it: that line
    and the lines after it add nothing, whatever they look like, as long as
    no header line comes. *)
Theorem section_end_closes (l1 l2 : list string) (end_line : string)
  (Hin : Base.in_movement_section (Base.scan l1) = true)
  (Hend : Base.is_section_end end_line = true)
  (Hno : Forall (fun line => Base.is_header line = false) l2) :
  Base.scan (l1 ++ end_line :: l2)
  = Base.Scanner false (Base.movements (Base.scan l1)).
Proof.
  unfold Base.scan in *. rewrite fold_left_app. cbn [fold_left].
  set (st1 := fold_left Base.scan_line l1 (Base.Scanner false [])) in *.
  clearbody st1.
  assert (H : Base.scan_line st1 end_line
              = Base.Scanner false (Base.movements st1)).
  { unfold Base.scan_line.
    now rewrite (section_end_not_blank _ Hend), Hin, Hend. }
  rewrite H. now apply scan_outside.
Qed.

Lemma section_end_closes_witness :
  Base.scan (["FECHA COMPROBANTE DETALLE"; two_amount_line]
             ++ "Plan V: 12 cuotas" :: [two_amount_line])
  = Base.Scanner false
      (Base.movements (Base.scan ["FECHA COMPROBANTE DETALLE"; two_amount_line])).
Proof.
  apply (section_end_closes ["FECHA COMPROBANTE DETALLE"; two_amount_line]
           [two_amount_line] "Plan V: 12 cuotas").
  - vm_compute. reflexivity.
  - vm_compute. reflexivity.
  - repeat constructor.
Defined.

(* ================================================================== *)
(** * Further properties of [extractors/patagonia.py] *)
(* ================================================================== *)

Section AttributionSpec.

Import Base Patagonia.

Lemma keep_app_both {X : Type} (m1 m2 : list bool) : forall (a b : list X),
  List.length m1 = List.length a ->
  Aux.keep (m1 ++ m2) (a ++ b) = (Aux.keep m1 a ++ Aux.keep m2 b)%list.
Proof.
  induction m1 as [|x m1 IH]; intros [|y a] b Hlen; simpl in *;
    try discriminate.
  - now destruct m2.
  - destruct x; simpl; rewrite IH by lia; reflexivity.
Qed.

Lemma keep_all_false {X : Type} (f : X -> bool) (g : X -> X) (l : list X) :
  Forall (fun m => f m = false) l ->
  Aux.keep (List.map f l) (List.map g l) = List.map g l.
Proof.
  induction 1 as [|m l Hm _ IH]; simpl; [reflexivity|].
  now rewrite Hm, IH.
Qed.

Lemma set_titular_twice (t t' : string) (m : movement) :
  set_titular t (set_titular t' m) = set_titular t m.
Proof. reflexivity. Qed.

(** Updating the places [length a] to [length a + length b - 1]. *)
Lemma fold_update_block {X : Type} (f : X -> X) (b : list X) :
  forall (a c : list X),
  fold_left (fun l i => PyList.update_at i f l)
            (seq (List.length a) (List.length b)) (a ++ b ++ c)%list
  = (a ++ List.map f b ++ c)%list.
Proof.
  induction b as [|x b IH]; intros a c; simpl; [reflexivity|].
  replace (PyList.update_at (List.length a) f (a ++ x :: b ++ c)%list)
    with ((a ++ [f x]) ++ b ++ c)%list.
  - specialize (IH (a ++ [f x])%list c).
    rewrite length_app, Nat.add_comm in IH. simpl in IH.
    rewrite IH, <- app_assoc. reflexivity.
  - rewrite <- app_assoc. simpl. clear.
    induction a as [|y a IHa]; simpl; [reflexivity | now rewrite IHa].
Qed.

Lemma update_at_shift {X : Type} (f : X -> X) (pre l : list X) (i : nat) :
  PyList.update_at (List.length pre + i) f (pre ++ l)%list
  = (pre ++ PyList.update_at i f l)%list.
Proof.
  induction pre as [|y pre IH]; simpl; [reflexivity | now rewrite IH].
Qed.

Lemma fold_update_shift {X : Type} (f : X -> X) (pre : list X) (idx : list nat) :
  forall l : list X,
  fold_left (fun l i => PyList.update_at i f l)
            (List.map (fun i => List.length pre + i) idx) (pre ++ l)%list
  = (pre ++ fold_left (fun l i => PyList.update_at i f l) idx l)%list.
Proof.
  induction idx as [|i idx IH]; intros l; simpl; [reflexivity|].
  now rewrite update_at_shift, IH.
Qed.

Lemma stamp_shift (pre l : list movement) (td : titular_data) :
  stamp (pre ++ l) (shift_range (List.length pre) td) = (pre ++ stamp l td)%list.
Proof.
  unfold stamp, shift_range.
  cbn [td_primer_movimiento td_ultimo_movimiento nombre].
  rewrite length_app, !Nat.max_0_l.
  replace (Nat.min (List.length pre + List.length l)
                   (List.length pre + td_ultimo_movimiento td + 1))
    with (List.length pre
          + Nat.min (List.length l) (td_ultimo_movimiento td + 1)) by lia.
  replace (List.length pre + Nat.min (List.length l) (td_ultimo_movimiento td + 1)
           - (List.length pre + td_primer_movimiento td))
    with (Nat.min (List.length l) (td_ultimo_movimiento td + 1)
          - td_primer_movimiento td) by lia.
  rewrite <- fold_update_shift. f_equal.
  generalize (Nat.min (List.length l) (td_ultimo_movimiento td + 1)
              - td_primer_movimiento td).
  generalize (td_primer_movimiento td). intros a n. revert a.
  induction n as [|n IH]; intros a; simpl; [reflexivity|].
  f_equal. rewrite <- Nat.add_succ_r. apply IH.
Qed.

Lemma fold_stamp_shift (tds : list titular_data) : forall (pre l : list movement),
  fold_left stamp (List.map (shift_range (List.length pre)) tds) (pre ++ l)%list
  = (pre ++ fold_left stamp tds l)%list.
Proof.
  induction tds as [|td tds IH]; intros pre l; simpl; [reflexivity|].
  now rewrite stamp_shift, IH.
Qed.

(** The first pass started [k] places further: same ranges, moved by [k]. *)
Lemma range_step_shift (k i : nat) (tds0 : list titular_data)
      (S B : ranges) (m : movement) :
  primer_movimiento S = k + primer_movimiento B ->
  titulares_data S = (tds0 ++ List.map (shift_range k) (titulares_data B))%list ->
  primer_movimiento (range_step S (k + i, m))
  = k + primer_movimiento (range_step B (i, m))
  /\ titulares_data (range_step S (k + i, m))
     = (tds0 ++ List.map (shift_range k) (titulares_data (range_step B (i, m))))%list.
Proof.
  intros Hp Ht. unfold range_step.
  destruct (has_titular m); cbn [andb].
  - rewrite Hp.
    replace (k + primer_movimiento B <? k + i) with (primer_movimiento B <? i)
      by (destruct (Nat.ltb_spec (primer_movimiento B) i);
          symmetry; apply Nat.ltb_lt || apply Nat.ltb_ge; lia).
    destruct (Nat.ltb_spec (primer_movimiento B) i) as [Hlt|Hge];
      cbn [primer_movimiento titulares_data].
    + replace (k + i + 1 =? k + i) with false
        by (symmetry; apply Nat.eqb_neq; lia).
      replace (i + 1 =? i) with false by (symmetry; apply Nat.eqb_neq; lia).
      split; [lia|].
      rewrite Ht, map_app, app_assoc. cbn [List.map]. unfold shift_range at 3.
      cbn [nombre td_primer_movimiento td_ultimo_movimiento].
      replace (k + i - 1) with (k + (i - 1)) by lia. reflexivity.
    + rewrite Hp.
      replace (k + primer_movimiento B =? k + i) with (primer_movimiento B =? i)
        by (destruct (Nat.eqb_spec (primer_movimiento B) i);
            symmetry; apply Nat.eqb_eq || apply Nat.eqb_neq; lia).
      split; [|exact Ht].
      destruct (primer_movimiento B =? i); lia.
  - now split.
Qed.

Lemma first_pass_shift (k : nat) (tds0 : list titular_data) (l : list movement) :
  forall (i : nat) (S B : ranges),
  primer_movimiento S = k + primer_movimiento B ->
  titulares_data S = (tds0 ++ List.map (shift_range k) (titulares_data B))%list ->
  titulares_data (fold_left range_step (combine (seq (k + i) (List.length l)) l) S)
  = (tds0 ++ List.map (shift_range k)
       (titulares_data
          (fold_left range_step (combine (seq i (List.length l)) l) B)))%list.
Proof.
  induction l as [|m l IH]; intros i S B Hp Ht;
    cbn [List.length seq combine fold_left]; [exact Ht|].
  destruct (range_step_shift k i tds0 S B m Hp Ht) as [Hp' Ht'].
  rewrite <- Nat.add_succ_r. now apply IH.
Qed.

(** The ranges of a list that begins with a run of records and a
    pseudo-record. *)
Lemma first_pass_block (block l : list movement) (p : movement) :
  Forall (fun m => has_titular m = false) block -> has_titular p = true ->
  titulares_data (first_pass (block ++ p :: l))
  = ((match block with
      | [] => []
      | _ => [TitularData (PyDate.opt_default "" (titular p)) 0
                          (List.length block - 1)]
      end)
     ++ List.map (shift_range (S (List.length block)))
                 (titulares_data (first_pass l)))%list.
Proof.
  intros Hb Hp. unfold first_pass, PyList.enumerate.
  rewrite enumerate_from_app, fold_left_app.
  assert (Hblock : fold_left range_step
                     (combine (seq 0 (List.length block)) block) (Ranges [] 0 [] 0)
                   = Ranges [] 0 [] 0).
  { change (first_pass ([] ++ block) = first_pass []).
    now apply first_pass_app. }
  rewrite Hblock. cbn [List.length seq combine fold_left Nat.add].
  replace (S (List.length block)) with (S (List.length block) + 0) at 1 by lia.
  apply first_pass_shift.
  - unfold range_step. rewrite Hp. cbn [andb primer_movimiento].
    destruct (Nat.ltb_spec 0 (List.length block)); cbn [primer_movimiento].
    + replace (List.length block + 1 =? List.length block) with false
        by (symmetry; apply Nat.eqb_neq; lia). lia.
    + destruct (Nat.eqb_spec 0 (List.length block)); lia.
  - unfold range_step. rewrite Hp. cbn [andb primer_movimiento].
    destruct block as [|b block]; [reflexivity|].
    cbn [List.length Nat.ltb Nat.leb titulares_data app List.map].
    reflexivity.
Qed.

(** A pseudo-record gives its name to the run before it and separates what
    follows. *)
Lemma assign_block (block l : list movement) (p : movement) :
  Forall (fun m => has_titular m = false) block -> has_titular p = true ->
  _assign_titular_to_movements_advanced (block ++ p :: l)
  = (List.map (set_titular (PyDate.opt_default "" (titular p))) block
     ++ _assign_titular_to_movements_advanced l)%list.
Proof.
  intros Hb Hp. rewrite !assign_keep, (first_pass_block block l p Hb Hp).
  rewrite fold_left_app.
  set (name := PyDate.opt_default "" (titular p)).
  assert (Hhead : fold_left stamp
                    match block with
                    | [] => []
                    | _ => [TitularData name 0 (List.length block - 1)]
                    end (List.map (set_titular "") (block ++ p :: l))
                  = ((List.map (set_titular name) block ++ [set_titular "" p])
                     ++ List.map (set_titular "") l)%list).
  { rewrite map_app. cbn [List.map]. rewrite <- app_assoc. cbn [app].
    destruct block as [|b block]; [reflexivity|].
    cbn [fold_left]. unfold stamp.
    cbn [td_primer_movimiento td_ultimo_movimiento nombre].
    rewrite length_app, !length_map, Nat.max_0_l.
    cbn [List.length].
    match goal with
    | |- context [seq 0 ?n] =>
        replace n with (List.length (List.map (set_titular "") (b :: block)))
          by (rewrite ?length_map; cbn [List.length]; lia)
    end.
    pose proof (fold_update_block (set_titular name)
                  (List.map (set_titular "") (b :: block)) []
                  (set_titular "" p :: List.map (set_titular "") l)) as HH.
    cbn [List.length app] in HH. rewrite HH, map_map. reflexivity. }
  rewrite Hhead.
  replace (S (List.length block))
    with (List.length (List.map (set_titular name) block ++ [set_titular "" p]))
    by (rewrite length_app, length_map; simpl; lia).
  rewrite fold_stamp_shift.
  rewrite map_app. cbn [List.map]. rewrite Hp.
  rewrite <- app_assoc. cbn [app].
  rewrite keep_app_both by (now rewrite !length_map).
  rewrite (keep_all_false has_titular (set_titular name) block Hb).
  reflexivity.
Qed.

Lemma next_titular_block (block l : list movement) :
  Forall (fun m => has_titular m = false) block ->
  next_titular (block ++ l) = next_titular l.
Proof.
  induction 1 as [|m block Hm _ IH]; simpl; [reflexivity|]. now rewrite Hm.
Qed.

Lemma assign_attribute_block (l : list movement) : forall block,
  Forall (fun m => has_titular m = false) block ->
  _assign_titular_to_movements_advanced (block ++ l)
  = (List.map (set_titular (next_titular l)) block ++ attribute l)%list.
Proof.
  induction l as [|m l IH]; intros block Hb.
  - pose proof (assign_trailing [] block Hb) as H. cbn [app] in H.
    rewrite !app_nil_r, H. reflexivity.
  - cbn [next_titular attribute]. destruct (has_titular m) eqn:Hm.
    + rewrite (assign_block block l m Hb Hm). f_equal.
      apply (IH [] (Forall_nil _)).
    + replace (block ++ m :: l)%list with ((block ++ [m]) ++ l)%list
        by (now rewrite <- app_assoc).
      rewrite IH by (apply Forall_app; split; [exact Hb | now constructor]).
      rewrite map_app, <- app_assoc. reflexivity.
Qed.

End AttributionSpec.

(** X11.  [_assign_titular_to_movements_advanced], with its ranges of
    indices and deletions in place, computes the one-pass attribution
    [attribute]: the pseudo-records are dropped and every other record takes
    the name of the first pseudo-record that follows it, or the empty string
    when none follows; the other fields and the order are kept. *)
Theorem attribution_one_pass (movements : list Base.movement) :
  Patagonia._assign_titular_to_movements_advanced movements = attribute movements.
Proof.
  apply (assign_attribute_block movements [] (Forall_nil _)).
Qed.

Section CheckedDeletion.

Context {X : Type}.

Lemma delete_reversed_checked_cons (i : nat) (idx : list nat) (l : list X) :
  delete_reversed_checked (i :: idx) l
  = match delete_reversed_checked idx l with
    | Some l' => delete_at_checked i l'
    | None => None
    end.
Proof.
  unfold delete_reversed_checked. simpl. now rewrite fold_left_app.
Qed.

Lemma delete_at_checked_middle (pre : list X) (x : X) (l : list X) :
  delete_at_checked (List.length pre) (pre ++ x :: l)%list = Some (pre ++ l)%list.
Proof.
  induction pre as [|y pre IH]; simpl; [reflexivity | now rewrite IH].
Qed.

Lemma delete_positions_checked (mask : list bool) : forall (pre l : list X),
  List.length mask <= List.length l ->
  delete_reversed_checked (Aux.positions (List.length pre) mask) (pre ++ l)%list
  = Some (pre ++ Aux.keep mask l)%list.
Proof.
  induction mask as [|b mask IH]; intros pre l Hlen.
  - reflexivity.
  - destruct l as [|x l]; simpl in Hlen; [lia|].
    assert (Hrec := IH (pre ++ [x])%list l ltac:(lia)).
    rewrite length_app, Nat.add_comm in Hrec; simpl in Hrec.
    rewrite <- !app_assoc in Hrec; simpl in Hrec.
    destruct b; simpl.
    + rewrite delete_reversed_checked_cons, Hrec. apply delete_at_checked_middle.
    + exact Hrec.
Qed.

End CheckedDeletion.

Section Pipeline.

Import Base Patagonia.

Lemma saldo_fold (l : list movement) : forall k sa pm idx,
  fold_left saldo_step (combine (seq k (List.length l)) l) (sa, pm, idx)
  = (fold_left (fun acc m => if is_saldo_actual m then Some (importe m) else acc) l sa,
     fold_left (fun acc m => if is_pago_minimo m then Some (importe m) else acc) l pm,
     (idx ++ Aux.positions k (List.map is_balance_line l))%list).
Proof.
  induction l as [|m l IH]; intros k sa pm idx; simpl.
  - now rewrite app_nil_r.
  - unfold is_balance_line, is_pago_minimo, is_saldo_actual.
    destruct (PyStr.contains "SALDO ACTUAL" (descripcion m)); simpl.
    + rewrite IH, <- app_assoc. reflexivity.
    + destruct (PyStr.contains "PAGO MINIMO" (descripcion m)); simpl; rewrite IH.
      * now rewrite <- app_assoc.
      * reflexivity.
Qed.

Lemma removal_pass_list (patterns : list re) (l : list movement) :
  PyList.delete_reversed (snd (collect patterns l)) l
  = List.filter (fun m => negb (matches_any patterns m)) l.
Proof.
  pose proof (removal_pass patterns l) as H.
  destruct (collect patterns l) as [total idx]. now injection H.
Qed.

Lemma saldo_pass_snd (l : list movement) :
  snd (_extract_saldo_anterior l)
  = List.filter (fun m => negb (matches_any Config.saldo_patterns m)) l.
Proof.
  unfold _extract_saldo_anterior.
  rewrite <- (removal_pass_list Config.saldo_patterns l).
  now destruct (collect Config.saldo_patterns l).
Qed.

Lemma cargos_pass_snd (l : list movement) :
  snd (_extract_cargos_bancarios l)
  = List.filter (fun m => negb (matches_any Config.cargos_patterns m)) l.
Proof.
  unfold _extract_cargos_bancarios.
  rewrite <- (removal_pass_list Config.cargos_patterns l).
  now destruct (collect Config.cargos_patterns l).
Qed.

(** [process] with its passes written as filters. *)
Lemma process_eq (py : PyList.summation) (l : list movement) :
  fst (process py l) = attribute (after_balance_loop l)
  /\ saldo_actual (snd (process py l))
     = last_importe is_saldo_actual (after_removal_passes l)
  /\ pago_minimo (snd (process py l))
     = last_importe is_pago_minimo (after_removal_passes l).
Proof.
  unfold process, after_balance_loop, after_removal_passes.
  rewrite <- saldo_pass_snd.
  destruct (_extract_saldo_anterior l) as [saldo m1]. cbn [snd].
  rewrite <- cargos_pass_snd.
  destruct (_extract_cargos_bancarios m1) as [cargos m2]. cbn [snd].
  unfold PyList.enumerate. rewrite saldo_fold. cbn [app fst snd saldo_actual pago_minimo].
  repeat split.
  rewrite <- keep_map_filter.
  pose proof (delete_positions (List.map is_balance_line m2) [] m2) as Hd.
  cbn [app List.length] in Hd. rewrite Hd by (now rewrite length_map).
  apply assign_attribute_block with (block := []). constructor.
Qed.

Lemma attribute_elements (l : list movement) (x : movement) :
  In x (attribute l) ->
  exists m t, In m l /\ has_titular m = false /\ x = set_titular t m.
Proof.
  induction l as [|m l IH]; simpl; [contradiction|].
  destruct (has_titular m) eqn:Hm.
  - intros H. destruct (IH H) as (m' & t & H1 & H2 & H3).
    exists m', t. auto.
  - intros [<-|H].
    + exists m, (next_titular l). auto.
    + destruct (IH H) as (m' & t & H1 & H2 & H3). exists m', t. auto.
Qed.

Lemma last_fold_acc (p : movement -> bool) (l : list movement) : forall acc,
  fold_left (fun acc m => if p m then Some (importe m) else acc) l acc
  = match last_importe p l with
    | Some x => Some x
    | None => acc
    end.
Proof.
  unfold last_importe. induction l as [|m l IH]; intros acc; simpl; [reflexivity|].
  destruct (p m); [|apply IH].
  rewrite (IH (Some (importe m))).
  now destruct (fold_left _ l None).
Qed.

Lemma last_importe_none (p : movement -> bool) (l : list movement) :
  last_importe p l = None <-> Forall (fun m => p m = false) l.
Proof.
  split.
  - induction l as [|m l IH]; intros H; [constructor|].
    unfold last_importe in H. simpl in H. destruct (p m) eqn:Hm.
    + rewrite last_fold_acc in H. now destruct (last_importe p l).
    + constructor; [exact Hm | now apply IH].
  - induction 1 as [|m l Hm _ IH]; [reflexivity|].
    unfold last_importe. simpl. now rewrite Hm.
Qed.

Lemma validacion_iff_saldo (py : PyList.summation) (l : list movement) :
  validacion_ok (snd (process py l)) = None
  <-> saldo_actual (snd (process py l)) = None.
Proof.
  unfold process.
  destruct (_extract_saldo_anterior l) as [s m1].
  destruct (_extract_cargos_bancarios m1) as [c m2].
  destruct (fold_left _ _ _) as [[sa pm] idx].
  cbn [snd validacion_ok saldo_actual]. now destruct sa.
Qed.

End Pipeline.

(** X12.  In the three loops that delete by index ([del movements[i]] over
    the reversed index list) no index is out of range: the deletions with
    Python's bound check succeed and give the lists of the passes. *)
Theorem deletions_stay_in_range (movements : list Base.movement) :
  delete_reversed_checked
    (snd (Patagonia.collect Config.saldo_patterns movements)) movements
  = Some (snd (Patagonia._extract_saldo_anterior movements))
  /\ delete_reversed_checked
       (snd (Patagonia.collect Config.cargos_patterns movements)) movements
     = Some (snd (Patagonia._extract_cargos_bancarios movements))
  /\ delete_reversed_checked
       (snd (fold_left Patagonia.saldo_step (PyList.enumerate movements)
                       (None, None, []))) movements
     = Some (List.filter (fun m => negb (is_balance_line m)) movements)
  /\ delete_reversed_checked
       (Patagonia.movements_to_remove (Patagonia.first_pass movements))
       (fold_left Patagonia.stamp
          (Patagonia.titulares_data (Patagonia.first_pass movements))
          (List.map (Base.set_titular "") movements))
     = Some (Patagonia._assign_titular_to_movements_advanced movements).
Proof.
  assert (Hpass : forall patterns,
            delete_reversed_checked (snd (Patagonia.collect patterns movements))
                                    movements
            = Some (List.filter
                      (fun m => negb (Patagonia.matches_any patterns m)) movements)).
  { intros patterns. unfold Patagonia.collect, PyList.enumerate.
    rewrite collect_fold. cbn [snd app]. rewrite <- keep_map_filter.
    apply (delete_positions_checked
             (List.map (Patagonia.matches_any patterns) movements) []).
    now rewrite length_map. }
  split; [|split; [|split]].
  - now rewrite Hpass, saldo_pass_snd.
  - now rewrite Hpass, cargos_pass_snd.
  - unfold PyList.enumerate. rewrite saldo_fold. cbn [snd app].
    rewrite <- keep_map_filter.
    apply (delete_positions_checked (List.map is_balance_line movements) []).
    now rewrite length_map.
  - rewrite assign_keep.
    destruct (first_pass_invariant movements 0 (Patagonia.Ranges [] 0 [] 0))
      as [_ H]; [constructor|].
    fold (PyList.enumerate movements) in H.
    fold (Patagonia.first_pass movements) in H. simpl in H. rewrite H.
    apply (delete_positions_checked (List.map Base.has_titular movements) []).
    now rewrite length_fold_stamp, !length_map.
Qed.

(** X13.  The movements [extract] returns for a non-empty record list are
    the one-pass attribution of the records left by three filters in
    sequence: not a prior-balance line, not a bank-charge line, not a
    current-balance or minimum-payment line.  The stated balance is the
    amount of the last record, among those left by the first two filters,
    whose description holds "SALDO ACTUAL"; the minimum payment that of the
    last one holding "PAGO MINIMO" and not "SALDO ACTUAL"; the validation
    flag exists exactly when a stated balance does. *)
Theorem process_as_filters (py : PyList.summation)
  (movements : list Base.movement) :
  fst (Patagonia.process py movements)
  = attribute (after_balance_loop movements)
  /\ Patagonia.saldo_actual (snd (Patagonia.process py movements))
     = last_importe is_saldo_actual (after_removal_passes movements)
  /\ Patagonia.pago_minimo (snd (Patagonia.process py movements))
     = last_importe is_pago_minimo (after_removal_passes movements)
  /\ (Patagonia.validacion_ok (snd (Patagonia.process py movements)) = None
      <-> Forall (fun m => is_saldo_actual m = false)
                 (after_removal_passes movements)).
Proof.
  destruct (process_eq py movements) as (H1 & H2 & H3).
  split; [exact H1|]. split; [exact H2|]. split; [exact H3|].
  rewrite validacion_iff_saldo, H2. apply last_importe_none.
Qed.

Section ExtractOutput.

Import Base Patagonia.

Lemma metadata_shape (nombre b : string) (l : list movement) :
  Forall (fun m => pseudo_shape m \/ transaction_shape m) l ->
  Forall (fun m => has_titular m = true
                   \/ (PyStr.truthy (descripcion m) = true /\ moneda m = "ARS"
                       /\ archivo_origen m = Some nombre /\ banco m = Some b))
         (List.map (set_metadata nombre b) l).
Proof.
  intros H. apply Forall_forall. intros x Hx. apply in_map_iff in Hx.
  destruct Hx as (m & <- & Hm).
  rewrite Forall_forall in H. destruct (H m Hm) as [Hp|Ht].
  - left. destruct Hp as (t & -> & Htr & _). exact Htr.
  - right. destruct Ht as (H1 & _ & _ & _ & H5 & _). now repeat split.
Qed.

Lemma process_output_shape (nombre : string) (l : list movement) :
  Forall (fun m => has_titular m = true
                   \/ (PyStr.truthy (descripcion m) = true /\ moneda m = "ARS"
                       /\ archivo_origen m = Some nombre
                       /\ banco m = Some "Patagonia")) l ->
  forall py, Forall (final_shape nombre) (fst (process py l)).
Proof.
  intros H py. destruct (process_eq py l) as (-> & _).
  apply Forall_forall. intros x Hx.
  apply attribute_elements in Hx. destruct Hx as (m & t & Hm & Hnt & ->).
  unfold after_balance_loop, after_removal_passes in Hm.
  apply filter_In in Hm. destruct Hm as [Hm Hb].
  apply filter_In in Hm. destruct Hm as [Hm Hc].
  apply filter_In in Hm. destruct Hm as [Hm Hs].
  rewrite Forall_forall in H. destruct (H m Hm) as [Ht|(H1 & H2 & H3 & H4)];
    [congruence|].
  apply negb_true_iff in Hb, Hc, Hs.
  unfold final_shape. repeat split; trivial. now exists t.
Qed.

End ExtractOutput.

(** X14.  Whatever the document, every record [extract] returns is a
    transaction: a non-empty description, currency "ARS", the file name and
    the bank name stamped, a string in [titular]; it is no pseudo-record and
    none of the prior-balance, bank-charge, current-balance or
    minimum-payment lines, which stay out of the output. *)
Theorem extract_output_shape (py : PyList.summation)
  (last : option Patagonia.resumen_info) (pdf : Base.pdf_path) :
  match Patagonia.extract py last pdf with
  | Returned (out, _) => Forall (final_shape (Base.name pdf)) out
  | Raised => True
  end.
Proof.
  unfold Patagonia.extract, Base.extract_movements,
    Base._extract_movements_from_file.
  destruct (Base._extract_pages_from_pdf pdf) as [|pg pages]; [constructor|].
  destruct (Base._extract_text_from_pages (pg :: pages)) as [text|];
    [|exact I].
  cbn [bind].
  assert (Hscan : Forall (fun m => pseudo_shape m \/ transaction_shape m)
                    (Base._extract_movements_from_text text)).
  { unfold Base._extract_movements_from_text, Base.scan.
    apply scan_shape. constructor. }
  pose proof (metadata_shape (Base.name pdf) Base.banco_title _ Hscan)
    as Hshape.
  destruct (List.map _ (Base._extract_movements_from_text text)) as [|m l] eqn:Hl;
    [constructor|].
  pose proof (process_output_shape (Base.name pdf) (m :: l) Hshape py) as Hout.
  now destruct (Patagonia.process py (m :: l)).
Qed.

(** X15.  A removal pass run again finds nothing more: applied to the list
    it returned, it returns the total 0.0 and the same list; and the list
    left by the two passes does not depend on their order. *)
Theorem removal_passes_settle (movements : list Base.movement) :
  Patagonia._extract_saldo_anterior
    (snd (Patagonia._extract_saldo_anterior movements))
  = (0%float, snd (Patagonia._extract_saldo_anterior movements))
  /\ Patagonia._extract_cargos_bancarios
       (snd (Patagonia._extract_cargos_bancarios movements))
     = (0%float, snd (Patagonia._extract_cargos_bancarios movements))
  /\ snd (Patagonia._extract_cargos_bancarios
            (snd (Patagonia._extract_saldo_anterior movements)))
     = snd (Patagonia._extract_saldo_anterior
              (snd (Patagonia._extract_cargos_bancarios movements))).
Proof.
  assert (Hnone : forall (p : Base.movement -> bool) (l : list Base.movement),
            List.filter p (List.filter (fun m => negb (p m)) l) = []).
  { intros p l. induction l as [|m l IH]; simpl; [reflexivity|].
    destruct (p m) eqn:Hm; simpl; [exact IH | now rewrite Hm]. }
  assert (Hsame : forall (p : Base.movement -> bool) (l : list Base.movement),
            List.filter (fun m => negb (p m)) (List.filter (fun m => negb (p m)) l)
            = List.filter (fun m => negb (p m)) l).
  { intros p l. induction l as [|m l IH]; simpl; [reflexivity|].
    destruct (p m) eqn:Hm; simpl; [exact IH | now rewrite Hm, IH]. }
  assert (Hcomm : forall (p q : Base.movement -> bool) (l : list Base.movement),
            List.filter p (List.filter q l) = List.filter q (List.filter p l)).
  { intros p q l. induction l as [|m l IH]; simpl; [reflexivity|].
    destruct (p m) eqn:Hp, (q m) eqn:Hq; simpl; rewrite ?Hp, ?Hq, IH; reflexivity. }
  rewrite !saldo_pass_snd, !cargos_pass_snd.
  split; [|split].
  - unfold Patagonia._extract_saldo_anterior at 1.
    rewrite (removal_pass Config.saldo_patterns), Hnone, Hsame. reflexivity.
  - unfold Patagonia._extract_cargos_bancarios at 1.
    rewrite (removal_pass Config.cargos_patterns), Hnone, Hsame. reflexivity.
  - apply Hcomm.
Qed.

(** X16.  When every page gives its text and no line of the joined text
    holds the three column titles, [extract] returns no movement and leaves
    [last_resumen_info] as it was: a summary read after the call is that of
    an earlier document. *)
Theorem extract_without_header_keeps_summary (py : PyList.summation)
  (last : option Patagonia.resumen_info) (nombre : string)
  (outs : list (option string))
  (Hno : Forall (fun line => Base.is_header line = false)
           (PyStr.split "010"
              (String.concat "" (List.map (PyDate.opt_default "") outs)))) :
  Patagonia.extract py last
    (Base.PdfPath nombre (Returned (List.map page_returning outs)))
  = Returned ([], last).
Proof.
  unfold Patagonia.extract, Base.extract_movements,
    Base._extract_movements_from_file, Base._extract_pages_from_pdf.
  cbn [Base.open_pages].
  destruct outs as [|o outs]; [reflexivity|].
  cbn [List.map]. unfold Base._extract_text_from_pages.
  change (page_returning o :: List.map page_returning outs)
    with (List.map page_returning (o :: outs)).
  rewrite text_loop_returning. cbn [bind append].
  unfold Base._extract_movements_from_text, Base.scan.
  rewrite (scan_outside _ [] Hno). reflexivity.
Qed.

Lemma extract_without_header_keeps_summary_witness :
  Patagonia.extract PyList.Compensated None
    (Base.PdfPath "r.pdf"
       (Returned (List.map page_returning [Some headless_text; None])))
  = Returned ([], None).
Proof.
  apply (extract_without_header_keeps_summary PyList.Compensated None "r.pdf"
           [Some headless_text; None]).
  vm_compute. repeat constructor.
Defined.

(* ================================================================== *)
(** * The date column of a movement line *)
(* ================================================================== *)

Lemma digit_cases (c : ascii) :
  PyStr.is_digit c = true ->
  (c = "0" \/ c = "1" \/ c = "2" \/ c = "3" \/ c = "4"
   \/ c = "5" \/ c = "6" \/ c = "7" \/ c = "8" \/ c = "9")%char.
Proof.
  destruct c as [[] [] [] [] [] [] [] []]; vm_compute; intros H;
    try discriminate H; tauto.
Qed.

Ltac digit_split H :=
  apply digit_cases in H;
  destruct H as [H|[H|[H|[H|[H|[H|[H|[H|[H|H]]]]]]]]]; subst.

Lemma two_digits_chars (s : string) :
  two_digits s ->
  exists a b, s = String a (String b "")
              /\ PyStr.is_digit a = true /\ PyStr.is_digit b = true.
Proof.
  intros [Hl Hd]. destruct s as [|a [|b [|c s]]]; try discriminate Hl.
  simpl in Hd. apply andb_prop in Hd. destruct Hd as [Ha Hb].
  rewrite andb_true_r in Hb. now exists a, b.
Qed.

Section DateDirectives.

Context {A : Type}.

Lemma run_day (a b : ascii) (R : re) (p : nat) (s : string)
      (gs : list (nat * (nat * nat))) (k : mstate -> option A) d :
  PyStr.is_digit a = true -> PyStr.is_digit b = true ->
  PyDate.directive "d" = Some d ->
  run (Seq d (Seq (LitI "/") R))
      (MState p (String a (String b (String "/" s))) gs) k
  = if (1 <=? PyDate.int_of (String a (String b "")))
       && (PyDate.int_of (String a (String b "")) <=? 31)
    then run R (MState (S (S (S p))) s ((1, (p, S (S p))) :: gs)) k
    else None.
Proof.
  intros Ha Hb Hd. injection Hd as <-.
  digit_split Ha; digit_split Hb; cbn;
    try (match goal with
         | |- context [run R ?st k] =>
             generalize (run R st k); intros X
         end);
    vm_compute; try destruct X; reflexivity.
Qed.

Lemma run_month (a b : ascii) (R : re) (p : nat) (s : string)
      (gs : list (nat * (nat * nat))) (k : mstate -> option A) d :
  PyStr.is_digit a = true -> PyStr.is_digit b = true ->
  PyDate.directive "m" = Some d ->
  run (Seq d (Seq (LitI "/") R))
      (MState p (String a (String b (String "/" s))) gs) k
  = if (1 <=? PyDate.int_of (String a (String b "")))
       && (PyDate.int_of (String a (String b "")) <=? 12)
    then run R (MState (S (S (S p))) s ((2, (p, S (S p))) :: gs)) k
    else None.
Proof.
  intros Ha Hb Hd. injection Hd as <-.
  digit_split Ha; digit_split Hb; cbn;
    try (match goal with
         | |- context [run R ?st k] =>
             generalize (run R st k); intros X
         end);
    vm_compute; try destruct X; reflexivity.
Qed.


Lemma run_year (a b c d : ascii) (R : re) (p : nat) (s : string)
      (gs : list (nat * (nat * nat))) (k : mstate -> option A) y :
  PyStr.is_digit a = true -> PyStr.is_digit b = true ->
  PyStr.is_digit c = true -> PyStr.is_digit d = true ->
  PyDate.directive "Y" = Some y ->
  run (Seq y R)
      (MState p (String a (String b (String c (String d s)))) gs) k
  = run R (MState (S (S (S (S p)))) s ((3, (p, S (S (S (S p))))) :: gs)) k.
Proof.
  intros Ha Hb Hc Hd Hy. injection Hy as <-.
  cbn [run Rep digit rest pos groups]. now rewrite Ha, Hb, Hc, Hd.
Qed.

End DateDirectives.

Lemma format_re_dmy :
  PyDate.format_re false "%d/%m/%Y"
  = match PyDate.directive "d", PyDate.directive "m", PyDate.directive "Y" with
    | Some d, Some m, Some y =>
        Some (Seq d (Seq (LitI "/") (Seq m (Seq (LitI "/") (Seq y Eps)))))
    | _, _, _ => None
    end.
Proof. reflexivity. Qed.

Lemma days_in_month_le (y m : nat) : PyDate.days_in_month y m <= 31.
Proof.
  unfold PyDate.days_in_month.
  do 12 (destruct m as [|m]; [try lia; destruct (PyDate.is_leap y); lia|]). lia.
Qed.

Lemma valid_date_ranges (y m d : nat) :
  PyDate.valid_date y m d = true ->
  ((1 <=? d) && (d <=? 31)) && ((1 <=? m) && (m <=? 12)) = true.
Proof.
  unfold PyDate.valid_date. intros H.
  repeat (apply andb_prop in H; let H' := fresh in destruct H as [H H']).
  pose proof (days_in_month_le y m).
  repeat (apply andb_true_intro; split); try assumption.
  apply Nat.leb_le in H0. apply Nat.leb_le. lia.
Qed.

Lemma int_of_year (a b : ascii) :
  PyStr.is_digit a = true -> PyStr.is_digit b = true ->
  PyDate.int_of (String "2" (String "0" (String a (String b ""))))
  = 2000 + PyDate.int_of (String a (String b "")).
Proof.
  intros Ha Hb. digit_split Ha; digit_split Hb; vm_compute; reflexivity.
Qed.

Lemma strptime_numeric (dd mm yy : string) :
  two_digits dd -> two_digits mm -> two_digits yy ->
  PyDate.strptime (dd ++ "/" ++ mm ++ "/" ++ "20" ++ yy) "%d/%m/%Y"
  = if PyDate.valid_date (2000 + PyDate.int_of yy) (PyDate.int_of mm)
                         (PyDate.int_of dd)
    then Some (PyDate.Date (2000 + PyDate.int_of yy) (PyDate.int_of mm)
                           (PyDate.int_of dd))
    else None.
Proof.
  intros Hd Hm Hy.
  destruct (two_digits_chars _ Hd) as (d1 & d2 & -> & Hd1 & Hd2).
  destruct (two_digits_chars _ Hm) as (m1 & m2 & -> & Hm1 & Hm2).
  destruct (two_digits_chars _ Hy) as (y1 & y2 & -> & Hy1 & Hy2).
  unfold PyDate.strptime. rewrite format_re_dmy.
  destruct (PyDate.directive "d") as [rd|] eqn:Erd; [|vm_compute in Erd; discriminate].
  destruct (PyDate.directive "m") as [rm|] eqn:Erm; [|vm_compute in Erm; discriminate].
  destruct (PyDate.directive "Y") as [ry|] eqn:Ery; [|vm_compute in Ery; discriminate].
  unfold rmatch_of, match_at. cbn [append].
  rewrite (run_day d1 d2 _ _ _ _ _ rd Hd1 Hd2 Erd).
  set (dd := PyDate.int_of (String d1 (String d2 ""))).
  set (mm := PyDate.int_of (String m1 (String m2 ""))).
  set (yy := PyDate.int_of (String y1 (String y2 ""))).
  destruct ((1 <=? dd) && (dd <=? 31)) eqn:Hdok.
  - rewrite (run_month m1 m2 _ _ _ _ _ rm Hm1 Hm2 Erm). fold mm.
    destruct ((1 <=? mm) && (mm <=? 12)) eqn:Hmok.
    + rewrite (run_year "2" "0" y1 y2 _ _ _ _ _ ry eq_refl eq_refl Hy1 Hy2 Ery).
      cbn [run pos groups m_end String.length Nat.eqb].
      unfold group. cbn [m_groups lookup Nat.eqb PyStr.slice Nat.sub
                         PyStr.slice_from PyStr.slice_to
                         PyDate.opt_map PyDate.opt_default PyDate.opt_or
                         PyDate.opt_bind].
      rewrite (int_of_year y1 y2 Hy1 Hy2). reflexivity.
    + destruct (PyDate.valid_date (2000 + yy) mm dd) eqn:Hv; [|reflexivity].
      apply valid_date_ranges in Hv. rewrite Hmok, andb_false_r in Hv.
      discriminate.
  - destruct (PyDate.valid_date (2000 + yy) mm dd) eqn:Hv; [|reflexivity].
    apply valid_date_ranges in Hv. rewrite Hdok in Hv. discriminate.
Qed.

Lemma forallb_mono (p q : ascii -> bool) (s : string) :
  (forall c, p c = true -> q c = true) ->
  PyStr.forallb p s = true -> PyStr.forallb q s = true.
Proof.
  intros Hpq. induction s as [|c s IH]; simpl; [reflexivity|].
  intros H. apply andb_prop in H. destruct H as [H1 H2].
  now rewrite (Hpq c H1), (IH H2).
Qed.

Lemma lower_fixed (s : string) :
  PyStr.forallb (fun c => Ascii.eqb (PyStr.lower_char c) c) s = true ->
  PyStr.lower s = s.
Proof.
  induction s as [|c s IH]; simpl; [reflexivity|].
  intros H. apply andb_prop in H. destruct H as [H1 H2].
  apply Ascii.eqb_eq in H1. now rewrite H1, (IH H2).
Qed.

Lemma replace_absent (l : ascii) (old new s : string) :
  PyStr.forallb (fun c => negb (Ascii.eqb l c)) s = true ->
  PyStr.replace (String l old) new s = s.
Proof.
  unfold PyStr.replace. cbn [PyStr.is_empty].
  induction s as [|c s IH]; cbn [PyStr.replace_from PyStr.forallb PyStr.startswith];
    [reflexivity|].
  intros H. apply andb_prop in H. destruct H as [H1 H2].
  apply negb_true_iff in H1. rewrite H1. cbn [andb]. now rewrite (IH H2).
Qed.

Lemma plain_cases (c : ascii) :
  plain_char c = true ->
  (c = "0" \/ c = "1" \/ c = "2" \/ c = "3" \/ c = "4"
   \/ c = "5" \/ c = "6" \/ c = "7" \/ c = "8" \/ c = "9" \/ c = "/")%char.
Proof.
  unfold plain_char. intros H. apply orb_prop in H. destruct H as [H|H].
  - apply digit_cases in H. tauto.
  - apply Ascii.eqb_eq in H. tauto.
Qed.

(** A text of digits and slashes holds no month name. *)
Lemma normalize_plain (s : string) :
  PyStr.forallb plain_char s = true -> Utils.normalize_spanish_month s = s.
Proof.
  intros H. unfold Utils.normalize_spanish_month.
  rewrite lower_fixed.
  2:{ revert H. apply forallb_mono. intros c Hc. apply plain_cases in Hc.
      repeat (destruct Hc as [Hc|Hc]; [subst; reflexivity|]). now subst. }
  assert (Hl : forall l,
             PyStr.is_lower_ascii l = true ->
             PyStr.forallb (fun c => negb (Ascii.eqb l c)) s = true).
  { intros l Hl. revert H. apply forallb_mono. intros c Hc.
    destruct (Ascii.eqb_spec l c) as [->|]; [|reflexivity].
    apply plain_cases in Hc.
    repeat (destruct Hc as [Hc|Hc]; [subst; discriminate Hl|]).
    subst; discriminate Hl. }
  unfold Config.MESES_ES. cbn [fold_left].
  repeat rewrite (replace_absent _ _ _ s) by (apply Hl; reflexivity).
  reflexivity.
Qed.

Lemma digit_not_space (c : ascii) : PyStr.is_digit c = true -> PyStr.is_space c = false.
Proof. intros H. digit_split H; reflexivity. Qed.

Lemma digit_not_dot (c : ascii) : PyStr.is_digit c = true -> Ascii.eqb c "." = false.
Proof. intros H. digit_split H; reflexivity. Qed.

Lemma digit_plain (c : ascii) : PyStr.is_digit c = true -> plain_char c = true.
Proof. intros H. unfold plain_char. now rewrite H. Qed.

(** The date column: two digits, a point, two digits, a point, two digits
    in columns 7 to 14 are the day, the month and the year after 2000. *)
Lemma fecha_of_column (line dd mm yy : string) :
  15 <= String.length line ->
  two_digits dd -> two_digits mm -> two_digits yy ->
  PyStr.slice 7 15 line = dd ++ "." ++ mm ++ "." ++ yy ->
  Base.fecha_of line
  = if PyDate.valid_date (2000 + PyDate.int_of yy) (PyDate.int_of mm)
                         (PyDate.int_of dd)
    then Some (PyDate.Date (2000 + PyDate.int_of yy) (PyDate.int_of mm)
                           (PyDate.int_of dd))
    else None.
Proof.
  intros Hlen Hd Hm Hy Hcol.
  rewrite <- (strptime_numeric dd mm yy Hd Hm Hy).
  destruct (two_digits_chars _ Hd) as (d1 & d2 & -> & Hd1 & Hd2).
  destruct (two_digits_chars _ Hm) as (m1 & m2 & -> & Hm1 & Hm2).
  destruct (two_digits_chars _ Hy) as (y1 & y2 & -> & Hy1 & Hy2).
  unfold Base.fecha_of.
  apply Nat.leb_le in Hlen. rewrite Hlen, Hcol. cbn [append].
  pose proof (digit_not_space _ Hd1) as Sd1.
  pose proof (digit_not_space _ Hy2) as Sy2.
  pose proof (digit_not_dot _ Hd1) as Pd1.
  pose proof (digit_not_dot _ Hd2) as Pd2.
  pose proof (digit_not_dot _ Hm1) as Pm1.
  pose proof (digit_not_dot _ Hm2) as Pm2.
  pose proof (digit_not_dot _ Hy1) as Py1.
  pose proof (digit_not_dot _ Hy2) as Py2.
  set (col := String d1 (String d2 (String "." (String m1 (String m2
                (String "." (String y1 (String y2 "")))))))).
  assert (Hstrip : PyStr.strip col = col).
  { unfold PyStr.strip, col. cbn [PyStr.lstrip]. rewrite Sd1.
    change (String d1 (String d2 (String "." (String m1 (String m2
              (String "." (String y1 (String y2 ""))))))))
      with (String d1 (String d2 (String "." (String m1 (String m2
              (String "." (String y1 ""))))))
            ++ String y2 "").
    now apply rstrip_app_char. }
  rewrite Hstrip.
  assert (Hmatch : rmatch_of Base.fecha_re col = Some (RMatch 0 8 [(1, (0, 8))])).
  { unfold rmatch_of, match_at, Base.fecha_re, col.
    cbn [run Rep digit C rest pos groups Nat.eqb].
    rewrite Hd1, Hd2, Hm1, Hm2, Hy1, Hy2, !Ascii.eqb_refl. reflexivity. }
  rewrite Hmatch. unfold group.
  cbn [m_groups lookup Nat.eqb PyStr.slice Nat.sub PyDate.opt_default].
  unfold col. cbn [PyStr.slice Nat.sub PyStr.slice_from PyStr.slice_to PyStr.split].
  rewrite Pd1, Pd2, Pm1, Pm2, Py1, Py2, !Ascii.eqb_refl.
  cbn [String.length Nat.eqb append].
  rewrite parse_date_eq.
  set (s := String d1 (String d2 (String "/" (String m1 (String m2
              (String "/" (String "2" (String "0" (String y1 (String y2 "")))))))))).
  assert (Hs : PyStr.strip s = s).
  { unfold PyStr.strip, s. cbn [PyStr.lstrip]. rewrite Sd1.
    change (String d1 (String d2 (String "/" (String m1 (String m2
              (String "/" (String "2" (String "0" (String y1 (String y2 ""))))))))))
      with (String d1 (String d2 (String "/" (String m1 (String m2
              (String "/" (String "2" (String "0" (String y1 ""))))))))
            ++ String y2 "").
    now apply rstrip_app_char. }
  rewrite Hs. unfold s at 1. cbn [PyStr.is_empty].
  rewrite normalize_plain.
  2:{ unfold s. cbn [PyStr.forallb].
      rewrite (digit_plain d1), (digit_plain d2), (digit_plain m1),
        (digit_plain m2), (digit_plain y1), (digit_plain y2) by assumption.
      reflexivity. }
  cbn [Utils.formats_to_try Utils.try_formats].
  now destruct (PyDate.strptime s "%d/%m/%Y").
Qed.

Section Alphabet.

Context {A : Type}.
Variable P : ascii -> bool.

Lemma forallb_app_str (p : ascii -> bool) (s t : string) :
  PyStr.forallb p (s ++ t) = PyStr.forallb p s && PyStr.forallb p t.
Proof.
  induction s as [|c s IH]; simpl; [reflexivity|].
  now rewrite IH, andb_assoc.
Qed.

Lemma within_refl (st : mstate) : within P st st.
Proof. now exists "". Qed.

Lemma within_trans (a b c : mstate) :
  within P a b -> within P b c -> within P a c.
Proof.
  intros (w1 & H1 & F1) (w2 & H2 & F2). exists (w1 ++ w2). split.
  - now rewrite H1, H2, append_assoc_str.
  - now rewrite forallb_app_str, F1, F2.
Qed.

Lemma star_loop_within body (Hbody : sound_in (A := A) P body)
      (k : mstate -> option A) :
  forall fuel st x, star_loop body k fuel st = Some x ->
    exists st', k st' = Some x /\ within P st st'.
Proof.
  induction fuel as [|fuel IH]; intros st x H; simpl in H.
  - exists st. split; [exact H | apply within_refl].
  - destruct (body st _) as [y|] eqn:Hb.
    + injection H as ->. apply Hbody in Hb.
      destruct Hb as (st1 & H1 & Hw).
      destruct (Re.pos st <? Re.pos st1); [|discriminate].
      apply IH in H1. destruct H1 as (st' & H1 & Hw').
      exists st'. split; [exact H1 | eapply within_trans; eassumption].
    + exists st. split; [exact H | apply within_refl].
Qed.

Lemma lazy_loop_within body (Hbody : sound_in (A := A) P body)
      (k : mstate -> option A) :
  forall fuel st x, lazy_loop body k fuel st = Some x ->
    exists st', k st' = Some x /\ within P st st'.
Proof.
  induction fuel as [|fuel IH]; intros st x H; simpl in H.
  - exists st. split; [exact H | apply within_refl].
  - destruct (k st) as [y|] eqn:Hk.
    + injection H as ->. exists st. split; [exact Hk | apply within_refl].
    + apply Hbody in H. destruct H as (st1 & H1 & Hw).
      destruct (Re.pos st <? Re.pos st1); [|discriminate].
      apply IH in H1. destruct H1 as (st' & H1 & Hw').
      exists st'. split; [exact H1 | eapply within_trans; eassumption].
Qed.

Lemma run_within (r : re) :
  alphabet P r -> sound_in P (fun st k => run (A := A) r st k).
Proof.
  induction r as [|p|a IHa b IHb|a IHa b IHb|a IHa|a IHa|n a IHa| |];
    intros Hr st k x H; cbn [run] in H; cbn [alphabet] in Hr.
  - exists st. split; [exact H | apply within_refl].
  - destruct st as [ps rs gs]. cbn [rest Re.pos groups] in H.
    destruct rs as [|c s]; [discriminate|].
    destruct (p c) eqn:Hc; [|discriminate].
    eexists. split; [exact H|]. exists (String c ""). split; [reflexivity|].
    simpl. now rewrite (Hr c Hc).
  - destruct Hr as [Ha Hb].
    apply (IHa Ha) in H. destruct H as (st1 & H & Hw).
    apply (IHb Hb) in H. destruct H as (st' & H & Hw').
    exists st'. split; [exact H | eapply within_trans; eassumption].
  - destruct Hr as [Ha Hb]. destruct (run a st k) as [y|] eqn:Hra.
    + injection H as ->. now apply (IHa Ha) in Hra.
    + now apply (IHb Hb) in H.
  - now apply (star_loop_within _ (IHa Hr)) in H.
  - now apply (lazy_loop_within _ (IHa Hr)) in H.
  - apply (IHa Hr) in H. destruct H as (st1 & H & Hw).
    eexists. split; [exact H|]. exact Hw.
  - destruct (Re.pos st =? 0); [|discriminate].
    exists st. split; [exact H | apply within_refl].
  - exists st. split; [|apply within_refl].
    destruct (rest st) as [|c [|c' s]]; try discriminate; [exact H|].
    destruct (Ascii.eqb c "010"); [exact H | discriminate].
Qed.

End Alphabet.

(** An installment annotation found by [cuota_re] begins with a whitespace
    character and runs to the end of the line over characters that are no
    point. *)
Lemma cuota_match_shape (l : string) (m : rmatch) :
  search Base.cuota_re l = Some m ->
  exists c s, PyStr.slice_from (m_start m) l = String c s
              /\ PyStr.is_space c = true
              /\ PyStr.forallb no_point (String c s) = true.
Proof.
  intros H. apply search_from_bounds in H. destruct H as (_ & _ & _ & H).
  rewrite Nat.sub_0_r in H.
  destruct (PyStr.slice_from (m_start m) l) as [|c s]; [discriminate H|].
  exists c, s. split; [reflexivity|].
  unfold match_at, Base.cuota_re in H.
  change (run (Seq (Plus ws) (Seq (Opt (Seq (Lit "Cuota") (Plus ws)))
            (Seq (Grp 1 (Seq (Rep 2 digit) (Seq (C "/") (Rep 2 digit))))
              (Seq (Star ws) Eol))))
            (MState (m_start m) (String c s) [])
            (fun st => Some (RMatch (m_start m) (pos st) (groups st))))
    with (run (Seq (Plus ws) (Seq (Opt (Seq (Lit "Cuota") (Plus ws)))
            (Seq (Grp 1 (Seq (Rep 2 digit) (Seq (C "/") (Rep 2 digit))))
              (Star ws))))
            (MState (m_start m) (String c s) [])
            (fun st' => run Eol st'
               (fun st => Some (RMatch (m_start m) (pos st) (groups st)))))
    in H.
  assert (Hsp : PyStr.is_space c = true).
  { revert H. unfold Plus, ws. cbn [run rest]. now destruct (PyStr.is_space c). }
  split; [exact Hsp|].
  apply (run_within no_point) in H.
  - destruct H as (st' & HE & w & Hw & Fw). cbn [rest] in Hw.
    rewrite Hw, forallb_app_str, Fw. cbn [run] in HE.
    destruct (rest st') as [|e [|e' t]]; try discriminate HE; [reflexivity|].
    destruct (Ascii.eqb e "010") eqn:He; [|discriminate HE].
    apply Ascii.eqb_eq in He. rewrite He. reflexivity.
  - unfold Plus, Opt, ws, digit, C. cbn [alphabet Lit Rep C].
    repeat split; trivial; intros x Hx; unfold no_point;
      destruct (Ascii.eqb_spec x ".") as [->|]; try reflexivity;
      discriminate Hx.
Qed.

Section DateColumn.

Import Base.

Lemma slice_to_from (n : nat) (s : string) :
  s = PyStr.slice_to n s ++ PyStr.slice_from n s.
Proof.
  revert s. induction n as [|n IH]; intros [|c s]; simpl; try reflexivity.
  now rewrite <- IH.
Qed.

Lemma length_slice_to_le (n : nat) (s : string) :
  n <= String.length s -> String.length (PyStr.slice_to n s) = n.
Proof.
  revert s. induction n as [|n IH]; intros [|c s] H; simpl in *;
    try reflexivity; try lia.
  rewrite IH; lia.
Qed.

Lemma slice_to_app (a t : string) (n : nat) :
  String.length a <= n ->
  PyStr.slice_to n (a ++ t) = a ++ PyStr.slice_to (n - String.length a) t.
Proof.
  revert n. induction a as [|c a IH]; intros n H; simpl in *.
  - now rewrite Nat.sub_0_r.
  - destruct n as [|n]; [lia|]. simpl. rewrite IH by lia. reflexivity.
Qed.

Lemma rstrip_app_keeps (a : string) (c : ascii) (t : string) :
  PyStr.is_space c = false ->
  PyStr.rstrip (a ++ String c t) = a ++ String c (PyStr.rstrip t).
Proof.
  intros Hc. induction a as [|x a IH]; cbn [append PyStr.rstrip].
  - now rewrite Hc, andb_false_r.
  - rewrite IH. now destruct a.
Qed.

(** The column split off a line. *)
Lemma column_split (line col : string) :
  PyStr.slice 7 15 line = col -> String.length col = 8 ->
  exists pre post, line = pre ++ col ++ post /\ String.length pre = 7.
Proof.
  unfold PyStr.slice. cbn [Nat.sub]. intros Hcol Hlen.
  exists (PyStr.slice_to 7 line), (PyStr.slice_from 8 (PyStr.slice_from 7 line)).
  assert (H8 : 8 <= String.length (PyStr.slice_from 7 line)).
  { rewrite <- Hlen, <- Hcol.
    rewrite (slice_to_from 8 (PyStr.slice_from 7 line)) at 2.
    rewrite length_app_str. lia. }
  rewrite length_slice_from in H8. split.
  - rewrite <- Hcol, <- slice_to_from. apply slice_to_from.
  - apply length_slice_to_le. lia.
Qed.

Variables (a : string) (c : ascii).
Hypothesis Hc : PyStr.is_space c = false.

(** Cutting a line at or after the end of [a ++ c] and stripping it on the
    right leaves [a ++ c] at its start. *)
Lemma cut_keeps (n : nat) (l : string) :
  String.length (a ++ String c "") <= n ->
  begins_with (a ++ String c "") l ->
  begins_with (a ++ String c "") (PyStr.rstrip (PyStr.slice_to n l)).
Proof.
  intros Hn [post ->]. rewrite slice_to_app by exact Hn.
  rewrite append_assoc_str. cbn [append].
  rewrite rstrip_app_keeps by exact Hc.
  eexists. rewrite append_assoc_str. reflexivity.
Qed.

End DateColumn.

Section DateColumnRead.

Import Base.

Lemma slice_from_app (a t : string) :
  PyStr.slice_from (String.length a) (a ++ t) = t.
Proof. induction a as [|c a IH]; simpl; [now destruct t | exact IH]. Qed.

Lemma begins_column (pre col l : string) :
  String.length pre = 7 -> String.length col = 8 ->
  begins_with (pre ++ col) l ->
  15 <= String.length l /\ PyStr.slice 7 15 l = col.
Proof.
  intros Hp Hcl [post ->]. split.
  - rewrite !length_app_str. lia.
  - unfold PyStr.slice. cbn [Nat.sub]. rewrite append_assoc_str.
    pose proof (slice_from_app pre (col ++ post)) as E1. rewrite Hp in E1.
    pose proof (slice_to_app col post 8) as E2. rewrite Hcl in E2.
    rewrite E1, E2 by lia. cbn [Nat.sub].
    destruct post; simpl; apply append_nil_r.
Qed.

Lemma cut_keeps_line (A a : string) (c : ascii) (n : nat) (l : string) :
  A = a ++ String c "" -> PyStr.is_space c = false ->
  String.length A <= n ->
  begins_with A l -> begins_with A (PyStr.rstrip (PyStr.slice_to n l)).
Proof. intros -> Hc. now apply cut_keeps. Qed.

Lemma locate_monto_pos (line raw : string) (pos : nat) :
  locate_monto line = Some (raw, pos) -> min_amount_pos <= pos.
Proof.
  unfold locate_monto, min_amount_pos.
  destruct (search monto_doble_re _) as [m|].
  - intros H. injection H as _ <-. lia.
  - destruct (search monto_simple_re _) as [m|]; [|discriminate].
    intros H. injection H as _ <-. lia.
Qed.

Variables d1 d2 m1 m2 y1 y2 : ascii.
Hypothesis Hd1 : PyStr.is_digit d1 = true.
Hypothesis Hd2 : PyStr.is_digit d2 = true.
Hypothesis Hm1 : PyStr.is_digit m1 = true.
Hypothesis Hm2 : PyStr.is_digit m2 = true.
Hypothesis Hy1 : PyStr.is_digit y1 = true.
Hypothesis Hy2 : PyStr.is_digit y2 = true.

(** An installment annotation cannot begin within the date column or
    before it. *)
Lemma cuota_after_date (pre l : string) (m : rmatch) :
  String.length pre = 7 ->
  begins_with
    (pre ++ String d1 (String d2 (String "." (String m1 (String m2
              (String "." (String y1 (String y2 "")))))))) l ->
  search cuota_re l = Some m -> 15 <= m_start m.
Proof.
  intros Hp [post ->] H.
  destruct (cuota_match_shape _ _ H) as (c & s & Hs & Hsp & Hnp).
  destruct pre as [|p1 [|p2 [|p3 [|p4 [|p5 [|p6 [|p7 [|p8 pre]]]]]]]];
    try discriminate Hp.
  destruct (le_lt_dec 15 (m_start m)) as [Hle|Hlt]; [exact Hle|exfalso].
  revert Hs Hlt. generalize (m_start m). intros ms Hs Hlt.
  pose proof (digit_not_space _ Hy1) as Sy1.
  pose proof (digit_not_space _ Hy2) as Sy2.
  do 15 (destruct ms as [|ms];
         [cbn [append PyStr.slice_from] in Hs; injection Hs as <- <-;
          first [ congruence
                | cbn [PyStr.forallb] in Hnp;
                  repeat (apply andb_prop in Hnp;
                          let Hx := fresh "Hx" in destruct Hnp as [Hx Hnp];
                          try discriminate Hx) ]
         |]).
  lia.
Qed.

End DateColumnRead.

(** X17.  The date of a record comes from columns 7 to 14 of the line and
    from nothing else: when they hold DD.MM.YY, every record
    [_parse_by_fixed_positions] emits for the line carries the day DD of
    month MM of the year 20YY when that day exists, and no date when it
    does not (the record is emitted all the same); years before 2000 cannot
    be read. *)
Theorem date_column_read (line dd mm yy : string)
  (Hdd : two_digits dd) (Hmm : two_digits mm) (Hyy : two_digits yy)
  (Hcol : PyStr.slice 7 15 line = dd ++ "." ++ mm ++ "." ++ yy) :
  Forall (fun mov =>
            Base.fecha mov
            = if PyDate.valid_date (2000 + PyDate.int_of yy) (PyDate.int_of mm)
                                   (PyDate.int_of dd)
              then Some (PyDate.Date (2000 + PyDate.int_of yy)
                                     (PyDate.int_of mm) (PyDate.int_of dd))
              else None)
         (Base._parse_by_fixed_positions line).
Proof.
  rewrite <- (fecha_of_column (PyStr.slice_to 15 line) dd mm yy); trivial.
  2:{ destruct (column_split line _ Hcol) as (pre & post & -> & Hp).
      - destruct Hdd as [Ld _], Hmm as [Lm _], Hyy as [Ly _].
        rewrite !length_app_str, Ld, Lm, Ly. reflexivity.
      - rewrite length_slice_to_le; [lia|].
        destruct Hdd as [Ld _], Hmm as [Lm _], Hyy as [Ly _].
        rewrite !length_app_str, Ld, Lm, Ly, Hp. simpl. lia. }
  2:{ rewrite <- Hcol. unfold PyStr.slice. cbn [Nat.sub].
      clear. revert line.
      assert (H : forall n k s,
                 PyStr.slice_to k (PyStr.slice_from n (PyStr.slice_to (n + k) s))
                 = PyStr.slice_to k (PyStr.slice_from n s)).
      { induction n as [|n IH]; intros k s.
        - cbn [PyStr.slice_from Nat.add]. revert s.
          induction k as [|k IHk]; intros [|c s]; simpl; try reflexivity.
          now rewrite IHk.
        - destruct s as [|c s]; [reflexivity|]. simpl. apply IH. }
      intros line. apply (H 7 8). }
  set (A := PyStr.slice_to 15 line).
  assert (HA : exists pre d1 d2 m1 m2 y1 y2,
             String.length pre = 7
             /\ PyStr.is_digit d1 = true /\ PyStr.is_digit d2 = true
             /\ PyStr.is_digit m1 = true /\ PyStr.is_digit m2 = true
             /\ PyStr.is_digit y1 = true /\ PyStr.is_digit y2 = true
             /\ A = pre ++ String d1 (String d2 (String "." (String m1
                      (String m2 (String "." (String y1 (String y2 "")))))))
             /\ begins_with A line).
  { destruct (two_digits_chars _ Hdd) as (d1 & d2 & Ed & Hd1 & Hd2).
    destruct (two_digits_chars _ Hmm) as (m1 & m2 & Em & Hm1 & Hm2).
    destruct (two_digits_chars _ Hyy) as (y1 & y2 & Ey & Hy1 & Hy2).
    subst dd mm yy. cbn [append] in Hcol.
    destruct (column_split line _ Hcol eq_refl) as (pre & post & E & Hp).
    exists pre, d1, d2, m1, m2, y1, y2. repeat (split; [assumption|]).
    assert (EA : A = pre ++ String d1 (String d2 (String "." (String m1
                      (String m2 (String "." (String y1 (String y2 "")))))))).
    { unfold A. rewrite E, <- append_assoc_str, slice_to_app.
      - rewrite length_app_str, Hp. cbn [String.length Nat.add Nat.sub].
        destruct post; simpl; apply append_nil_r.
      - rewrite length_app_str, Hp. simpl. lia. }
    split; [exact EA|]. exists post. now rewrite EA, append_assoc_str. }
  destruct HA as (pre & d1 & d2 & m1 & m2 & y1 & y2 & Hp & Hd1 & Hd2 & Hm1
                  & Hm2 & Hy1 & Hy2 & EA & B0).
  assert (LA : String.length A = 15).
  { rewrite EA, length_app_str, Hp. reflexivity. }
  assert (Hkeep : forall n l, 15 <= n -> begins_with A l ->
                    begins_with A (PyStr.rstrip (PyStr.slice_to n l))).
  { intros n l Hn. apply (cut_keeps_line A
      (pre ++ String d1 (String d2 (String "." (String m1 (String m2
              (String "." (String y1 ""))))))) y2).
    - rewrite EA, append_assoc_str. reflexivity.
    - now apply digit_not_space.
    - now rewrite LA. }
  assert (Hfecha : forall l, begins_with A l ->
                     Base.fecha_of l = Base.fecha_of A).
  { intros l [post ->]. unfold Base.fecha_of.
    rewrite length_app_str, LA. cbn [Nat.leb Nat.add].
    replace (PyStr.slice 7 15 (A ++ post)) with (PyStr.slice 7 15 A);
      [reflexivity|].
    rewrite EA in *.
    assert (E8 : String.length (String d1 (String d2 (String "." (String m1
                   (String m2 (String "." (String y1 (String y2 "")))))))) = 8)
      by reflexivity.
    destruct (begins_column pre _ _ Hp E8
                (ex_intro _ post eq_refl)) as [_ ->].
    destruct (begins_column pre _ _ Hp E8
                (ex_intro _ "" (eq_sym (append_nil_r _)))) as [_ ->].
    reflexivity. }
  unfold Base._parse_by_fixed_positions.
  destruct (PyStr.is_empty line || _); [constructor|].
  destruct (Base.locate_monto line) as [[raw pos]|] eqn:Hloc; [|constructor].
  destruct (Base.monto_str_of raw) as [monto_str|]; [|constructor].
  apply locate_monto_pos in Hloc. unfold Base.min_amount_pos in Hloc.
  assert (B1 : begins_with A (PyStr.rstrip (PyStr.slice_to pos line)))
    by (apply Hkeep; [lia | exact B0]).
  set (l1 := PyStr.rstrip (PyStr.slice_to pos line)) in *. clearbody l1.
  match goal with
  | |- Forall _ (let '(_, _) := ?t in _) =>
      assert (B2 : begins_with A (snd t));
      [|destruct t as [cuota l2]]
  end.
  { destruct (search Base.cuota_re l1) as [cm|] eqn:Hcm; cbn [snd];
      [|exact B1].
    apply Hkeep; [|exact B1]. rewrite EA in B1.
    exact (cuota_after_date d1 d2 m1 m2 y1 y2 Hy1 Hy2 pre l1 cm Hp B1 Hcm). }
  cbn [snd] in B2.
  match goal with
  | |- Forall _ (let '(_, _) := ?t in _) =>
      assert (B3 : begins_with A (snd t));
      [|destruct t as [descripcion l3]]
  end.
  { destruct (31 <? String.length l2); cbn [snd]; [|exact B2].
    apply Hkeep; [lia | exact B2]. }
  cbn [snd] in B3.
  match goal with
  | |- Forall _ (let '(_, _) := ?t in _) =>
      assert (B4 : begins_with A (snd t));
      [|destruct t as [comprobante l4]]
  end.
  { destruct (20 <? String.length l3); cbn [snd]; [|exact B3].
    apply Hkeep; [lia | exact B3]. }
  cbn [snd] in B4. cbv zeta.
  destruct (Utils.extract_amount monto_str); [|constructor].
  destruct (PyStr.truthy _); constructor; [|constructor].
  cbn [Base.fecha]. apply Hfecha, B4.
Qed.

Lemma date_column_read_witness :
  List.length (Base._parse_by_fixed_positions impossible_date_line) = 1
  /\ Forall (fun mov => Base.fecha mov = None)
            (Base._parse_by_fixed_positions impossible_date_line).
Proof.
  split; [vm_compute; reflexivity|].
  apply (date_column_read impossible_date_line "30" "02" "25").
  - split; reflexivity.
  - split; reflexivity.
  - split; reflexivity.
  - vm_compute. reflexivity.
Defined.

(* ================================================================== *)
(** * When [extract_amount] gives up *)
(* ================================================================== *)

Section AmountFailure.

Import Rules.

Lemma has_char_leb (x : ascii) (s : string) :
  PyStr.has_char x s = (1 <=? occurrences x s).
Proof.
  induction s as [|c s IH]; cbn [PyStr.has_char occurrences]; [reflexivity|].
  rewrite IH. destruct (Ascii.eqb c x); reflexivity.
Qed.

Lemma occurrences_filter (x : ascii) (s : string) :
  Utils.is_amount_char x = true ->
  occurrences x (PyStr.filter Utils.is_amount_char s) = occurrences x s.
Proof.
  intros Hx. induction s as [|c s IH]; cbn [PyStr.filter occurrences];
    [reflexivity|].
  destruct (Utils.is_amount_char c) eqn:Hc; cbn [occurrences]; rewrite IH;
    [reflexivity|].
  destruct (Ascii.eqb_spec c x) as [->|]; [congruence | reflexivity].
Qed.

Lemma has_digit_filter (s : string) :
  PyFloat.has_digit (PyStr.filter Utils.is_amount_char s) = PyFloat.has_digit s.
Proof.
  induction s as [|c s IH]; cbn [PyStr.filter PyFloat.has_digit]; [reflexivity|].
  unfold Utils.is_amount_char at 1.
  destruct (PyStr.is_digit c) eqn:Hc; cbn [orb PyFloat.has_digit].
  - now rewrite Hc.
  - destruct (Ascii.eqb c "." || Ascii.eqb c ","); cbn [PyFloat.has_digit];
      rewrite ?Hc; exact IH.
Qed.

Lemma has_digit_apply_roles (comma point : separator_role) (b : string) :
  PyFloat.has_digit (apply_roles comma point b) = PyFloat.has_digit b.
Proof.
  induction b as [|c b IH]; cbn [apply_roles PyFloat.has_digit]; [reflexivity|].
  destruct (Ascii.eqb_spec c ",") as [->|];
    [destruct comma; cbn [PyFloat.has_digit]; exact IH|].
  destruct (Ascii.eqb_spec c ".") as [->|];
    [destruct point; cbn [PyFloat.has_digit]; exact IH|].
  cbn [PyFloat.has_digit]. now rewrite IH.
Qed.

Lemma numeral_apply_roles (comma point : separator_role) (s : string) :
  PyStr.forallb (fun c => PyStr.is_digit c || Ascii.eqb c ".")
    (apply_roles comma point (PyStr.filter Utils.is_amount_char s)) = true.
Proof.
  induction s as [|c s IH]; cbn [PyStr.filter]; [reflexivity|].
  unfold Utils.is_amount_char at 1.
  destruct (PyStr.is_digit c) eqn:Hd; cbn [orb apply_roles].
  - destruct (Ascii.eqb_spec c ",") as [->|]; [discriminate Hd|].
    destruct (Ascii.eqb_spec c ".") as [->|]; [discriminate Hd|].
    cbn [PyStr.forallb]. now rewrite Hd, IH.
  - destruct (Ascii.eqb_spec c ".") as [->|]; cbn [orb apply_roles].
    + cbn [Ascii.eqb Bool.eqb]. destruct point; cbn [PyStr.forallb]; exact IH.
    + destruct (Ascii.eqb_spec c ",") as [->|]; cbn [apply_roles]; [|exact IH].
      cbn [Ascii.eqb Bool.eqb]. destruct comma; cbn [PyStr.forallb]; exact IH.
Qed.

Lemma points_apply_roles (comma point : separator_role) (b : string) :
  PyFloat.count_char "." (apply_roles comma point b)
  = (match comma with Decimal => occurrences "," b | Thousands => 0 end)
    + (match point with Decimal => occurrences "." b | Thousands => 0 end).
Proof.
  induction b as [|c b IH]; cbn [apply_roles PyFloat.count_char occurrences];
    [now destruct comma, point|].
  destruct (Ascii.eqb_spec c ",") as [->|].
  - cbn [Ascii.eqb Bool.eqb]. destruct comma, point;
      cbn [PyFloat.count_char Ascii.eqb Bool.eqb]; rewrite IH; lia.
  - destruct (Ascii.eqb_spec c ".") as [->|].
    + destruct comma, point;
      cbn [PyFloat.count_char Ascii.eqb Bool.eqb]; rewrite IH; lia.
    + cbn [PyFloat.count_char]. destruct (Ascii.eqb_spec c ".") as [->|];
        [congruence|]. rewrite IH. destruct comma, point; lia.
Qed.

(** X18.  [extract_amount] fails in two cases only: it returns [None]
    exactly when its input holds no digit, or holds a point together with
    two commas or more (every comma then becomes a decimal point and
    [float] rejects the text).  Any other input converts. *)
Theorem extract_amount_failure (s : string) :
  Utils.extract_amount s = None
  <-> PyFloat.has_digit s = false
      \/ (PyStr.has_char "." s = true /\ 2 <= occurrences "," s).
Proof.
  rewrite extract_amount_refines, amount_by_rules_eq.
  assert (E : PyFloat.float_of_str
                (apply_roles (comma_role (PyStr.filter Utils.is_amount_char s))
                             (point_role (PyStr.filter Utils.is_amount_char s))
                             (PyStr.filter Utils.is_amount_char s)) = None
              <-> PyFloat.has_digit s = false
                  \/ (PyStr.has_char "." s = true /\ 2 <= occurrences "," s)).
  { unfold PyFloat.float_of_str.
    rewrite numeral_apply_roles, has_digit_apply_roles, has_digit_filter,
      points_apply_roles.
    unfold comma_role, point_role.
    rewrite !has_char_leb, !occurrences_filter by reflexivity.
    destruct (PyFloat.has_digit s); cbn [andb];
      [rewrite andb_true_r | rewrite andb_false_r; tauto].
    generalize (trailing "," (PyStr.filter Utils.is_amount_char s) <=? 2),
               (trailing "." (PyStr.filter Utils.is_amount_char s) <=? 2),
               (leading "." (PyStr.filter Utils.is_amount_char s) <=? 3).
    generalize (occurrences "." s), (occurrences "," s).
    intros p c tc tp lp.
    destruct p as [|[|p]], c as [|[|c]], tc, tp, lp;
      cbn [Nat.leb Nat.eqb andb Nat.add];
      split; intros H; try discriminate H; try reflexivity;
      try (right; split; [reflexivity | lia]);
      destruct H as [H|[H1 H2]]; try discriminate H; try discriminate H1; lia. }
  destruct (PyFloat.float_of_str _) as [v|].
  - split; [discriminate|]. intros H. apply E in H. discriminate H.
  - split; [intros _; now apply E | reflexivity].
Qed.

End AmountFailure.

(* ================================================================== *)
(** * Month names *)
(* ================================================================== *)

Section Normalize.

Lemma date_punct_facts (c : ascii) :
  date_punct c = true ->
  PyStr.lower_char c = c /\ PyStr.is_lower_ascii c = false.
Proof.
  destruct c as [[] [] [] [] [] [] [] []]; vm_compute; intros H;
    try discriminate H; split; reflexivity.
Qed.

Lemma lower_app (s t : string) :
  PyStr.lower (s ++ t) = PyStr.lower s ++ PyStr.lower t.
Proof. induction s as [|c s IH]; simpl; [reflexivity | now rewrite IH]. Qed.

Lemma lower_punct (s : string) :
  PyStr.forallb date_punct s = true -> PyStr.lower s = s.
Proof.
  intros H. apply lower_fixed. revert H. apply forallb_mono.
  intros c Hc. destruct (date_punct_facts c Hc) as [-> _].
  apply Ascii.eqb_refl.
Qed.

(** No character of [y] occurs in [old]. *)
Lemma startswith_app_absent (old : string) : forall t y,
  PyStr.forallb (fun c => negb (PyStr.has_char c old)) y = true ->
  PyStr.is_empty old = false ->
  PyStr.startswith old (t ++ y) = PyStr.startswith old t.
Proof.
  induction old as [|o old IH]; intros t y Hy Ho; [discriminate Ho|].
  destruct t as [|c t]; cbn [append PyStr.startswith].
  - destruct y as [|c y]; [reflexivity|].
    cbn [PyStr.forallb PyStr.has_char] in Hy.
    apply andb_prop in Hy. destruct Hy as [Hc _].
    apply negb_true_iff, orb_false_elim in Hc. destruct Hc as [Hc _].
    cbn [PyStr.startswith]. now rewrite Hc.
  - destruct (Ascii.eqb o c); [|reflexivity]. cbn [andb].
    destruct old as [|o' old']; [now destruct t|].
    apply IH; [|reflexivity].
    revert Hy. apply forallb_mono. intros x Hx.
    apply negb_true_iff in Hx. cbn [PyStr.has_char] in Hx.
    apply orb_false_elim in Hx. apply negb_true_iff. exact (proj2 Hx).
Qed.

Lemma startswith_length (old t : string) :
  PyStr.startswith old t = true -> String.length old <= String.length t.
Proof.
  revert t. induction old as [|o old IH]; intros [|c t] H; simpl in *;
    try lia; try discriminate H.
  apply andb_prop in H. specialize (IH t (proj2 H)). lia.
Qed.

Variables (old new : string).
Hypothesis Hold : PyStr.is_empty old = false.

Lemma replace_from_absent (y : string) :
  PyStr.forallb (fun c => negb (PyStr.has_char c old)) y = true ->
  PyStr.replace_from old new 0 y = y.
Proof.
  induction y as [|c y IH]; cbn [PyStr.replace_from PyStr.forallb];
    [reflexivity|].
  intros H. apply andb_prop in H. destruct H as [Hc Hy].
  destruct old as [|o old'] eqn:E; [discriminate Hold|].
  cbn [PyStr.startswith]. apply negb_true_iff in Hc.
  cbn [PyStr.has_char] in Hc. apply orb_false_elim in Hc.
  rewrite (proj1 Hc). cbn [andb]. now rewrite (IH Hy).
Qed.

(** Text after which only foreign characters come: the replacement stays
    within it. *)
Lemma replace_from_app_right (y : string) :
  PyStr.forallb (fun c => negb (PyStr.has_char c old)) y = true ->
  forall t k, k <= String.length t ->
    PyStr.replace_from old new k (t ++ y)
    = PyStr.replace_from old new k t ++ y.
Proof.
  intros Hy. induction t as [|c t IH]; intros k Hk.
  - simpl in Hk. replace k with 0 by lia. cbn [append].
    rewrite (replace_from_absent y Hy). now destruct y.
  - cbn [append PyStr.replace_from]. destruct k as [|k].
    + change (String c (t ++ y)) with (String c t ++ y).
      rewrite (startswith_app_absent old (String c t) y Hy Hold).
      destruct (PyStr.startswith old (String c t)) eqn:Hs.
      * apply startswith_length in Hs. simpl in Hs.
        rewrite IH by lia. now rewrite append_assoc_str.
      * rewrite IH by lia. reflexivity.
    + simpl in Hk. apply IH. lia.
Qed.

Lemma replace_from_app_left (a t : string) :
  PyStr.forallb (fun c => negb (PyStr.has_char c old)) a = true ->
  PyStr.replace_from old new 0 (a ++ t)
  = a ++ PyStr.replace_from old new 0 t.
Proof.
  induction a as [|c a IH]; cbn [append PyStr.forallb]; [reflexivity|].
  intros H. apply andb_prop in H. destruct H as [Hc Ha].
  cbn [PyStr.replace_from].
  destruct old as [|o old'] eqn:E; [discriminate Hold|].
  cbn [PyStr.startswith]. apply negb_true_iff in Hc.
  cbn [PyStr.has_char] in Hc. apply orb_false_elim in Hc.
  rewrite (proj1 Hc). cbn [andb]. now rewrite (IH Ha).
Qed.

Lemma replace_between (a m b : string) :
  PyStr.forallb (fun c => negb (PyStr.has_char c old)) a = true ->
  PyStr.forallb (fun c => negb (PyStr.has_char c old)) b = true ->
  PyStr.replace old new (a ++ m ++ b) = a ++ PyStr.replace old new m ++ b.
Proof.
  intros Ha Hb. unfold PyStr.replace. rewrite Hold.
  rewrite replace_from_app_left by exact Ha.
  rewrite replace_from_app_right by (exact Hb || lia). reflexivity.
Qed.

End Normalize.

Lemma has_char_class (p : ascii -> bool) (c : ascii) (s : string) :
  PyStr.forallb p s = true -> p c = false -> PyStr.has_char c s = false.
Proof.
  intros Hs Hc. induction s as [|x s IH]; cbn [PyStr.has_char]; [reflexivity|].
  cbn [PyStr.forallb] in Hs. apply andb_prop in Hs. destruct Hs as [Hx Hs].
  rewrite (IH Hs), orb_false_r.
  destruct (Ascii.eqb_spec x c) as [->|]; [congruence | reflexivity].
Qed.

Lemma fold_replace_between (a b : string) (months : list (string * string)) :
  PyStr.forallb date_punct a = true -> PyStr.forallb date_punct b = true ->
  Forall (fun '(es, _) => PyStr.is_empty es = false
                          /\ PyStr.forallb PyStr.is_lower_ascii es = true)
         months ->
  forall m,
    fold_left (fun text_lower '(es_month, en_month) =>
                 PyStr.replace es_month en_month text_lower)
              months (a ++ m ++ b)
    = a ++ fold_left (fun text_lower '(es_month, en_month) =>
                        PyStr.replace es_month en_month text_lower)
                     months m ++ b.
Proof.
  intros Ha Hb. induction 1 as [|[es en] months [He Hl] _ IH]; intros m;
    cbn [fold_left]; [reflexivity|].
  rewrite replace_between; [apply IH | exact He | |].
  - revert Ha. apply forallb_mono. intros c Hc. apply negb_true_iff.
    apply (has_char_class _ _ _ Hl). apply (date_punct_facts c Hc).
  - revert Hb. apply forallb_mono. intros c Hc. apply negb_true_iff.
    apply (has_char_class _ _ _ Hl). apply (date_punct_facts c Hc).
Qed.

(** The month table applied to a word between digits, whitespace and date
    punctuation. *)
Lemma normalize_between (a b : string)
  (Ha : PyStr.forallb date_punct a = true)
  (Hb : PyStr.forallb date_punct b = true) (m : string) :
  Utils.normalize_spanish_month (a ++ m ++ b)
  = a ++ Utils.normalize_spanish_month m ++ b.
Proof.
  unfold Utils.normalize_spanish_month.
  rewrite !lower_app, (lower_punct a Ha), (lower_punct b Hb).
  apply fold_replace_between; trivial.
  unfold Config.MESES_ES. repeat constructor.
Qed.

(** X19.  [normalize_spanish_month] acts on a word between digits,
    whitespace and date punctuation without regard to what surrounds it, and
    it replaces the three-letter abbreviations first, also inside a longer
    name: of the twelve full Spanish month names nine come out as the
    English name and three as no month at all ("enero" as "janro", "agosto"
    as "augsto", "diciembre" as "deciembre"). *)
Theorem normalize_month_words (a b : string)
  (Ha : PyStr.forallb date_punct a = true)
  (Hb : PyStr.forallb date_punct b = true) :
  (forall m : string,
     Utils.normalize_spanish_month (a ++ m ++ b)
     = a ++ Utils.normalize_spanish_month m ++ b)
  /\ List.map (fun m => Utils.normalize_spanish_month (a ++ m ++ b))
              full_months_es
     = List.map (fun m => a ++ m ++ b)
         ["janro"; "february"; "march"; "april"; "may"; "june"; "july";
          "augsto"; "september"; "october"; "november"; "deciembre"].
Proof.
  split; [exact (normalize_between a b Ha Hb)|].
  unfold full_months_es. cbn [List.map].
  rewrite !(normalize_between a b Ha Hb).
  repeat (f_equal; []). vm_compute. reflexivity.
Qed.

Lemma normalize_month_words_witness :
  Utils.normalize_spanish_month ("15 " ++ "agosto" ++ " 2025")
  = "15 " ++ "augsto" ++ " 2025".
Proof.
  exact (proj1 (normalize_month_words "15 " " 2025" eq_refl eq_refl) "agosto").
Defined.

Lemma digit_punct (c : ascii) : PyStr.is_digit c = true -> date_punct c = true.
Proof. intros H. unfold date_punct. now rewrite H. Qed.

Section NamedMonths.

Context {A : Type}.

(** The day, the whitespace and the month of a named-month format, before
    the rest [K] of the match. *)
Lemma run_day_month (fb : ascii) (d1 d2 : ascii) (w s : string) (rd rm : re)
      (K : mstate -> option A) :
  PyStr.is_digit d1 = true -> PyStr.is_digit d2 = true ->
  PyDate.directive "d" = Some rd ->
  (fb = "b"%char /\ PyDate.directive "b" = Some rm /\ w = "may"
   \/ fb = "B"%char /\ PyDate.directive "B" = Some rm
      /\ In w ["february"; "march"; "april"; "may"; "june"; "july";
               "september"; "october"; "november"]) ->
  run (Seq rd (Seq (Plus ws) rm))
      (MState 0 (String d1 (String d2 (String " " (w ++ s)))) []) K
  = if (1 <=? PyDate.int_of (String d1 (String d2 "")))
       && (PyDate.int_of (String d1 (String d2 "")) <=? 31)
    then K (MState (3 + String.length w) s
              [(if Ascii.eqb fb "b" then 4 else 5, (3, 3 + String.length w));
               (1, (0, 2))])
    else None.
Proof.
  intros Hd1 Hd2 Erd Hw. injection Erd as <-.
  destruct Hw as [(-> & Erm & ->)|(-> & Erm & Hw)]; injection Erm as <-.
  - digit_split Hd1; digit_split Hd2; vm_compute;
      try (match goal with |- context [K ?st] => destruct (K st) end);
      reflexivity.
  - repeat (destruct Hw as [<-|Hw];
            [digit_split Hd1; digit_split Hd2; vm_compute;
             try (match goal with |- context [K ?st] => destruct (K st) end);
             reflexivity|]).
    destruct Hw.
Qed.

End NamedMonths.

Section NamedFormats.

Lemma run_plus_ws_one {A : Type} (x : ascii) (s : string) (p : nat)
      (gs : list (nat * (nat * nat))) (K : mstate -> option A) :
  PyStr.is_space x = false ->
  run (Plus ws) (MState p (String " " (String x s)) gs) K
  = K (MState (S p) (String x s) gs).
Proof.
  intros Hx. unfold Plus, ws.
  cbn [run rest pos groups star_loop String.length].
  change (PyStr.is_space " ") with true. cbv iota.
  cbn [run rest pos groups star_loop String.length]. now rewrite Hx.
Qed.

Lemma format_re_named (fb : ascii) :
  fb = "b"%char \/ fb = "B"%char ->
  PyDate.format_re false (String "%" (String "d" (String " " (String "%"
     (String fb (String " " (String "%" (String "Y" ""))))))))
  = match PyDate.directive "d", PyDate.directive fb, PyDate.directive "Y" with
    | Some d, Some m, Some y =>
        Some (Seq d (Seq (Plus ws) (Seq m (Seq (Plus ws) (Seq y Eps)))))
    | _, _, _ => None
    end.
Proof. intros [->| ->]; reflexivity. Qed.


(** [strptime] on "DD name YYYY" with a named-month format whose month
    directive accepts [w]. *)
Lemma strptime_named (fb d1 d2 y1 y2 y3 y4 : ascii) (w : string) (n : nat) :
  PyStr.is_digit d1 = true -> PyStr.is_digit d2 = true ->
  PyStr.is_digit y1 = true -> PyStr.is_digit y2 = true ->
  PyStr.is_digit y3 = true -> PyStr.is_digit y4 = true ->
  (fb = "b"%char /\ (w, n) = ("may", 5)
   \/ fb = "B"%char
      /\ In (w, n) [("february", 2); ("march", 3); ("april", 4); ("may", 5);
                    ("june", 6); ("july", 7); ("september", 9);
                    ("october", 10); ("november", 11)]) ->
  PyDate.strptime
    (String d1 (String d2 (String " "
       (w ++ String " " (String y1 (String y2 (String y3 (String y4 ""))))))))
    (String "%" (String "d" (String " " (String "%"
       (String fb (String " " (String "%" (String "Y" ""))))))))
  = if PyDate.valid_date
         (PyDate.int_of (String y1 (String y2 (String y3 (String y4 "")))))
         n (PyDate.int_of (String d1 (String d2 "")))
    then Some (PyDate.Date
                 (PyDate.int_of (String y1 (String y2 (String y3 (String y4 "")))))
                 n (PyDate.int_of (String d1 (String d2 ""))))
    else None.
Proof.
  intros Hd1 Hd2 Hy1 Hy2 Hy3 Hy4 Hw.
  assert (Hfb : fb = "b"%char \/ fb = "B"%char) by (destruct Hw as [[-> _]|[-> _]]; tauto).
  unfold PyDate.strptime. rewrite (format_re_named fb Hfb).
  destruct (PyDate.directive "d") as [rd|] eqn:Erd; [|vm_compute in Erd; discriminate].
  destruct (PyDate.directive fb) as [rm|] eqn:Erm;
    [|destruct Hfb as [->| ->]; unfold PyDate.directive in Erm;
      cbn [Ascii.eqb Bool.eqb] in Erm; discriminate Erm].
  destruct (PyDate.directive "Y") as [ry|] eqn:Ery; [|vm_compute in Ery; discriminate].
  unfold rmatch_of, match_at.
  set (k := fun st : mstate => Some (RMatch 0 (pos st) (groups st))).
  set (tail := String " " (String y1 (String y2 (String y3 (String y4 ""))))).
  change (run (Seq rd (Seq (Plus ws) (Seq rm (Seq (Plus ws) (Seq ry Eps)))))
              (MState 0 (String d1 (String d2 (String " " (w ++ tail)))) []) k)
    with (run (Seq rd (Seq (Plus ws) rm))
              (MState 0 (String d1 (String d2 (String " " (w ++ tail)))) [])
              (fun st' => run (Plus ws) st'
                 (fun st'' => run (Seq ry Eps) st'' k))).
  assert (Hw' : fb = "b"%char /\ PyDate.directive "b" = Some rm /\ w = "may"
                \/ fb = "B"%char /\ PyDate.directive "B" = Some rm
                   /\ In w ["february"; "march"; "april"; "may"; "june"; "july";
                            "september"; "october"; "november"]).
  { destruct Hw as [[-> E]|[-> E]].
    - left. injection E as -> _. auto.
    - right. split; [reflexivity|]. split; [exact Erm|].
      apply (in_map fst) in E. exact E. }
  rewrite (run_day_month fb d1 d2 w tail rd rm _ Hd1 Hd2 Erd Hw').
  set (dd := PyDate.int_of (String d1 (String d2 ""))).
  set (yy := PyDate.int_of (String y1 (String y2 (String y3 (String y4 ""))))).
  destruct ((1 <=? dd) && (dd <=? 31)) eqn:Hdok.
  2:{ destruct (PyDate.valid_date yy n dd) eqn:Hv; [|reflexivity].
      apply valid_date_ranges in Hv. rewrite Hdok in Hv. discriminate. }
  unfold tail. rewrite run_plus_ws_one by (now apply digit_not_space).
  rewrite (run_year y1 y2 y3 y4 _ _ _ _ _ ry Hy1 Hy2 Hy3 Hy4 Ery).
  unfold k. cbn [run pos groups m_end m_groups].
  assert (Hcase : ("b"%char, "may", 5) = (fb, w, n)
                  \/ In (fb, w, n)
                       (List.map (fun wn => ("B"%char, fst wn, snd wn))
                          [("february", 2); ("march", 3); ("april", 4);
                           ("may", 5); ("june", 6); ("july", 7);
                           ("september", 9); ("october", 10);
                           ("november", 11)])).
  { destruct Hw as [[-> E]|[-> E]].
    - left. now injection E as -> ->.
    - right. apply (in_map (fun wn => ("B"%char, fst wn, snd wn))) in E.
      exact E. }

  clear Hw Hw' Hfb Erm.
  cbn [List.map fst snd In] in Hcase.
  repeat (destruct Hcase as [Hcase|Hcase];
          [injection Hcase as <- <- <-;
           unfold group;
           cbn [String.length Nat.add Nat.eqb append m_groups lookup Ascii.eqb
                Bool.eqb PyStr.slice Nat.sub PyStr.slice_from PyStr.slice_to
                PyDate.opt_map PyDate.opt_default PyDate.opt_or PyDate.opt_bind];
           repeat match goal with
           | |- context [PyDate.index_of ?x ?l ?i] =>
               let v := eval vm_compute in (PyDate.index_of x l i) in
               change (PyDate.index_of x l i) with v
           end;
           cbn [PyDate.opt_map PyDate.opt_default PyDate.opt_or PyDate.opt_bind];
           reflexivity|]).
  destruct Hcase.
Qed.

End NamedFormats.

(** X20.  A date written DD, a full Spanish month name, YYYY, read by
    [parse_date] with the default formats: for nine of the twelve names the
    result is that day when it exists in the calendar and [None] when it
    does not; for "enero", "agosto" and "diciembre" it is always [None],
    although [MESES_ES] lists them and [DATE_FORMATS] has a format for full
    names. *)
Theorem spanish_full_month_dates (dd yyyy mes : string) (n : nat)
  (Hdd : two_digits dd) (Hyyyy : four_digits yyyy)
  (Hmes : PyDate.index_of mes full_months_es 1 = Some n) :
  Utils.parse_date (dd ++ " " ++ mes ++ " " ++ yyyy) None
  = if (n =? 1) || (n =? 8) || (n =? 12) then None
    else if PyDate.valid_date (PyDate.int_of yyyy) n (PyDate.int_of dd)
         then Some (PyDate.Date (PyDate.int_of yyyy) n (PyDate.int_of dd))
         else None.
Proof.
  destruct (two_digits_chars _ Hdd) as (d1 & d2 & -> & Hd1 & Hd2).
  destruct Hyyyy as [Ly Hy].
  destruct yyyy as [|y1 [|y2 [|y3 [|y4 [|y5 yyyy]]]]]; try discriminate Ly.
  cbn [PyStr.forallb] in Hy.
  apply andb_prop in Hy. destruct Hy as [Hy1 Hy].
  apply andb_prop in Hy. destruct Hy as [Hy2 Hy].
  apply andb_prop in Hy. destruct Hy as [Hy3 Hy].
  apply andb_prop in Hy. destruct Hy as [Hy4 _].
  set (a := String d1 (String d2 " ")).
  set (b := String " " (String y1 (String y2 (String y3 (String y4 ""))))).
  assert (Ha : PyStr.forallb date_punct a = true).
  { unfold a. cbn [PyStr.forallb].
    now rewrite (digit_punct d1), (digit_punct d2) by assumption. }
  assert (Hb : PyStr.forallb date_punct b = true).
  { unfold b. cbn [PyStr.forallb].
    now rewrite (digit_punct y1), (digit_punct y2), (digit_punct y3),
      (digit_punct y4) by assumption. }
  rewrite parse_date_eq.
  assert (Hs : forall m,
             PyStr.strip (String d1 (String d2 "") ++ " " ++ m ++ b)
             = a ++ m ++ b).
  { intros m. unfold PyStr.strip. cbn [append PyStr.lstrip].
    rewrite (digit_not_space _ Hd1).
    change (String d1 (String d2 (String " " (m ++ b)))) with (a ++ m ++ b).
    unfold b.
    change (String " " (String y1 (String y2 (String y3 (String y4 "")))))
      with (String " " (String y1 (String y2 (String y3 ""))) ++ String y4 "").
    rewrite <- !append_assoc_str.
    apply rstrip_app_char. now apply digit_not_space. }
  change (" " ++ String y1 (String y2 (String y3 (String y4 "")))) with b.
  assert (Hne : forall m, PyStr.is_empty (a ++ m ++ b) = false) by reflexivity.
  rewrite Hs, Hne, (normalize_between a b Ha Hb).
  cbn [Utils.formats_to_try].
  assert (Hlost : forall w, In w ["janro"; "augsto"; "deciembre"] ->
            Utils.try_formats (a ++ w ++ b) Config.DATE_FORMATS = None).
  { intros w Hw. unfold a, b. clear -Hd1 Hd2 Hw.
    digit_split Hd1; digit_split Hd2;
      repeat (destruct Hw as [<-|Hw]; [vm_compute; reflexivity|]);
      destruct Hw. }
  assert (Hnum : forall w f,
            In w ["february"; "march"; "april"; "may"; "june"; "july";
                  "september"; "october"; "november"] ->
            In f ["%d/%m/%Y"; "%d-%m-%Y"; "%Y-%m-%d"] ->
            PyDate.strptime (a ++ w ++ b) f = None).
  { intros w f Hw Hf. unfold a, b. clear -Hd1 Hd2 Hw Hf.
    repeat (destruct Hf as [<-|Hf];
            [digit_split Hd1; digit_split Hd2;
             repeat (destruct Hw as [<-|Hw]; [vm_compute; reflexivity|]);
             destruct Hw|]).
    destruct Hf. }
  assert (Habbr : forall w,
            In w ["february"; "march"; "april"; "june"; "july";
                  "september"; "october"; "november"] ->
            PyDate.strptime (a ++ w ++ b) "%d %b %Y" = None).
  { intros w Hw. unfold a, b. clear -Hd1 Hd2 Hw.
    digit_split Hd1; digit_split Hd2;
      repeat (destruct Hw as [<-|Hw]; [vm_compute; reflexivity|]);
      destruct Hw. }
  assert (Hnamed : forall fb w k,
            fb = "b"%char /\ (w, k) = ("may", 5)
            \/ fb = "B"%char
               /\ In (w, k) [("february", 2); ("march", 3); ("april", 4);
                             ("may", 5); ("june", 6); ("july", 7);
                             ("september", 9); ("october", 10);
                             ("november", 11)] ->
            PyDate.strptime (a ++ w ++ b)
              (String "%" (String "d" (String " " (String "%"
                 (String fb (String " " (String "%" (String "Y" ""))))))))
            = if PyDate.valid_date
                   (PyDate.int_of
                      (String y1 (String y2 (String y3 (String y4 "")))))
                   k (PyDate.int_of (String d1 (String d2 "")))
              then Some (PyDate.Date
                     (PyDate.int_of
                        (String y1 (String y2 (String y3 (String y4 "")))))
                     k (PyDate.int_of (String d1 (String d2 ""))))
              else None).
  { intros fb w k Hw.
    exact (strptime_named fb d1 d2 y1 y2 y3 y4 w k Hd1 Hd2 Hy1 Hy2 Hy3 Hy4 Hw). }
  unfold full_months_es in Hmes. cbn [PyDate.index_of] in Hmes.
  repeat match type of Hmes with
  | (if String.eqb ?x mes then _ else _) = _ =>
      destruct (String.eqb_spec x mes) as [<-|_];
      [injection Hmes as <-;
       match goal with
       | |- context [Utils.normalize_spanish_month ?m] =>
           let v := eval vm_compute in (Utils.normalize_spanish_month m) in
           change (Utils.normalize_spanish_month m) with v
       end;
       cbn [Nat.eqb orb]|]
  end; try discriminate Hmes.
  all: try (apply Hlost; simpl; tauto).
  all: unfold Config.DATE_FORMATS; cbn [Utils.try_formats];
    rewrite !Hnum by (simpl; tauto);
    rewrite ?Habbr by (simpl; tauto);
    rewrite ?(Hnamed "b"%char "may" 5) by (left; split; reflexivity);
    match goal with
    | |- context [PyDate.strptime (_ ++ ?w ++ _) "%d %B %Y"] =>
        match goal with
        | |- _ = (if PyDate.valid_date _ ?k _ then _ else _) =>
            rewrite (Hnamed "B"%char w k) by (right; split; [reflexivity|simpl; tauto])
        end
    end;
    rewrite ?Hnum by (simpl; tauto);
    now destruct (PyDate.valid_date _ _ _).
Qed.

Lemma spanish_full_month_dates_witness :
  Utils.parse_date "15 enero 2025" None = None
  /\ Utils.parse_date "15 marzo 2025" None = Some (PyDate.Date 2025 3 15).
Proof.
  split.
  - apply (spanish_full_month_dates "15" "2025" "enero" 1);
      [split; reflexivity | split; reflexivity | reflexivity].
  - apply (spanish_full_month_dates "15" "2025" "marzo" 3);
      [split; reflexivity | split; reflexivity | reflexivity].
Defined.
